(** * Spot Samachar backend: incident moderation, one-time codes, quotas

    A shallow embedding of the parts of the backend that carry state and
    failure modes:

    - [OtpStore]        lib/otp-store.js: the in-memory one-time-code store
                        and the per-address request limiter;
    - [Prisma]          the tables the route handlers read and write;
    - [Location]        utils/location.utils.js: haversine distance, the
                        nearest-station scan, notification of officers;
    - [Auth]            middleware/auth.middleware.js;
    - [PostLimit]       middleware/rateLimit.middleware.js;
    - [AuthRoutes]      the code request route of routes/auth.routes.js;
    - [IncidentRoutes]  the feed, the single-report route and the submission
                        route of routes/incident.routes.js;
    - [AdminRoutes]     the decision route and the complaint review route of
                        routes/admin.routes.js.

    JavaScript numbers that hold timestamps and counters are integers well
    inside the exactly represented range of a double and are modelled as [Z].
    Coordinates and distances are doubles; they are modelled as real numbers
    (no rounding, no NaN).  Every read of the wall clock ([Date.now()],
    [new Date()]) is an explicit argument of the function that performs it,
    one argument per read. *)

From Stdlib Require Import ZArith List String Ascii Lia Reals Lra Sorted.
From Stdlib Require Floats.
From stdpp Require Import base option list gmap strings pretty.

Local Open Scope string_scope.
Local Open Scope Z_scope.

(** [Math.ceil(x / d)] for integers [x] and [d > 0]. *)
Definition ceilDiv (x d : Z) : Z := - ((- x) / d).

(** ** lib/otp-store.js *)

Module OtpStore.

Definition OTP_EXPIRY : Z := 5 * 60 * 1000.
Definition MAX_ATTEMPTS : Z := 3.
Definition RATE_LIMIT_WINDOW : Z := 60 * 60 * 1000.
Definition MAX_REQUESTS_PER_HOUR : Z := 5.

(** A value of [otpStore]: the object literal built by [storeOTP]. *)
Record OtpEntry := mkOtpEntry {
  otp : string;
  attempts : Z;
  createdAt : Z;
  expiresAt : Z
}.

(** A value of [rateLimitStore]. *)
Record RateData := mkRateData {
  count : Z;
  resetAt : Z
}.

(** [storeOTP(email, otp)].  The object literal evaluates [Date.now()] twice,
    once for [createdAt] and once more for [expiresAt]; [t1] and [t2] are
    those two readings, in evaluation order.  [Map.prototype.set] replaces
    whatever the key held. *)
Definition storeOTP (email code : string) (t1 t2 : Z)
    (otpStore : gmap string OtpEntry) : gmap string OtpEntry :=
  <[email := {| otp := code; attempts := 0; createdAt := t1;
                expiresAt := t2 + OTP_EXPIRY |}]> otpStore.

Record VerifyResult := mkVerifyResult {
  success : bool;
  message : string
}.

(** [verifyOTP(email, inputOTP)] at clock reading [now].  [stored.attempts++]
    mutates the object the map holds, which is an insert at the same key.
    The stored code is a string and [!==] is strict: a candidate of another
    type behaves as a wrong string. *)
Definition verifyOTP (email inputOTP : string) (now : Z)
    (otpStore : gmap string OtpEntry) : VerifyResult * gmap string OtpEntry :=
  match otpStore !! email with
  | None => (mkVerifyResult false "OTP not found or expired", otpStore)
  | Some stored =>
      if now >? expiresAt stored then
        (mkVerifyResult false "OTP expired", delete email otpStore)
      else if attempts stored >=? MAX_ATTEMPTS then
        (mkVerifyResult false "Maximum attempts exceeded", delete email otpStore)
      else
        let stored' := {| otp := otp stored; attempts := attempts stored + 1;
                          createdAt := createdAt stored;
                          expiresAt := expiresAt stored |} in
        let otpStore' := <[email := stored']> otpStore in
        if negb (String.eqb (otp stored') inputOTP) then
          (mkVerifyResult false "Invalid OTP", otpStore')
        else
          (mkVerifyResult true "OTP verified successfully", delete email otpStore')
  end.

Record RateResult := mkRateResult {
  allowed : bool;
  rate_message : option string
}.

(** The template literal of the denial message. *)
Definition tooManyRequests (minutes : Z) : string :=
  "Too many requests. Try again after " +:+ pretty minutes +:+ " minutes".

(** [checkRateLimit(email)] at clock reading [now]. *)
Definition checkRateLimit (email : string) (now : Z)
    (rateLimitStore : gmap string RateData) : RateResult * gmap string RateData :=
  match rateLimitStore !! email with
  | None =>
      (mkRateResult true None,
       <[email := {| count := 1; resetAt := now + RATE_LIMIT_WINDOW |}]> rateLimitStore)
  | Some rateData =>
      if now >? resetAt rateData then
        (mkRateResult true None,
         <[email := {| count := 1; resetAt := now + RATE_LIMIT_WINDOW |}]> rateLimitStore)
      else if count rateData >=? MAX_REQUESTS_PER_HOUR then
        (mkRateResult false
           (Some (tooManyRequests (ceilDiv (resetAt rateData - now) 60000))),
         rateLimitStore)
      else
        (mkRateResult true None,
         <[email := {| count := count rateData + 1; resetAt := resetAt rateData |}]>
           rateLimitStore)
  end.

(** [cleanupExpiredOTPs()] at clock reading [now]. *)
Definition cleanupExpiredOTPs (now : Z) (otpStore : gmap string OtpEntry)
    : gmap string OtpEntry :=
  filter (fun kv => ¬ (now > expiresAt kv.2)) otpStore.

(** A run of [checkRateLimit] calls for one address, one per clock reading. *)
Fixpoint checkRateLimits (email : string) (times : list Z)
    (rateLimitStore : gmap string RateData)
    : list RateResult * gmap string RateData :=
  match times with
  | [] => ([], rateLimitStore)
  | now :: rest =>
      let '(r, s) := checkRateLimit email now rateLimitStore in
      let '(rs, s') := checkRateLimits email rest s in
      (r :: rs, s')
  end.

End OtpStore.

(** ** Values of request bodies and small string helpers *)

(** A body field that a handler passes on as a nullable text: left out of the
    JSON body ([undefined]), [null], or a string. *)
Inductive Field :=
  | Absent
  | IsNull
  | Text (s : string).

(** [x || fallback] for such a field: [undefined], [null] and the empty string
    are falsy. *)
Definition orElse (x : Field) (fallback : string) : string :=
  match x with
  | Text s => if String.eqb s "" then fallback else s
  | _ => fallback
  end.

(** What Prisma writes for [data: { column: x }]: [undefined] leaves the
    column as it is, [null] clears it. *)
Definition writeField (x : Field) (old : option string) : option string :=
  match x with
  | Absent => old
  | IsNull => None
  | Text s => Some s
  end.

(** What Prisma stores on [create] for a nullable column given [x]. *)
Definition createField (x : Field) : option string := writeField x None.

(** [list.includes(x)] for a list of string constants. *)
Definition includes (l : list string) (x : string) : bool :=
  existsb (String.eqb x) l.

(** Truthiness of a nullable text column. *)
Definition truthyText (x : option string) : bool :=
  match x with
  | Some s => negb (String.eqb s "")
  | None => false
  end.

Definition lowerAscii (c : ascii) : ascii :=
  let n := nat_of_ascii c in
  if ((65 <=? n) && (n <=? 90))%nat then ascii_of_nat (n + 32) else c.

(** [String.prototype.toLowerCase] on ASCII text. *)
Fixpoint toLowerCase (s : string) : string :=
  match s with
  | EmptyString => EmptyString
  | String c rest => String (lowerAscii c) (toLowerCase rest)
  end.

(** The double quote character, for template literals that contain one. *)
Definition dquote : string := String (ascii_of_nat 34) EmptyString.

(** Truthiness of a number: zero is falsy. *)
Definition truthy (x : R) : bool := if Req_dec_T x 0%R then false else true.

(** What a handler sends back: [res.status(code).json({message, data})], or an
    [AppError] rendered by [errorHandler]. *)
Inductive Response (A : Type) :=
  | Ok (statusCode : Z) (msg : string) (data : A)
  | Error (statusCode : Z) (msg : string).
Arguments Ok {A} statusCode msg data.
Arguments Error {A} statusCode msg.

Definition statusCodeOf {A} (r : Response A) : Z :=
  match r with
  | Ok c _ _ => c
  | Error c _ => c
  end.

(** ** The Prisma tables (prisma/migrations/.../migration.sql)

    Columns that no modelled handler reads are left out (contact fields,
    state, pincode, shareCount, incidentTime, updatedAt, the media relation).
    The schema's foreign keys are taken to hold, so the writes the handlers
    issue do not fail; store outages are outside the model.  INTEGER columns
    (credibilityScore, postCount, viewCount) are unbounded integers here: a
    value the 32-bit column would refuse is outside the model too. *)

Module User.
Record t := mk {
  id : string;
  role : string;
  isActive : bool;
  credibilityScore : Z;
  policeStationId : option string
}.
Definition addCredibility (delta : Z) (u : t) : t :=
  mk (id u) (role u) (isActive u) (credibilityScore u + delta) (policeStationId u).
End User.

Module PoliceStation.
Record t := mk {
  id : string;
  name : string;
  latitude : R;
  longitude : R;
  isActive : bool
}.
End PoliceStation.

Module Incident.
Record t := mk {
  id : string;
  title : string;
  description : string;
  category : string;
  latitude : R;
  longitude : R;
  address : option string;
  city : option string;
  policeStationId : option string;
  status : string;
  verificationNote : option string;
  verifiedAt : option Z;
  verifiedBy : option string;
  publisherId : string;
  publisherBadge : string;
  viewCount : Z;
  createdAt : Z
}.
End Incident.

(** The [data] column of a notification holds [JSON.stringify] of one of two
    object shapes; the shapes are kept, the serialisation is not modelled. *)
Inductive NotificationData :=
  | IncidentRef (incidentId : string)
  | NearbyIncident (incidentId : string) (distance : R) (urgency : string).

Module Notification.
Record t := mk {
  userId : string;
  type : string;
  title : string;
  message : string;
  data : option NotificationData
}.
End Notification.

Module AuditLog.
Record t := mk {
  adminId : string;
  action : string;
  targetType : string;
  targetId : string;
  reason : option string;
  ipAddress : option string;
  userAgent : option string
}.
End AuditLog.

Module Report.
Record t := mk {
  id : string;
  incidentId : string;
  reporterId : string;
  status : string;
  reviewNote : option string;
  reviewedById : option string;
  reviewedAt : option Z
}.
End Report.

Module DailyPostTracker.
Record t := mk {
  userId : string;
  date : Z;
  postCount : Z
}.
End DailyPostTracker.

Module Prisma.

Record Db := mkDb {
  users : gmap string User.t;
  incidents : gmap string Incident.t;
  policeStations : list PoliceStation.t;
  notifications : list Notification.t;
  auditLogs : list AuditLog.t;
  reports : gmap string Report.t;
  dailyPostTracker : list DailyPostTracker.t
}.

Definition setUsers (v : gmap string User.t) (db : Db) : Db :=
  mkDb v (incidents db) (policeStations db) (notifications db) (auditLogs db)
       (reports db) (dailyPostTracker db).
Definition setIncidents (v : gmap string Incident.t) (db : Db) : Db :=
  mkDb (users db) v (policeStations db) (notifications db) (auditLogs db)
       (reports db) (dailyPostTracker db).
Definition setNotifications (v : list Notification.t) (db : Db) : Db :=
  mkDb (users db) (incidents db) (policeStations db) v (auditLogs db)
       (reports db) (dailyPostTracker db).
Definition setAuditLogs (v : list AuditLog.t) (db : Db) : Db :=
  mkDb (users db) (incidents db) (policeStations db) (notifications db) v
       (reports db) (dailyPostTracker db).
Definition setReports (v : gmap string Report.t) (db : Db) : Db :=
  mkDb (users db) (incidents db) (policeStations db) (notifications db)
       (auditLogs db) v (dailyPostTracker db).
Definition setDailyPostTracker (v : list DailyPostTracker.t) (db : Db) : Db :=
  mkDb (users db) (incidents db) (policeStations db) (notifications db)
       (auditLogs db) (reports db) v.

(** [prisma.notification.create] / [createMany]: rows are appended. *)
Definition createNotifications (rows : list Notification.t) (db : Db) : Db :=
  setNotifications (notifications db ++ rows) db.

(** [prisma.auditLog.create]. *)
Definition createAuditLog (row : AuditLog.t) (db : Db) : Db :=
  setAuditLogs (auditLogs db ++ [row]) db.

(** [prisma.user.update({ where: { id }, data: { credibilityScore:
    { increment: delta } } })]. *)
Definition incrementCredibility (id : string) (delta : Z) (db : Db) : Db :=
  setUsers (alter (User.addCredibility delta) id (users db)) db.

(** [prisma.policeStation.findMany({ where: { isActive: true } })]: the
    active rows in the order the store yields them. *)
Definition activePoliceStations (db : Db) : list PoliceStation.t :=
  List.filter PoliceStation.isActive (policeStations db).

(** [prisma.incident.delete]: the row goes, and with it the reports that
    reference it (reports_incidentId_fkey is ON DELETE CASCADE). *)
Definition deleteIncidentRow (id : string) (db : Db) : Db :=
  setReports
    (filter (fun kv => Report.incidentId kv.2 <> id) (reports db))
    (setIncidents (delete id (incidents db)) db).

Definition setPoliceStations (v : list PoliceStation.t) (db : Db) : Db :=
  mkDb (users db) (incidents db) v (notifications db) (auditLogs db)
       (reports db) (dailyPostTracker db).

Definition clearUserStation (id : string) (u : User.t) : User.t :=
  User.mk (User.id u) (User.role u) (User.isActive u) (User.credibilityScore u)
    (match User.policeStationId u with
     | Some s => if String.eqb s id then None else Some s
     | None => None
     end).

Definition clearIncidentStation (id : string) (i : Incident.t) : Incident.t :=
  Incident.mk (Incident.id i) (Incident.title i) (Incident.description i)
    (Incident.category i) (Incident.latitude i) (Incident.longitude i)
    (Incident.address i) (Incident.city i)
    (match Incident.policeStationId i with
     | Some s => if String.eqb s id then None else Some s
     | None => None
     end)
    (Incident.status i) (Incident.verificationNote i) (Incident.verifiedAt i)
    (Incident.verifiedBy i) (Incident.publisherId i) (Incident.publisherBadge i)
    (Incident.viewCount i) (Incident.createdAt i).

(** [prisma.policeStation.delete]: the row goes, and the users and incidents
    that reference it lose the reference (both foreign keys are ON DELETE
    SET NULL). *)
Definition deletePoliceStationRow (id : string) (db : Db) : Db :=
  setPoliceStations
    (List.filter (fun s => negb (String.eqb (PoliceStation.id s) id))
       (policeStations db))
    (setIncidents (clearIncidentStation id <$> incidents db)
       (setUsers (clearUserStation id <$> users db) db)).

End Prisma.

(** ** utils/location.utils.js

    The coordinates and distances of this module are real numbers: the
    stored binary64 values are read as the reals they denote and the formula
    is evaluated without rounding, so no distance is NaN here.  The routes
    below use it for which rows are visited and written; what the resolver
    returns in double precision is the subject of [Binary64]. *)

Module Location.
Import Prisma.

Local Open Scope R_scope.

Definition toRad (degrees : R) : R := degrees * (PI / 180).

(** [Math.atan2(y, x)] on real arguments. *)
Definition atan2 (y x : R) : R :=
  if Rlt_dec 0 x then atan (y / x)
  else if Rlt_dec x 0 then
    (if Rle_dec 0 y then atan (y / x) + PI else atan (y / x) - PI)
  else if Rlt_dec 0 y then PI / 2
  else if Rlt_dec y 0 then - (PI / 2)
  else 0.

(** [calculateDistance(lat1, lon1, lat2, lon2)]: the haversine formula. *)
Definition calculateDistance (lat1 lon1 lat2 lon2 : R) : R :=
  let R := 6371 in
  let dLat := toRad (lat2 - lat1) in
  let dLon := toRad (lon2 - lon1) in
  let a := sin (dLat / 2) * sin (dLat / 2) +
           cos (toRad lat1) * cos (toRad lat2) *
           sin (dLon / 2) * sin (dLon / 2) in
  let c := 2 * atan2 (sqrt a) (sqrt (1 - a)) in
  let distance := R * c in
  distance.

(** Distance from a coordinate to a station. *)
Definition distanceTo (latitude longitude : R) (station : PoliceStation.t) : R :=
  calculateDistance latitude longitude
    (PoliceStation.latitude station) (PoliceStation.longitude station).

(** One turn of the [for] loop of [findNearestPoliceStation]: the pair is
    [(nearestStation, minDistance)]. *)
Definition nearerOf (latitude longitude : R)
    (acc : PoliceStation.t * R) (station : PoliceStation.t)
    : PoliceStation.t * R :=
  let distance := distanceTo latitude longitude station in
  if Rlt_dec distance (snd acc) then (station, distance) else acc.

(** The scan over [allStations], already fetched. *)
Definition nearestOf (latitude longitude : R)
    (allStations : list PoliceStation.t) : option (PoliceStation.t * R) :=
  match allStations with
  | [] => None
  | first :: rest =>
      Some (fold_left (nearerOf latitude longitude) rest
              (first, distanceTo latitude longitude first))
  end.

(** [findNearestPoliceStation(latitude, longitude, prisma)] over the rows of
    the station table: [null] is [None], [{ station, distance }] a pair. *)
Definition findNearestPoliceStation (latitude longitude : R)
    (policeStations : list PoliceStation.t) : option (PoliceStation.t * R) :=
  nearestOf latitude longitude (List.filter PoliceStation.isActive policeStations).

(** The officers [notifyPoliceStation] selects: users of the station with
    role POLICE that are active. *)
Definition isOfficerOf (policeStationId : string) (u : User.t) : bool :=
  match User.policeStationId u with
  | Some s => String.eqb s policeStationId
  | None => false
  end && String.eqb (User.role u) "POLICE" && User.isActive u.

Definition officersOf (policeStationId : string) (db : Db) : list User.t :=
  List.filter (isOfficerOf policeStationId) (map snd (map_to_list (users db))).

(** [notifyPoliceStation(policeStationId, incident, prisma)], where the caller
    has added [distance] to the incident object. *)
Definition notifyPoliceStation (policeStationId : string)
    (incident : Incident.t) (distance : R) (db : Db) : Db :=
  let officers := officersOf policeStationId db in
  match officers with
  | [] => db
  | _ =>
      createNotifications
        (map (fun officer =>
           Notification.mk (User.id officer) "NEW_INCIDENT_NEARBY"
             ("New Incident: " +:+ Incident.category incident)
             ("A new " +:+ toLowerCase (Incident.category incident) +:+
              " incident has been reported near your jurisdiction at " +:+
              default "the location"
                (if truthyText (Incident.address incident)
                 then Incident.address incident else None) +:+ ".")
             (Some (NearbyIncident (Incident.id incident) distance
                (if String.eqb (Incident.category incident) "FIRE"
                    || String.eqb (Incident.category incident) "ACCIDENT"
                 then "HIGH" else "MEDIUM"))))
           officers)
        db
  end.

End Location.

(** ** utils/location.utils.js, in double precision

    A JS number is a binary64 value: [Location] above reads the stored
    coordinates as the real numbers they denote, which is enough where only
    the rows a function visits matter.  This module computes the distance
    as the code does, with the arithmetic, [Math.sqrt] and the comparison of
    binary64, NaN included; [Math.sin], [Math.cos] and [Math.atan2] are taken
    from the platform. *)

Module Binary64.
Import PrimFloat.
Local Open Scope float_scope.

(** [Math.sin], [Math.cos] and [Math.atan2] of the platform: ECMAScript
    leaves their values to the implementation. *)
Record Math := mkMath {
  sin : float -> float;
  cos : float -> float;
  atan2 : float -> float -> float
}.

(** [Math.PI]. *)
Definition PI : float := 0x1.921fb54442d18p+1.

(** The columns of a police_stations row that the resolver reads. *)
Record Station := mkStation {
  id : string;
  latitude : float;
  longitude : float;
  isActive : bool
}.

Section Platform.
Variable M : Math.

(** [degrees * (Math.PI / 180)]. *)
Definition toRad (degrees : float) : float := degrees * (PI / 180).

(** [calculateDistance(lat1, lon1, lat2, lon2)]. *)
Definition calculateDistance (lat1 lon1 lat2 lon2 : float) : float :=
  let R := 6371 in
  let dLat := toRad (lat2 - lat1) in
  let dLon := toRad (lon2 - lon1) in
  let a :=
    sin M (dLat / 2) * sin M (dLat / 2) +
    cos M (toRad lat1) * cos M (toRad lat2) *
    sin M (dLon / 2) * sin M (dLon / 2) in
  let c := 2 * atan2 M (sqrt a) (sqrt (1 - a)) in
  R * c.

Definition distanceTo (latitude longitude : float) (station : Station) : float :=
  calculateDistance latitude longitude
    (Binary64.latitude station) (Binary64.longitude station).

(** One turn of the [for] loop of [findNearestPoliceStation]: the pair is
    [(nearestStation, minDistance)]. *)
Definition nearerOf (latitude longitude : float) (acc : Station * float)
    (station : Station) : Station * float :=
  let distance := distanceTo latitude longitude station in
  if distance <? snd acc then (station, distance) else acc.

(** [findNearestPoliceStation(latitude, longitude, prisma)] over the rows of
    the station table, in the order the store yields them. *)
Definition findNearestPoliceStation (latitude longitude : float)
    (policeStations : list Station) : option (Station * float) :=
  match List.filter isActive policeStations with
  | [] => None
  | first :: rest =>
      Some (fold_left (nearerOf latitude longitude) rest
              (first, distanceTo latitude longitude first))
  end.

(** One turn of the loop of [POST /api/incidents], which starts from
    [nearestStation = null] and [minDistance = Infinity]; the
    [calculateDistance] of incident.routes.js is a copy of the one above. *)
Definition nearerOrNull (latitude longitude : float)
    (acc : option Station * float) (station : Station)
    : option Station * float :=
  let distance := distanceTo latitude longitude station in
  if distance <? snd acc then (Some station, distance) else acc.

(** The loop of the handler over the active rows: the pair is
    [(nearestStation, minDistance)] when it ends. *)
Definition nearestOnSubmit (latitude longitude : float)
    (policeStations : list Station) : option Station * float :=
  fold_left (nearerOrNull latitude longitude)
    (List.filter isActive policeStations) (None, infinity).

End Platform.

End Binary64.

(** ** config/index.js *)

Record Config := mkConfig {
  citizenDailyLimit : Z;
  verifiedReporterDailyLimit : Z
}.

(** The values [config] takes when the environment sets neither
    CITIZEN_DAILY_LIMIT nor VERIFIED_REPORTER_DAILY_LIMIT. *)
Definition defaultConfig : Config := mkConfig 2 5.

(** ** middleware/auth.middleware.js *)

Module Auth.
Import Prisma.

(** The Authorization header as [authenticate] sees it: missing (or not a
    Bearer header), a token [verifyToken] rejects, or a token whose payload
    names [userId]. *)
Inductive Header :=
  | NoHeader
  | BadToken
  | Token (userId : string).

(** [req.user]. *)
Record ReqUser := mkReqUser {
  id : string;
  role : string
}.

Definition authenticate (h : Header) (db : Db) : Response ReqUser :=
  match h with
  | NoHeader => Error 401 "Access token is required"
  | BadToken => Error 401 "Invalid or expired token"
  | Token userId =>
      match users db !! userId with
      | Some user =>
          if User.isActive user
          then Ok 200 "" (mkReqUser userId (User.role user))
          else Error 401 "User not found or inactive"
      | None => Error 401 "User not found or inactive"
      end
  end.

(** [optionalAuth]: [req.user] stays unset unless the token is good and the
    user active. *)
Definition optionalAuth (h : Header) (db : Db) : option ReqUser :=
  match h with
  | Token userId =>
      match users db !! userId with
      | Some user =>
          if User.isActive user
          then Some (mkReqUser userId (User.role user)) else None
      | None => None
      end
  | _ => None
  end.

(** [authorize(...roles)]: [None] is [next()]. *)
Definition authorize (roles : list string) (user : option ReqUser)
    : option (Z * string) :=
  match user with
  | None => Some (401, "Authentication required")
  | Some u =>
      if includes roles (role u) then None
      else Some (403, "Insufficient permissions")
  end.

(** [authenticate] followed by [authorize(...roles)], as a router chains
    them. *)
Definition guard (roles : list string) (h : Header) (db : Db)
    : Response ReqUser :=
  match authenticate h db with
  | Error code m => Error code m
  | Ok code m user =>
      match authorize roles (Some user) with
      | Some (code', m') => Error code' m'
      | None => Ok code m user
      end
  end.

End Auth.

(** ** middleware/rateLimit.middleware.js *)

Module PostLimit.
Import Prisma.

(** [prisma.dailyPostTracker.findFirst({ where: { userId, date: { gte:
    today } } })]. *)
Definition findTracker (userId : string) (today : Z) (db : Db)
    : option DailyPostTracker.t :=
  List.find (fun t => String.eqb (DailyPostTracker.userId t) userId
                      && (today <=? DailyPostTracker.date t)%Z)
            (dailyPostTracker db).

Definition limitFor (config : Config) (role : string) : Z :=
  if String.eqb role "VERIFIED_REPORTER"
  then verifiedReporterDailyLimit config
  else citizenDailyLimit config.

Definition limitMessage (role : string) (limit : Z) : string :=
  "Daily posting limit reached. " +:+
  (if String.eqb role "VERIFIED_REPORTER" then "Verified reporters" else "Citizens")
  +:+ " can post " +:+ pretty limit +:+ " incidents per day.".

(** [checkPostLimit]: [None] is [next()], [Some (code, message)] the error
    response.  [today] is local midnight of the day of the request. *)
Definition checkPostLimit (config : Config) (user : option Auth.ReqUser)
    (today : Z) (db : Db) : option (Z * string) :=
  match user with
  | None => Some (401, "Authentication required")
  | Some u =>
      let tracker := findTracker (Auth.id u) today db in
      let currentCount :=
        match tracker with
        | Some t => DailyPostTracker.postCount t
        | None => 0
        end in
      let limit := limitFor config (Auth.role u) in
      if (currentCount >=? limit)%Z
      then Some (429, limitMessage (Auth.role u) limit)
      else None
  end.

(** The [update] arm of the upsert, applied to the row of the unique key. *)
Fixpoint bumpTracker (userId : string) (today : Z)
    (rows : list DailyPostTracker.t) : option (list DailyPostTracker.t) :=
  match rows with
  | [] => None
  | t :: rest =>
      if String.eqb (DailyPostTracker.userId t) userId
         && (DailyPostTracker.date t =? today)%Z
      then Some (DailyPostTracker.mk userId today (DailyPostTracker.postCount t + 1)
                 :: rest)
      else option_map (cons t) (bumpTracker userId today rest)
  end.

(** [incrementPostCount(userId)]: upsert on the unique key (userId, date). *)
Definition incrementPostCount (userId : string) (today : Z) (db : Db) : Db :=
  match bumpTracker userId today (dailyPostTracker db) with
  | Some rows => setDailyPostTracker rows db
  | None =>
      setDailyPostTracker
        (dailyPostTracker db ++ [DailyPostTracker.mk userId today 1]) db
  end.

End PostLimit.

(** ** routes/auth.routes.js *)

Module AuthRoutes.
Import OtpStore.

(** The two module-level maps of lib/otp-store.js. *)
Record Stores := mkStores {
  otpStore : gmap string OtpEntry;
  rateLimitStore : gmap string RateData
}.

(** [POST /api/auth/send-otp].  [email] is the body field ([None] when it is
    missing or empty), [wellFormed] the verdict of the handler's regular
    expression on it, [now] the clock reading of [checkRateLimit], [code] the
    value [generateOTP()] draws, [t1] and [t2] the two clock readings of
    [storeOTP].  The e-mail is sent without being awaited and is not part of
    the model. *)
Definition sendOtp (email : option string) (wellFormed : bool) (now : Z)
    (code : string) (t1 t2 : Z) (st : Stores) : Response unit * Stores :=
  match email with
  | None => (Error 400 "Email is required", st)
  | Some email =>
      if negb wellFormed then (Error 400 "Invalid email format", st)
      else
        let '(rateCheck, limits) := checkRateLimit email now (rateLimitStore st) in
        if negb (allowed rateCheck)
        then (Error 429 (default "" (rate_message rateCheck)),
              mkStores (otpStore st) limits)
        else (Ok 200 "OTP sent to your email" (),
              mkStores (storeOTP email code t1 t2 (otpStore st)) limits)
  end.

End AuthRoutes.

(** ** routes/incident.routes.js *)

Module IncidentRoutes.
Import Prisma.

(** The query string of the feed, after [paginationValidator]. *)
Record FeedQuery := mkFeedQuery {
  page : option Z;
  limit : option Z;
  category : option string;
  status : option string;
  city : option string
}.

(** [parseInt(x) || fallback] for a validated integer parameter. *)
Definition intOr (x : option Z) (fallback : Z) : Z :=
  match x with
  | Some n => if (n =? 0)%Z then fallback else n
  | None => fallback
  end.

(** Prisma's [contains] filter on a nullable text column. *)
Definition containsText (column : option string) (needle : string) : bool :=
  match column with
  | Some s => match String.index 0 needle s with Some _ => true | None => false end
  | None => false
  end.

(** The [where] object of the feed as a row predicate. *)
Definition feedWhere (q : FeedQuery) (i : Incident.t) : bool :=
  String.eqb (Incident.status i)
    (if truthyText (status q) then default "VERIFIED" (status q) else "VERIFIED")
  && (if truthyText (category q)
      then String.eqb (Incident.category i) (default "" (category q)) else true)
  && (if truthyText (city q)
      then containsText (Incident.city i) (default "" (city q)) else true).

Fixpoint insertByCreatedAtDesc (x : Incident.t) (l : list Incident.t)
    : list Incident.t :=
  match l with
  | [] => [x]
  | y :: rest =>
      if (Incident.createdAt y <? Incident.createdAt x)%Z
      then x :: y :: rest
      else y :: insertByCreatedAtDesc x rest
  end.

(** [orderBy: { createdAt: 'desc' }]. *)
Definition orderByCreatedAtDesc (l : list Incident.t) : list Incident.t :=
  fold_right insertByCreatedAtDesc [] l.

Record FeedData := mkFeedData {
  feed_incidents : list Incident.t;
  feed_page : Z;
  feed_limit : Z;
  feed_total : Z;
  feed_totalPages : Z
}.

(** [GET /api/incidents].  The route runs [optionalAuth] first; the handler
    never looks at [req.user]. *)
Definition getIncidents (h : Auth.Header) (q : FeedQuery) (db : Db)
    : Response FeedData :=
  let user := Auth.optionalAuth h db in
  let page := intOr (page q) 1 in
  let limit := intOr (limit q) 10 in
  let skip := ((page - 1) * limit)%Z in
  let matching :=
    List.filter (feedWhere q) (map snd (map_to_list (incidents db))) in
  let rows := take (Z.to_nat limit)
                (drop (Z.to_nat skip) (orderByCreatedAtDesc matching)) in
  let total := Z.of_nat (length matching) in
  Ok 200 "" (mkFeedData rows page limit total (ceilDiv total limit)).

Definition addView (i : Incident.t) : Incident.t :=
  Incident.mk (Incident.id i) (Incident.title i) (Incident.description i)
    (Incident.category i) (Incident.latitude i) (Incident.longitude i)
    (Incident.address i) (Incident.city i) (Incident.policeStationId i)
    (Incident.status i) (Incident.verificationNote i) (Incident.verifiedAt i)
    (Incident.verifiedBy i) (Incident.publisherId i) (Incident.publisherBadge i)
    (Incident.viewCount i + 1) (Incident.createdAt i).

(** [GET /api/incidents/:id]. *)
Definition getIncident (h : Auth.Header) (id : string) (db : Db)
    : Response Incident.t * Db :=
  let user := Auth.optionalAuth h db in
  match incidents db !! id with
  | None => (Error 404 "Incident not found", db)
  | Some incident =>
      if negb (String.eqb (Incident.status incident) "VERIFIED")
         && match user with
            | None => true
            | Some u =>
                negb (String.eqb (Auth.id u) (Incident.publisherId incident))
                && negb (includes ["ADMIN"; "MODERATOR"] (Auth.role u))
            end
      then (Error 404 "Incident not found", db)
      else (Ok 200 "" incident,
            setIncidents (<[id := addView incident]> (incidents db)) db)
  end.

(** The body of [POST /api/incidents], with the verdict of
    [incidentValidator]. *)
Record CreateBody := mkCreateBody {
  body_title : string;
  body_description : string;
  body_category : string;
  body_latitude : R;
  body_longitude : R;
  body_address : option string;
  body_city : option string;
  body_valid : bool
}.

(** One turn of the handler's own nearest-station loop: [None] is the
    initial [nearestStation = null, minDistance = Infinity]. *)
Definition nearerOrFirst (latitude longitude : R)
    (acc : option (PoliceStation.t * R)) (station : PoliceStation.t)
    : option (PoliceStation.t * R) :=
  let distance := Location.distanceTo latitude longitude station in
  match acc with
  | None => Some (station, distance)
  | Some (nearestStation, minDistance) =>
      if Rlt_dec distance minDistance then Some (station, distance) else acc
  end.

(** Modelled from the spec: middleware/validate.js is not among the sources;
    a body the validators refuse is answered with a validation error and the
    handler does not run. *)
Definition validationError {A} : Response A := Error 400 "Validation failed".

(** [POST /api/incidents]: [authenticate], [checkPostLimit], the validators,
    then the handler.  [today] is the midnight [checkPostLimit] computes,
    [newId] and [now] the id and creation time the store gives the row,
    [today'] the midnight [incrementPostCount] computes.  The model is of
    a submission without [mediaIds]: the [incidentMedia.updateMany] that
    links uploaded media, between the create and [incrementPostCount], and
    the [incidentTime] column are not modelled. *)
Definition createIncident (config : Config) (h : Auth.Header) (body : CreateBody)
    (today : Z) (newId : string) (now : Z) (today' : Z) (db : Db)
    : Response Incident.t * Db :=
  match Auth.authenticate h db with
  | Error code m => (Error code m, db)
  | Ok _ _ user =>
      match PostLimit.checkPostLimit config (Some user) today db with
      | Some (code, m) => (Error code m, db)
      | None =>
          if negb (body_valid body) then (validationError, db)
          else
            let nearest :=
              fold_left (nearerOrFirst (body_latitude body) (body_longitude body))
                (activePoliceStations db) None in
            let incident :=
              Incident.mk newId (body_title body) (body_description body)
                (body_category body) (body_latitude body) (body_longitude body)
                (body_address body) (body_city body)
                (option_map (fun p => PoliceStation.id (fst p)) nearest)
                "SUBMITTED" None None None (Auth.id user) (Auth.role user)
                0 now in
            let db1 := setIncidents (<[newId := incident]> (incidents db)) db in
            let db2 := PostLimit.incrementPostCount (Auth.id user) today' db1 in
            (Ok 201
               "Incident reported successfully. It will be visible after verification."
               incident, db2)
      end
  end.

(** The body of [PUT /api/incidents/:id]: each field is [None] when the
    body does not carry a string under that name. *)
Record EditBody := mkEditBody {
  edit_title : option string;
  edit_description : option string;
  edit_category : option string;
  edit_address : option string
}.

(** [...(x && { column: x })] on a text column that is not nullable. *)
Definition orKeep (x : option string) (old : string) : string :=
  if truthyText x then default old x else old.

(** The [data] of the edit: the truthy fields, and SUBMITTED again. *)
Definition edit (body : EditBody) (i : Incident.t) : Incident.t :=
  Incident.mk (Incident.id i)
    (orKeep (edit_title body) (Incident.title i))
    (orKeep (edit_description body) (Incident.description i))
    (orKeep (edit_category body) (Incident.category i))
    (Incident.latitude i) (Incident.longitude i)
    (if truthyText (edit_address body) then edit_address body
     else Incident.address i)
    (Incident.city i) (Incident.policeStationId i)
    "SUBMITTED"
    (Incident.verificationNote i) (Incident.verifiedAt i)
    (Incident.verifiedBy i) (Incident.publisherId i) (Incident.publisherBadge i)
    (Incident.viewCount i) (Incident.createdAt i).

Definition editableStatuses : list string := ["DRAFT"; "SUBMITTED"; "REJECTED"].

(** [PUT /api/incidents/:id]. *)
Definition putIncident (h : Auth.Header) (id : string) (body : EditBody)
    (db : Db) : Response Incident.t * Db :=
  match Auth.authenticate h db with
  | Error code m => (Error code m, db)
  | Ok _ _ user =>
      match incidents db !! id with
      | None => (Error 404 "Incident not found", db)
      | Some incident =>
          if negb (String.eqb (Incident.publisherId incident) (Auth.id user))
          then (Error 403 "You can only edit your own incidents", db)
          else if negb (includes editableStatuses (Incident.status incident))
          then (Error 400 "Cannot edit incident after verification", db)
          else
            (Ok 200 "Incident updated successfully" (edit body incident),
             setIncidents (<[id := edit body incident]> (incidents db)) db)
      end
  end.

(** [DELETE /api/incidents/:id]. *)
Definition deleteIncident (h : Auth.Header) (id : string) (db : Db)
    : Response unit * Db :=
  match Auth.authenticate h db with
  | Error code m => (Error code m, db)
  | Ok _ _ user =>
      match incidents db !! id with
      | None => (Error 404 "Incident not found", db)
      | Some incident =>
          if negb (String.eqb (Incident.publisherId incident) (Auth.id user))
             && negb (includes ["ADMIN"; "MODERATOR"] (Auth.role user))
          then (Error 403 "You can only delete your own incidents", db)
          else if String.eqb (Incident.status incident) "VERIFIED"
                  && negb (includes ["ADMIN"; "MODERATOR"] (Auth.role user))
          then (Error 400
                  "Cannot delete verified incidents. Contact support if needed.",
                db)
          else (Ok 200 "Incident deleted successfully" (),
                deleteIncidentRow id db)
      end
  end.

(** [prisma.report.findFirst({ where: { incidentId, reporterId } })], as the
    truth value the handler takes of it. *)
Definition alreadyReported (incidentId reporterId : string) (db : Db) : bool :=
  existsb (fun kv => String.eqb (Report.incidentId kv.2) incidentId
                     && String.eqb (Report.reporterId kv.2) reporterId)
          (map_to_list (reports db)).

(** [POST /api/incidents/:id/report].  [reason] is the body field, [newId]
    the id the store gives the new row; the reason and description columns
    of a report are not modelled. *)
Definition reportIncident (h : Auth.Header) (id : string)
    (reason : option string) (newId : string) (db : Db)
    : Response unit * Db :=
  match Auth.authenticate h db with
  | Error code m => (Error code m, db)
  | Ok _ _ user =>
      if negb (truthyText reason)
      then (Error 400 "Report reason is required", db)
      else
        match incidents db !! id with
        | None => (Error 404 "Incident not found", db)
        | Some incident =>
            if alreadyReported id (Auth.id user) db
            then (Error 400 "You have already reported this incident", db)
            else
              (Ok 201 "Incident reported successfully. Our team will review it." (),
               setReports
                 (<[newId := Report.mk newId id (Auth.id user) "PENDING"
                               None None None]> (reports db)) db)
        end
  end.

(** A run of submissions by one user on one day, each with its body, the id
    the store gives the row and its creation time. *)
Fixpoint createIncidents (config : Config) (h : Auth.Header) (today : Z)
    (submissions : list (CreateBody * string * Z)) (db : Db)
    : list (Response Incident.t) * Db :=
  match submissions with
  | [] => ([], db)
  | (body, newId, now) :: rest =>
      let '(r, db1) := createIncident config h body today newId now today db in
      let '(rs, db2) := createIncidents config h today rest db1 in
      (r :: rs, db2)
  end.

End IncidentRoutes.

(** ** routes/admin.routes.js

    The router runs [authenticate] and [authorize('ADMIN', 'MODERATOR')]
    before every handler; the handlers below are the bodies that run once
    both have passed, with [req.user.id] the acting moderator. *)

Module AdminRoutes.
Import Prisma.

(** [PUT /api/admin/incidents/:id/status].  [body_status] is [None] when the
    body carries no string under [status]. *)
Record StatusRequest := mkStatusRequest {
  params_id : string;
  body_status : option string;
  body_verificationNote : Field;
  user_id : string;
  ip : option string;
  userAgent : option string
}.

Definition moderationStatuses : list string :=
  ["VERIFIED"; "REJECTED"; "TAKEN_DOWN"].

(** The [data] of the handler's [prisma.incident.update]. *)
Definition moderate (status : string) (verificationNote : Field) (now : Z)
    (moderator : string) (policeStationId : option string) (i : Incident.t)
    : Incident.t :=
  Incident.mk (Incident.id i) (Incident.title i) (Incident.description i)
    (Incident.category i) (Incident.latitude i) (Incident.longitude i)
    (Incident.address i) (Incident.city i)
    (if truthyText policeStationId then policeStationId
     else Incident.policeStationId i)
    status
    (writeField verificationNote (Incident.verificationNote i))
    (Some now) (Some moderator)
    (Incident.publisherId i) (Incident.publisherBadge i)
    (Incident.viewCount i) (Incident.createdAt i).

(** The notification the handler creates for the publisher. *)
Definition publisherNotification (status : string) (verificationNote : Field)
    (incident : Incident.t) : Notification.t :=
  let notificationType :=
    if String.eqb status "REJECTED" then "INCIDENT_REJECTED"
    else if String.eqb status "TAKEN_DOWN" then "INCIDENT_REPORTED"
    else "INCIDENT_VERIFIED" in
  let message :=
    if String.eqb status "REJECTED" then
      "Your incident report was rejected. Reason: " +:+
      orElse verificationNote "Not specified"
    else if String.eqb status "TAKEN_DOWN" then
      "Your incident report was taken down. Reason: " +:+
      orElse verificationNote "Policy violation"
    else "Your incident report has been verified and is now visible to the public." in
  Notification.mk (Incident.publisherId incident) notificationType
    (if String.eqb status "VERIFIED" then "Incident Verified!"
     else "Incident Status Update")
    message (Some (IncidentRef (Incident.id incident))).

(** The credibility update of the handler. *)
Definition adjustCredibility (status : string) (publisherId : string) (db : Db)
    : Db :=
  if String.eqb status "VERIFIED" then incrementCredibility publisherId 2 db
  else if String.eqb status "REJECTED" then incrementCredibility publisherId (-1) db
  else db.

Definition auditAction (status : string) : string :=
  if String.eqb status "VERIFIED" then "VERIFY_INCIDENT"
  else if String.eqb status "REJECTED" then "REJECT_INCIDENT"
  else "TAKEDOWN_INCIDENT".

(** The jurisdiction step: only when verifying an incident whose coordinates
    are both truthy.  The handler hands [notifyPoliceStation] the distance
    rendered by [toFixed(2)]; the rendering is not modelled, the
    notification carries the distance itself. *)
Definition resolveStation (status : string) (incident : Incident.t) (db : Db)
    : option string * Db :=
  if String.eqb status "VERIFIED"
     && truthy (Incident.latitude incident)
     && truthy (Incident.longitude incident)
  then
    match Location.findNearestPoliceStation (Incident.latitude incident)
            (Incident.longitude incident) (policeStations db) with
    | Some (station, distance) =>
        (Some (PoliceStation.id station),
         Location.notifyPoliceStation (PoliceStation.id station) incident
           distance db)
    | None => (Incident.policeStationId incident, db)
    end
  else (Incident.policeStationId incident, db).

Definition putIncidentStatus (req : StatusRequest) (now : Z) (db : Db)
    : Response Incident.t * Db :=
  match body_status req with
  | None => (Error 400 "Invalid status", db)
  | Some status =>
      if negb (includes moderationStatuses status)
      then (Error 400 "Invalid status", db)
      else
        match incidents db !! params_id req with
        | None => (Error 404 "Incident not found", db)
        | Some incident =>
            let '(policeStationId, db1) := resolveStation status incident db in
            let updated :=
              moderate status (body_verificationNote req) now (user_id req)
                policeStationId incident in
            let db2 :=
              setIncidents (<[params_id req := updated]> (incidents db1)) db1 in
            let db3 :=
              createNotifications
                [publisherNotification status (body_verificationNote req) incident]
                db2 in
            let db4 := adjustCredibility status (Incident.publisherId incident) db3 in
            let db5 :=
              createAuditLog
                (AuditLog.mk (user_id req) (auditAction status) "INCIDENT"
                   (Incident.id incident)
                   (createField (body_verificationNote req)) (ip req)
                   (userAgent req))
                db4 in
            (Ok 200 ("Incident " +:+ toLowerCase status +:+ " successfully") updated,
             db5)
        end
  end.

(** [PUT /api/admin/reports/:id]. *)
Record ReviewRequest := mkReviewRequest {
  review_params_id : string;
  review_status : option string;
  review_reviewNote : Field;
  review_takeDownIncident : bool;
  review_user_id : string
}.

Definition reviewStatuses : list string :=
  ["REVIEWED"; "ACTION_TAKEN"; "DISMISSED"].

Definition review (status : string) (reviewNote : Field) (moderator : string)
    (now : Z) (r : Report.t) : Report.t :=
  Report.mk (Report.id r) (Report.incidentId r) (Report.reporterId r) status
    (writeField reviewNote (Report.reviewNote r)) (Some moderator) (Some now).

(** The [data] of the take-down [prisma.incident.update] of the review
    handler. *)
Definition takeDown (reviewNote : Field) (moderator : string) (now : Z)
    (i : Incident.t) : Incident.t :=
  Incident.mk (Incident.id i) (Incident.title i) (Incident.description i)
    (Incident.category i) (Incident.latitude i) (Incident.longitude i)
    (Incident.address i) (Incident.city i) (Incident.policeStationId i)
    "TAKEN_DOWN"
    (Some (orElse reviewNote "Taken down due to reports"))
    (Some now) (Some moderator)
    (Incident.publisherId i) (Incident.publisherBadge i)
    (Incident.viewCount i) (Incident.createdAt i).

Definition takenDownNotification (incident : Incident.t) : Notification.t :=
  Notification.mk (Incident.publisherId incident) "INCIDENT_REPORTED"
    "Incident Taken Down"
    ("Your incident " +:+ dquote +:+ Incident.title incident +:+ dquote +:+
     " was taken down due to policy violation.")
    None.

(** The handler reads the clock twice: [now] for [reviewedAt], [now'] for the
    [verifiedAt] of a take-down.  [include: { incident: true }] joins the
    incident the report is about. *)
Definition putReport (req : ReviewRequest) (now now' : Z) (db : Db)
    : Response unit * Db :=
  match review_status req with
  | None => (Error 400 "Invalid status", db)
  | Some status =>
      if negb (includes reviewStatuses status)
      then (Error 400 "Invalid status", db)
      else
        match reports db !! review_params_id req with
        | None => (Error 404 "Report not found", db)
        | Some report =>
            let joined := incidents db !! Report.incidentId report in
            let db1 :=
              setReports
                (<[review_params_id req :=
                     review status (review_reviewNote req) (review_user_id req)
                       now report]> (reports db)) db in
            let db2 :=
              match joined with
              | Some incident =>
                  if review_takeDownIncident req then
                    createNotifications [takenDownNotification incident]
                      (setIncidents
                         (<[Incident.id incident :=
                              takeDown (review_reviewNote req)
                                (review_user_id req) now' incident]>
                            (incidents db1)) db1)
                  else db1
              | None => db1
              end in
            (Ok 200 "Report reviewed successfully" (), db2)
        end
  end.

(** [PUT /api/admin/users/:id].  [role] is the body field when it is a
    string, [isActive] the body field when it is present; the isVerified
    column is not modelled.  [actor] is [req.user]. *)
Record UserUpdate := mkUserUpdate {
  update_params_id : string;
  update_role : option string;
  update_isActive : option bool;
  update_actor : Auth.ReqUser
}.

Definition updateUser (req : UserUpdate) (u : User.t) : User.t :=
  User.mk (User.id u)
    (if truthyText (update_role req) then default (User.role u) (update_role req)
     else User.role u)
    (default (User.isActive u) (update_isActive req))
    (User.credibilityScore u) (User.policeStationId u).

Definition putUser (req : UserUpdate) (db : Db) : Response User.t * Db :=
  match users db !! update_params_id req with
  | None => (Error 404 "User not found", db)
  | Some user =>
      if truthyText (update_role req)
         && negb (String.eqb (Auth.role (update_actor req)) "ADMIN")
      then (Error 403 "Only admins can change user roles", db)
      else
        (Ok 200 "User updated successfully" (updateUser req user),
         setUsers (<[update_params_id req := updateUser req user]> (users db)) db)
  end.

(** [prisma.incident.count({ where: { policeStationId } })]. *)
Definition linkedIncidents (policeStationId : string) (db : Db) : nat :=
  length (List.filter
            (fun kv => match Incident.policeStationId kv.2 with
                       | Some s => String.eqb s policeStationId
                       | None => false
                       end)
            (map_to_list (incidents db))).

Definition deactivate (s : PoliceStation.t) : PoliceStation.t :=
  PoliceStation.mk (PoliceStation.id s) (PoliceStation.name s)
    (PoliceStation.latitude s) (PoliceStation.longitude s) false.

(** [DELETE /api/admin/police-stations/:id]: the route adds
    [authorize('ADMIN')] to the router's guard; [actor] is [req.user]. *)
Definition deletePoliceStation (actor : Auth.ReqUser) (id : string) (db : Db)
    : Response unit * Db :=
  match Auth.authorize ["ADMIN"] (Some actor) with
  | Some (code, m) => (Error code m, db)
  | None =>
      match List.find (fun s => String.eqb (PoliceStation.id s) id)
              (policeStations db) with
      | None => (Error 404 "Police station not found", db)
      | Some station =>
          if (0 <? linkedIncidents id db)%nat
          then
            (Ok 200 "Police station deactivated (has linked incidents)" (),
             setPoliceStations
               (map (fun s => if String.eqb (PoliceStation.id s) id
                              then deactivate s else s)
                  (policeStations db)) db)
          else
            (Ok 200 "Police station deleted successfully" (),
             deletePoliceStationRow id db)
      end
  end.

End AdminRoutes.

(** * Properties *)

(** ** One-time codes and the request limiter *)

Module OtpStoreProofs.
Import OtpStore.

#[local] Ltac zbool :=
  repeat match goal with
  | |- context [?a >? ?b] => destruct (Z.gtb_spec a b); try lia
  | |- context [?a >=? ?b] => destruct (Z.geb_spec a b); try lia
  end.

Lemma verifyOTP_missing email candidate now (st : gmap string OtpEntry) :
  st !! email = None ->
  verifyOTP email candidate now st
  = (mkVerifyResult false "OTP not found or expired", st).
Proof. intros H. unfold verifyOTP. now rewrite H. Qed.

Lemma verifyOTP_expired email candidate now (st : gmap string OtpEntry) e :
  st !! email = Some e -> now > expiresAt e ->
  verifyOTP email candidate now st
  = (mkVerifyResult false "OTP expired", delete email st).
Proof. intros H Hexp. unfold verifyOTP. rewrite H. now zbool. Qed.

Lemma verifyOTP_exhausted email candidate now (st : gmap string OtpEntry) e :
  st !! email = Some e -> now <= expiresAt e -> attempts e >= MAX_ATTEMPTS ->
  verifyOTP email candidate now st
  = (mkVerifyResult false "Maximum attempts exceeded", delete email st).
Proof. intros H Hexp Hatt. unfold verifyOTP. rewrite H. now zbool. Qed.

Lemma verifyOTP_mismatch email candidate now (st : gmap string OtpEntry) e :
  st !! email = Some e -> now <= expiresAt e -> attempts e < MAX_ATTEMPTS ->
  otp e <> candidate ->
  verifyOTP email candidate now st
  = (mkVerifyResult false "Invalid OTP",
     <[email := mkOtpEntry (otp e) (attempts e + 1) (createdAt e) (expiresAt e)]> st).
Proof.
  intros H Hexp Hatt Hne. unfold verifyOTP. rewrite H. zbool. cbn.
  apply String.eqb_neq in Hne. now rewrite Hne.
Qed.

Lemma verifyOTP_match email now (st : gmap string OtpEntry) e :
  st !! email = Some e -> now <= expiresAt e -> attempts e < MAX_ATTEMPTS ->
  verifyOTP email (otp e) now st
  = (mkVerifyResult true "OTP verified successfully", delete email st).
Proof.
  intros H Hexp Hatt. unfold verifyOTP. rewrite H. zbool. cbn.
  rewrite String.eqb_refl. cbn. now rewrite delete_insert_eq.
Qed.

(** Whatever the clock, a wrong guess never succeeds, and afterwards the
    address holds either nothing or the same code with one more attempt. *)
Lemma verifyOTP_wrong_guess email candidate now (st : gmap string OtpEntry) e :
  st !! email = Some e -> otp e <> candidate ->
  success (verifyOTP email candidate now st).1 = false /\
  ((verifyOTP email candidate now st).2 !! email = None \/
   (verifyOTP email candidate now st).2 !! email
   = Some (mkOtpEntry (otp e) (attempts e + 1) (createdAt e) (expiresAt e))).
Proof.
  intros H Hne.
  destruct (Z_gt_le_dec now (expiresAt e)) as [Hx | Hx].
  { rewrite (verifyOTP_expired _ _ _ _ _ H Hx). cbn. split; [done |].
    left. apply lookup_delete_eq. }
  destruct (Z_ge_lt_dec (attempts e) MAX_ATTEMPTS) as [Ha | Ha].
  { rewrite (verifyOTP_exhausted _ _ _ _ _ H Hx Ha). cbn. split; [done |].
    left. apply lookup_delete_eq. }
  rewrite (verifyOTP_mismatch _ _ _ _ _ H Hx Ha Hne). cbn. split; [done |].
  right. apply lookup_insert_eq.
Qed.

(** A record whose attempts have reached the ceiling never verifies, and the
    call removes it. *)
Lemma verifyOTP_at_ceiling email candidate now (st : gmap string OtpEntry) e :
  st !! email = Some e -> attempts e >= MAX_ATTEMPTS ->
  success (verifyOTP email candidate now st).1 = false /\
  (verifyOTP email candidate now st).2 !! email = None.
Proof.
  intros H Ha.
  destruct (Z_gt_le_dec now (expiresAt e)) as [Hx | Hx].
  - rewrite (verifyOTP_expired _ _ _ _ _ H Hx). cbn. split; [done |].
    apply lookup_delete_eq.
  - rewrite (verifyOTP_exhausted _ _ _ _ _ H Hx Ha). cbn. split; [done |].
    apply lookup_delete_eq.
Qed.

Lemma verifyOTP_absent_stays email candidate now (st : gmap string OtpEntry) :
  st !! email = None ->
  success (verifyOTP email candidate now st).1 = false /\
  (verifyOTP email candidate now st).2 !! email = None.
Proof. intros H. rewrite (verifyOTP_missing _ _ _ _ H). now cbn. Qed.

(** Three wrong guesses after an issue, at any clock readings: the address
    ends with no record or with the issued code at three attempts. *)
Lemma three_wrong_guesses email code t1 t2 g1 g2 g3 n1 n2 n3
    (st : gmap string OtpEntry) :
  g1 <> code -> g2 <> code -> g3 <> code ->
  let s0 := storeOTP email code t1 t2 st in
  let s1 := (verifyOTP email g1 n1 s0).2 in
  let s2 := (verifyOTP email g2 n2 s1).2 in
  let s3 := (verifyOTP email g3 n3 s2).2 in
  s3 !! email = None \/
  s3 !! email = Some (mkOtpEntry code 3 t1 (t2 + OTP_EXPIRY)).
Proof.
  intros H1 H2 H3 s0 s1 s2 s3.
  assert (E0 : s0 !! email = Some (mkOtpEntry code 0 t1 (t2 + OTP_EXPIRY)))
    by apply lookup_insert_eq.
  destruct (verifyOTP_wrong_guess email g1 n1 s0 _ E0) as [_ [E1 | E1]];
    [cbn; congruence | |]; fold s1 in E1.
  { left. subst s3 s2.
    destruct (verifyOTP_absent_stays email g2 n2 s1 E1) as [_ E2].
    now destruct (verifyOTP_absent_stays email g3 n3 _ E2). }
  destruct (verifyOTP_wrong_guess email g2 n2 s1 _ E1) as [_ [E2 | E2]];
    [cbn; congruence | |]; fold s2 in E2.
  { left. subst s3. now destruct (verifyOTP_absent_stays email g3 n3 s2 E2). }
  destruct (verifyOTP_wrong_guess email g3 n3 s2 _ E2) as [_ [E3 | E3]];
    [cbn; congruence | |]; fold s3 in E3.
  - now left.
  - right. exact E3.
Qed.

(** The store after a code is issued to a@x.com at time 0 and guessed
    wrongly at times 1, 2 and 3. *)
Definition afterThreeWrongGuesses : gmap string OtpEntry :=
  let s0 := storeOTP "a@x.com" "123456" 0 0 ∅ in
  let s1 := (verifyOTP "a@x.com" "000000" 1 s0).2 in
  let s2 := (verifyOTP "a@x.com" "111111" 2 s1).2 in
  (verifyOTP "a@x.com" "222222" 3 s2).2.

(** C7, as stated, fails on its last clause: after the third failed attempt
    the record is still stored (with three attempts); the fourth guess is
    refused for exhausted attempts, not for a missing record. *)
Lemma record_kept_after_third_failure :
  afterThreeWrongGuesses !! "a@x.com"
    = Some (mkOtpEntry "123456" 3 0 300000) /\
  (verifyOTP "a@x.com" "123456" 4 afterThreeWrongGuesses).1
    = mkVerifyResult false "Maximum attempts exceeded" /\
  (verifyOTP "a@x.com" "123456" 4 afterThreeWrongGuesses).1
    <> mkVerifyResult false "OTP not found or expired".
Proof.
  split; [vm_compute; reflexivity |].
  split; [vm_compute; reflexivity |].
  vm_compute. discriminate.
Qed.

(** C7 (amended).  [verifyOTP] fails with its own message in each of four
    cases: no record (store untouched); an expired record (deleted); a live
    record whose attempts are at the ceiling of 3 (deleted); a live record
    below the ceiling and a wrong value (attempts incremented, record kept).
    After a code is issued and guessed wrongly three times, at any clock
    readings, a fourth guess fails even when it is the issued code, and the
    address holds no record once that fourth call returns.  When the three
    wrong guesses all came before the expiry, the record is still stored after
    the third of them, with 3 attempts, and it is the fourth call that removes
    it, answering that the attempts are exhausted. *)
Theorem verifyOTP_failures_and_fourth_guess :
  forall email candidate now (st : gmap string OtpEntry),
  (st !! email = None ->
     verifyOTP email candidate now st
     = (mkVerifyResult false "OTP not found or expired", st)) /\
  (forall e, st !! email = Some e -> now > expiresAt e ->
     verifyOTP email candidate now st
     = (mkVerifyResult false "OTP expired", delete email st)) /\
  (forall e, st !! email = Some e -> now <= expiresAt e ->
     attempts e >= MAX_ATTEMPTS ->
     verifyOTP email candidate now st
     = (mkVerifyResult false "Maximum attempts exceeded", delete email st)) /\
  (forall e, st !! email = Some e -> now <= expiresAt e ->
     attempts e < MAX_ATTEMPTS -> otp e <> candidate ->
     verifyOTP email candidate now st
     = (mkVerifyResult false "Invalid OTP",
        <[email := mkOtpEntry (otp e) (attempts e + 1) (createdAt e)
                     (expiresAt e)]> st)) /\
  (forall code t1 t2 g1 g2 g3 n1 n2 n3,
     g1 <> code -> g2 <> code -> g3 <> code ->
     let s0 := storeOTP email code t1 t2 st in
     let s1 := (verifyOTP email g1 n1 s0).2 in
     let s2 := (verifyOTP email g2 n2 s1).2 in
     let s3 := (verifyOTP email g3 n3 s2).2 in
     success (verifyOTP email candidate now s3).1 = false /\
     (verifyOTP email candidate now s3).2 !! email = None /\
     (n1 <= t2 + OTP_EXPIRY -> n2 <= t2 + OTP_EXPIRY -> n3 <= t2 + OTP_EXPIRY ->
        s3 !! email = Some (mkOtpEntry code 3 t1 (t2 + OTP_EXPIRY)) /\
        (now <= t2 + OTP_EXPIRY ->
           verifyOTP email candidate now s3
           = (mkVerifyResult false "Maximum attempts exceeded",
              delete email s3)))).
Proof.
  intros email candidate now st.
  split; [apply verifyOTP_missing |].
  split; [intros e; apply verifyOTP_expired |].
  split; [intros e; apply verifyOTP_exhausted |].
  split; [intros e; apply verifyOTP_mismatch |].
  intros code t1 t2 g1 g2 g3 n1 n2 n3 H1 H2 H3 s0 s1 s2 s3.
  pose proof (three_wrong_guesses email code t1 t2 g1 g2 g3 n1 n2 n3 st H1 H2 H3)
    as Hs3.
  cbv zeta in Hs3. fold s0 s1 s2 s3 in Hs3.
  assert (Hfail : success (verifyOTP email candidate now s3).1 = false /\
                  (verifyOTP email candidate now s3).2 !! email = None).
  { destruct Hs3 as [E | E].
    - now apply verifyOTP_absent_stays.
    - apply (verifyOTP_at_ceiling _ _ _ _ _ E). cbn. unfold MAX_ATTEMPTS. lia. }
  destruct Hfail as [Hf1 Hf2]. split; [exact Hf1 |]. split; [exact Hf2 |].
  intros L1 L2 L3.
  assert (E0 : s0 !! email = Some (mkOtpEntry code 0 t1 (t2 + OTP_EXPIRY)))
    by apply lookup_insert_eq.
  assert (E1 : s1 !! email = Some (mkOtpEntry code 1 t1 (t2 + OTP_EXPIRY))).
  { subst s1. rewrite (verifyOTP_mismatch _ _ _ _ _ E0); cbn;
      [apply lookup_insert_eq | lia | unfold MAX_ATTEMPTS; lia | congruence]. }
  assert (E2 : s2 !! email = Some (mkOtpEntry code 2 t1 (t2 + OTP_EXPIRY))).
  { subst s2. rewrite (verifyOTP_mismatch _ _ _ _ _ E1); cbn;
      [apply lookup_insert_eq | lia | unfold MAX_ATTEMPTS; lia | congruence]. }
  assert (E3 : s3 !! email = Some (mkOtpEntry code 3 t1 (t2 + OTP_EXPIRY))).
  { subst s3. rewrite (verifyOTP_mismatch _ _ _ _ _ E2); cbn;
      [apply lookup_insert_eq | lia | unfold MAX_ATTEMPTS; lia | congruence]. }
  split; [exact E3 |].
  intros L4. apply (verifyOTP_exhausted _ _ _ _ _ E3); cbn;
    [lia | unfold MAX_ATTEMPTS; lia].
Qed.

(** The theorem at the scenario of the specification: the right code as the
    fourth guess for a@x.com is refused. *)
Lemma verifyOTP_fourth_guess_witness :
  success (verifyOTP "a@x.com" "123456" 4 afterThreeWrongGuesses).1 = false.
Proof.
  pose proof (verifyOTP_failures_and_fourth_guess "a@x.com" "123456" 4 ∅)
    as (_ & _ & _ & _ & H).
  destruct (H "123456" 0 0 "000000" "111111" "222222" 1 2 3
              ltac:(discriminate) ltac:(discriminate) ltac:(discriminate))
    as [Hf _].
  exact Hf.
Defined.

(** C10.  [storeOTP] overwrites whatever the address held: the stored code is
    the new one, the attempt counter is 0, and the expiry is the clock reading
    taken when the record is built plus five minutes ([createdAt] is a
    separate reading taken just before it, equal to it unless the clock ticks
    in between).  Other addresses are untouched.  Hence a code issued earlier
    no longer verifies, and attempts spent on it are forgotten: the new code
    verifies at once even if the old record had run out of attempts.  Every
    accepted code request stores its code this way. *)
Theorem storeOTP_overwrites :
  forall email code t1 t2 (st : gmap string OtpEntry),
  storeOTP email code t1 t2 st !! email
    = Some (mkOtpEntry code 0 t1 (t2 + 5 * 60 * 1000)) /\
  (forall r, storeOTP email code t1 t2 st !! email = Some r ->
     t1 = t2 -> expiresAt r = createdAt r + 5 * 60 * 1000) /\
  (forall other, other <> email ->
     storeOTP email code t1 t2 st !! other = st !! other) /\
  (forall old now, old <> code ->
     success (verifyOTP email old now (storeOTP email code t1 t2 st)).1 = false) /\
  (forall now, now <= t2 + 5 * 60 * 1000 ->
     verifyOTP email code now (storeOTP email code t1 t2 st)
     = (mkVerifyResult true "OTP verified successfully", delete email st)) /\
  (forall wellFormed now limits,
     statusCodeOf
       (AuthRoutes.sendOtp (Some email) wellFormed now code t1 t2
          (AuthRoutes.mkStores st limits)).1 = 200 ->
     AuthRoutes.otpStore
       (AuthRoutes.sendOtp (Some email) wellFormed now code t1 t2
          (AuthRoutes.mkStores st limits)).2
     = storeOTP email code t1 t2 st).
Proof.
  intros email code t1 t2 st.
  assert (E : storeOTP email code t1 t2 st !! email
              = Some (mkOtpEntry code 0 t1 (t2 + 5 * 60 * 1000)))
    by apply lookup_insert_eq.
  split; [exact E |].
  split; [intros r Hr ->; rewrite E in Hr; injection Hr as <-; reflexivity |].
  split; [intros other Hne; apply lookup_insert_ne; congruence |].
  split; [| split].
  - intros old now Hne.
    apply (verifyOTP_wrong_guess _ _ _ _ _ E). cbn. congruence.
  - intros now Hnow.
    pose proof (verifyOTP_match email now _ _ E) as Hm. cbn in Hm.
    rewrite Hm; [| lia | unfold MAX_ATTEMPTS; lia].
    f_equal. unfold storeOTP. apply delete_insert_eq.
  - intros wellFormed now limits. unfold AuthRoutes.sendOtp.
    destruct wellFormed; cbn [negb]; [| discriminate].
    cbn [AuthRoutes.rateLimitStore AuthRoutes.otpStore].
    destruct (checkRateLimit email now limits) as [rateCheck limits'].
    destruct (allowed rateCheck); cbn; [reflexivity | discriminate].
Qed.

(** The theorem on a second code request for a@x.com: the code issued
    first is refused, the fresh one verifies. *)
Lemma storeOTP_overwrites_witness :
  success
    (verifyOTP "a@x.com" "123456" 10
       (storeOTP "a@x.com" "654321" 5 5 (storeOTP "a@x.com" "123456" 0 0 ∅))).1
    = false /\
  verifyOTP "a@x.com" "654321" 10
    (storeOTP "a@x.com" "654321" 5 5 (storeOTP "a@x.com" "123456" 0 0 ∅))
  = (mkVerifyResult true "OTP verified successfully",
     delete "a@x.com" (storeOTP "a@x.com" "123456" 0 0 ∅)).
Proof.
  destruct (storeOTP_overwrites "a@x.com" "654321" 5 5
              (storeOTP "a@x.com" "123456" 0 0 ∅))
    as (_ & _ & _ & Hold & Hnew & _).
  split.
  - apply Hold. discriminate.
  - apply Hnew. lia.
Defined.

(** *** The request limiter *)

Lemma checkRateLimit_opens email now (st : gmap string RateData) :
  (st !! email = None \/ exists rd, st !! email = Some rd /\ now > resetAt rd) ->
  checkRateLimit email now st
  = (mkRateResult true None,
     <[email := mkRateData 1 (now + RATE_LIMIT_WINDOW)]> st).
Proof.
  intros [H | (rd & H & Hgt)]; unfold checkRateLimit; rewrite H; [done |].
  now zbool.
Qed.

Lemma checkRateLimit_counts email now (st : gmap string RateData) rd :
  st !! email = Some rd -> now <= resetAt rd ->
  count rd < MAX_REQUESTS_PER_HOUR ->
  checkRateLimit email now st
  = (mkRateResult true None,
     <[email := mkRateData (count rd + 1) (resetAt rd)]> st).
Proof. intros H Hle Hc. unfold checkRateLimit. rewrite H. now zbool. Qed.

Lemma checkRateLimit_denies email now (st : gmap string RateData) rd :
  st !! email = Some rd -> now <= resetAt rd ->
  count rd >= MAX_REQUESTS_PER_HOUR ->
  checkRateLimit email now st
  = (mkRateResult false
       (Some (tooManyRequests (ceilDiv (resetAt rd - now) 60000))), st).
Proof. intros H Hle Hc. unfold checkRateLimit. rewrite H. now zbool. Qed.

(** A refused call leaves the store as it was. *)
Lemma checkRateLimit_denial_pure email now (st : gmap string RateData) :
  allowed (checkRateLimit email now st).1 = false ->
  (checkRateLimit email now st).2 = st.
Proof.
  unfold checkRateLimit. destruct (st !! email) as [rd |]; [| discriminate].
  destruct (now >? resetAt rd); [discriminate |].
  destruct (count rd >=? MAX_REQUESTS_PER_HOUR); [reflexivity | discriminate].
Qed.

(** What the call number [i] of a window answers when the window held [c]
    requests before call 0 and closes at [r]. *)
Definition inWindowAnswer (c r : Z) (i : nat) (now : Z) : RateResult :=
  if c + Z.of_nat i <? MAX_REQUESTS_PER_HOUR
  then mkRateResult true None
  else mkRateResult false (Some (tooManyRequests (ceilDiv (r - now) 60000))).

(** Calls inside an open window: the counter climbs to the ceiling and
    stays there. *)
Lemma checkRateLimits_in_window email times :
  forall (st : gmap string RateData) c r,
  st !! email = Some (mkRateData c r) ->
  Forall (fun now => now <= r) times ->
  (checkRateLimits email times st).1 = imap (inWindowAnswer c r) times.
Proof.
  induction times as [| now rest IH]; intros st c r Hst Hin; [reflexivity |].
  apply Forall_cons in Hin as [Hnow Hrest].
  cbn [checkRateLimits]. rewrite imap_cons.
  destruct (Z_lt_ge_dec c MAX_REQUESTS_PER_HOUR) as [Hc | Hc].
  - rewrite (checkRateLimit_counts _ _ _ _ Hst Hnow Hc). cbn [count resetAt].
    specialize (IH (<[email := mkRateData (c + 1) r]> st) (c + 1) r
                  (lookup_insert_eq _ _ _) Hrest).
    destruct (checkRateLimits email rest _) as [rs s']. cbn in *.
    f_equal.
    + unfold inWindowAnswer. rewrite Z.add_0_r.
      destruct (Z.ltb_spec c MAX_REQUESTS_PER_HOUR); [reflexivity | lia].
    + rewrite IH. apply imap_ext. intros i t _. unfold inWindowAnswer. cbn.
      replace (c + 1 + Z.of_nat i) with (c + Z.of_nat (S i)) by lia.
      reflexivity.
  - rewrite (checkRateLimit_denies _ _ _ _ Hst Hnow Hc). cbn [count resetAt].
    specialize (IH st c r Hst Hrest).
    destruct (checkRateLimits email rest st) as [rs s']. cbn in *.
    f_equal.
    + unfold inWindowAnswer. rewrite Z.add_0_r.
      destruct (Z.ltb_spec c MAX_REQUESTS_PER_HOUR); [lia | reflexivity].
    + rewrite IH. apply imap_ext. intros i t _. unfold inWindowAnswer. cbn.
      destruct (Z.ltb_spec (c + Z.of_nat i) MAX_REQUESTS_PER_HOUR);
        destruct (Z.ltb_spec (c + Z.of_nat (S i)) MAX_REQUESTS_PER_HOUR);
        try reflexivity; lia.
Qed.

Lemma ceilDiv_minutes x :
  0 <= x <= RATE_LIMIT_WINDOW ->
  0 <= ceilDiv x 60000 /\ ceilDiv x 60000 * 60000 <= RATE_LIMIT_WINDOW /\
  x <= ceilDiv x 60000 * 60000.
Proof.
  unfold ceilDiv, RATE_LIMIT_WINDOW. intros Hx.
  pose proof (Z.div_mod (- x) 60000 ltac:(lia)) as Hdm.
  pose proof (Z.mod_pos_bound (- x) 60000 ltac:(lia)) as Hm.
  lia.
Qed.

(** The answers of a run that opens a window at [t0] and stays inside it. *)
Lemma checkRateLimits_new_window email t0 times (st : gmap string RateData) :
  (st !! email = None \/ exists rd, st !! email = Some rd /\ t0 > resetAt rd) ->
  Forall (fun now => t0 <= now <= t0 + RATE_LIMIT_WINDOW) times ->
  (checkRateLimits email (t0 :: times) st).1
  = mkRateResult true None
    :: imap (inWindowAnswer 1 (t0 + RATE_LIMIT_WINDOW)) times.
Proof.
  intros Hopen Hin. cbn [checkRateLimits].
  rewrite (checkRateLimit_opens _ _ _ Hopen).
  pose proof (checkRateLimits_in_window email times
                (<[email := mkRateData 1 (t0 + RATE_LIMIT_WINDOW)]> st)
                1 (t0 + RATE_LIMIT_WINDOW) (lookup_insert_eq _ _ _)) as Hrun.
  destruct (checkRateLimits email times _) as [rs s']. cbn in *.
  f_equal. apply Hrun.
  eapply Forall_impl; [exact Hin |]. cbn. intros; lia.
Qed.

(** C8.  With ceiling 5 and a window of one hour: a call for an address that
    has no counter, or whose window-reset time has passed, opens a window;
    of the calls made from then until that window closes, the first 5 are
    allowed and every later one is refused.  A refusal names a number of
    minutes that is not negative, is at most the hour, and reaches the end of
    the window.  A refused call leaves the store unchanged. *)
Theorem checkRateLimit_fixed_window :
  forall email t0 times (st : gmap string RateData),
  (st !! email = None \/ exists rd, st !! email = Some rd /\ t0 > resetAt rd) ->
  Forall (fun now => t0 <= now <= t0 + RATE_LIMIT_WINDOW) times ->
  length (checkRateLimits email (t0 :: times) st).1 = S (length times) /\
  (forall i res, (checkRateLimits email (t0 :: times) st).1 !! i = Some res ->
     allowed res = bool_decide (i < 5)%nat) /\
  (forall i res now,
     (checkRateLimits email (t0 :: times) st).1 !! i = Some res ->
     (t0 :: times) !! i = Some now -> allowed res = false ->
     exists minutes, rate_message res = Some (tooManyRequests minutes) /\
       0 <= minutes /\ minutes * 60000 <= 60 * 60 * 1000 /\
       t0 + 60 * 60 * 1000 <= now + minutes * 60000) /\
  (forall now (st' : gmap string RateData),
     allowed (checkRateLimit email now st').1 = false ->
     (checkRateLimit email now st').2 = st').
Proof.
  intros email t0 times st Hopen Hin.
  rewrite (checkRateLimits_new_window _ _ _ _ Hopen Hin).
  split; [cbn; now rewrite length_imap |].
  split; [| split; [| intros; now apply checkRateLimit_denial_pure]].
  - intros [| j] res Hres.
    + injection Hres as <-. reflexivity.
    + assert (Hj : imap (inWindowAnswer 1 (t0 + RATE_LIMIT_WINDOW)) times !! j
                   = Some res) by exact Hres.
      rewrite list_lookup_imap in Hj.
      destruct (times !! j) as [now |]; [| discriminate].
      cbn in Hj. injection Hj as <-. unfold inWindowAnswer.
      unfold MAX_REQUESTS_PER_HOUR.
      destruct (Z.ltb_spec (1 + Z.of_nat j) 5); cbn; symmetry.
      * apply bool_decide_eq_true. lia.
      * apply bool_decide_eq_false. lia.
  - intros [| j] res now Hres Hnow Hden.
    + injection Hres as <-. discriminate.
    + assert (Hj : imap (inWindowAnswer 1 (t0 + RATE_LIMIT_WINDOW)) times !! j
                   = Some res) by exact Hres.
      assert (Hnow' : times !! j = Some now) by exact Hnow.
      rewrite list_lookup_imap, Hnow' in Hj. cbn in Hj.
      injection Hj as <-. unfold inWindowAnswer in *.
      destruct (1 + Z.of_nat j <? MAX_REQUESTS_PER_HOUR); [discriminate |].
      eexists. split; [reflexivity |].
      rewrite Forall_forall in Hin.
      assert (Hb : t0 <= now <= t0 + RATE_LIMIT_WINDOW).
      { apply Hin. eapply list_elem_of_lookup_2, Hnow'. }
      destruct (ceilDiv_minutes (t0 + RATE_LIMIT_WINDOW - now)) as (A & B & C);
        [lia |].
      unfold RATE_LIMIT_WINDOW in *. lia.
Qed.

(** The theorem on six calls in six consecutive milliseconds: the sixth is
    the first to be refused. *)
Lemma checkRateLimit_fixed_window_witness :
  exists res,
    (checkRateLimits "a@x.com" [0; 1; 2; 3; 4; 5] ∅).1 !! 5%nat = Some res /\
    allowed res = false.
Proof.
  assert (Hopen : (∅ : gmap string RateData) !! "a@x.com" = None \/
                  exists rd, (∅ : gmap string RateData) !! "a@x.com" = Some rd
                             /\ 0 > resetAt rd)
    by (left; reflexivity).
  assert (Hin : Forall (fun now => 0 <= now <= 0 + RATE_LIMIT_WINDOW)
                  [1; 2; 3; 4; 5])
    by (repeat constructor; vm_compute; discriminate).
  pose proof (checkRateLimit_fixed_window "a@x.com" 0 [1; 2; 3; 4; 5] ∅
                Hopen Hin) as (_ & H & _).
  exists (mkRateResult false
            (Some "Too many requests. Try again after 60 minutes")).
  assert (E : (checkRateLimits "a@x.com" [0; 1; 2; 3; 4; 5] ∅).1 !! 5%nat
              = Some (mkRateResult false
                        (Some "Too many requests. Try again after 60 minutes")))
    by (vm_compute; reflexivity).
  split; [exact E | exact (H 5%nat _ E)].
Defined.

End OtpStoreProofs.

(** ** The station scan on real distances *)

Module LocationProofs.
Import Prisma Location.

Local Open Scope R_scope.
Local Open Scope list_scope.

Section Scan.

Variables latitude longitude : R.

(** The scan keeps, at every turn, a station that is strictly nearer than
    every station before it and at least as near as every station seen
    after it. *)
Lemma nearerOf_scan rest :
  forall before station mid,
  Forall (fun s => distanceTo latitude longitude station
                   < distanceTo latitude longitude s) before ->
  Forall (fun s => distanceTo latitude longitude station
                   <= distanceTo latitude longitude s) mid ->
  exists best before' after',
    fold_left (nearerOf latitude longitude) rest
      (station, distanceTo latitude longitude station)
    = (best, distanceTo latitude longitude best) /\
    before ++ station :: mid ++ rest = before' ++ best :: after' /\
    Forall (fun s => distanceTo latitude longitude best
                     < distanceTo latitude longitude s) before' /\
    Forall (fun s => distanceTo latitude longitude best
                     <= distanceTo latitude longitude s) after'.
Proof.
  induction rest as [| x rest IH]; intros before station mid Hb Hm.
  - exists station, before, mid. rewrite app_nil_r. auto.
  - cbn [fold_left]. unfold nearerOf at 2. cbn [snd].
    destruct (Rlt_dec (distanceTo latitude longitude x)
                (distanceTo latitude longitude station)) as [Hlt | Hge].
    + destruct (IH (before ++ station :: mid) x []) as (b & b' & a' & E & L & F1 & F2).
      * apply Forall_app. split; [| apply Forall_cons; split].
        -- eapply Forall_impl; [exact Hb |]. cbn. intros; lra.
        -- exact Hlt.
        -- eapply Forall_impl; [exact Hm |]. cbn. intros; lra.
      * constructor.
      * exists b, b', a'. repeat split; try assumption.
        rewrite <- L. cbn. rewrite <- !app_assoc. reflexivity.
    + destruct (IH before station (mid ++ [x])) as (b & b' & a' & E & L & F1 & F2).
      * exact Hb.
      * apply Forall_app. split; [exact Hm |].
        apply Forall_cons. split; [lra | constructor].
      * exists b, b', a'. repeat split; try assumption.
        rewrite <- L. rewrite <- !app_assoc. reflexivity.
Qed.

End Scan.

End LocationProofs.

(** ** The resolver in double precision *)

Module Binary64Proofs.
Import PrimFloat SpecFloat FloatOps FloatAxioms.
Import Binary64.
Local Open Scope float_scope.
Local Open Scope list_scope.


Lemma is_nan_Prim2SF x : is_nan x = true <-> Prim2SF x = S754_nan.
Proof.
  unfold is_nan. rewrite eqb_spec. unfold SFeqb.
  destruct (Prim2SF x) as [s | s | | s m e]; cbn.
  - split; discriminate.
  - destruct s; cbn; split; discriminate.
  - tauto.
  - destruct s; cbn; rewrite Z.compare_refl;
      change (Pos.compare_cont Eq m m) with (Pos.compare m m);
      rewrite Pos.compare_refl; cbn; split; discriminate.
Qed.

Lemma is_nan_false x : is_nan x = false <-> Prim2SF x <> S754_nan.
Proof.
  rewrite <- is_nan_Prim2SF. destruct (is_nan x); split; congruence.
Qed.

Lemma ltb_nan_r x y : is_nan y = true -> (x <? y) = false.
Proof.
  rewrite is_nan_Prim2SF, ltb_spec. intros ->.
  unfold SFltb. now destruct (Prim2SF x).
Qed.

Lemma ltb_numbers x y :
  (x <? y) = true -> is_nan x = false /\ is_nan y = false.
Proof.
  rewrite ltb_spec, !is_nan_false. unfold SFltb.
  destruct (Prim2SF x), (Prim2SF y); cbn; try discriminate; split; discriminate.
Qed.

Ltac order_cases :=
  repeat match goal with
  | |- context [Pos.compare_cont Eq ?a ?b] =>
      change (Pos.compare_cont Eq a b) with (Pos.compare a b)
  | H : context [Pos.compare_cont Eq ?a ?b] |- _ =>
      change (Pos.compare_cont Eq a b) with (Pos.compare a b) in H
  end;
  repeat match goal with
  | H : context [Z.compare ?a ?b] |- _ =>
      destruct (Z.compare_spec a b); cbn in H; try discriminate H
  | H : context [Pos.compare ?a ?b] |- _ =>
      destruct (Pos.compare_spec a b); cbn in H; try discriminate H
  end;
  repeat match goal with
  | |- context [Z.compare ?a ?b] => destruct (Z.compare_spec a b); cbn
  | |- context [Pos.compare ?a ?b] => destruct (Pos.compare_spec a b); cbn
  end;
  subst; try reflexivity; try lia.

Lemma SFcompare_lt_le x y z :
  SFcompare x y = Some Lt ->
  SFcompare y z = Some Lt \/ SFcompare y z = Some Eq ->
  SFcompare x z = Some Lt.
Proof.
  destruct x as [sx | sx | | sx mx ex], y as [sy | sy | | sy my ey],
    z as [sz | sz | | sz mz ez]; cbn;
    try destruct sx; try destruct sy; try destruct sz; cbn;
    intros H [H' | H']; try discriminate; try reflexivity;
    injection H as H; injection H' as H'; f_equal; order_cases.
Qed.

Lemma SFcompare_total x y :
  x <> S754_nan -> y <> S754_nan ->
  SFcompare x y <> Some Lt ->
  SFcompare y x = Some Lt \/ SFcompare y x = Some Eq.
Proof.
  destruct x as [sx | sx | | sx mx ex], y as [sy | sy | | sy my ey]; cbn;
    try destruct sx; try destruct sy; cbn;
    intros Hx Hy H; try congruence; auto;
    try (assert (H0 : forall c, c <> Lt -> Some c <> Some Lt) by congruence);
    order_cases; auto; exfalso; apply H; f_equal; order_cases.
Qed.


Lemma ltb_leb_trans x y z :
  (x <? y) = true -> (y <=? z) = true -> (x <? z) = true.
Proof.
  rewrite !ltb_spec, leb_spec. unfold SFltb, SFleb. intros H H'.
  rewrite (SFcompare_lt_le (Prim2SF x) (Prim2SF y) (Prim2SF z)); [reflexivity | |].
  - destruct (SFcompare (Prim2SF x) (Prim2SF y)) as [[] |]; congruence.
  - destruct (SFcompare (Prim2SF y) (Prim2SF z)) as [[] |]; auto; discriminate.
Qed.

Lemma ltb_leb x y : (x <? y) = true -> (x <=? y) = true.
Proof.
  rewrite ltb_spec, leb_spec. unfold SFltb, SFleb.
  now destruct (SFcompare (Prim2SF x) (Prim2SF y)) as [[] |].
Qed.

Lemma not_ltb_leb x y :
  is_nan x = false -> is_nan y = false ->
  (x <? y) = false -> (y <=? x) = true.
Proof.
  rewrite !is_nan_false, ltb_spec, leb_spec. unfold SFltb, SFleb.
  intros Hx Hy H.
  destruct (SFcompare_total (Prim2SF x) (Prim2SF y) Hx Hy) as [E | E];
    [| now rewrite E | now rewrite E].
  destruct (SFcompare (Prim2SF x) (Prim2SF y)) as [[] |]; congruence.
Qed.

Section Scan.
Variable M : Math.
Variables latitude longitude : float.

Local Abbreviation dist := (distanceTo M latitude longitude).

(** What the resolver's loop keeps true of the row it holds: a row whose
    distance is NaN is held only while it is the first one; a row whose
    distance is a number is strictly nearer than every row before it and at
    least as near as every row after it, rows at distance NaN apart. *)
Definition held (before : list Station) (s : Station) (after : list Station)
    : Prop :=
  (is_nan (dist s) = true -> before = []) /\
  Forall (fun t => is_nan (dist t) = true \/ (dist s <? dist t) = true) before /\
  (is_nan (dist s) = false ->
   Forall (fun t => is_nan (dist t) = true \/ (dist s <=? dist t) = true) after).

Lemma nearerOf_scan_numbers rest :
  forall before s after,
  held before s after ->
  exists before' s' after',
    fold_left (nearerOf M latitude longitude) rest (s, dist s) = (s', dist s') /\
    before ++ s :: after ++ rest = before' ++ s' :: after' /\
    held before' s' after'.
Proof.
  induction rest as [| t rest IH]; intros before s after (Hn & Hb & Ha).
  - exists before, s, after. rewrite app_nil_r. now repeat split.
  - cbn [fold_left]. unfold nearerOf at 2. cbn [snd].
    destruct (dist t <? dist s) eqn:Hlt.
    + destruct (ltb_numbers _ _ Hlt) as [Ht Hs].
      destruct (IH (before ++ s :: after) t []) as (b' & s' & a' & E & L & H').
      { split; [congruence |]. split; [| constructor].
        apply Forall_app. split; [| constructor].
        - eapply Forall_impl; [exact Hb |]. cbn. intros u [Hu | Hu]; [now left |].
          right. eapply ltb_leb_trans; [exact Hlt | now apply ltb_leb].
        - now right.
        - eapply Forall_impl; [exact (Ha Hs) |]. cbn.
          intros u [Hu | Hu]; [now left |].
          right. eapply ltb_leb_trans; [exact Hlt | exact Hu]. }
      exists b', s', a'. split; [exact E |]. split; [| exact H'].
      rewrite <- L. cbn. now rewrite <- !app_assoc.
    + destruct (IH before s (after ++ [t])) as (b' & s' & a' & E & L & H').
      { split; [exact Hn |]. split; [exact Hb |]. intros Hs.
        apply Forall_app. split; [exact (Ha Hs) |]. constructor; [| constructor].
        destruct (is_nan (dist t)) eqn:Ht; [now left |].
        right. now apply not_ltb_leb. }
      exists b', s', a'. split; [exact E |]. split; [| exact H'].
      rewrite <- L. now rewrite <- app_assoc.
Qed.

Lemma nearerOf_keeps_nan rest :
  forall s d,
  is_nan d = true ->
  fold_left (nearerOf M latitude longitude) rest (s, d) = (s, d).
Proof.
  induction rest as [| t rest IH]; intros s d Hd; [reflexivity |].
  cbn [fold_left]. unfold nearerOf at 2. cbn [snd].
  rewrite (ltb_nan_r _ _ Hd). now apply IH.
Qed.

End Scan.

(** *** A report near the equator, a station on the other side *)

(** A report at 2.5 N, 0 E; a station at 2.5 S, 180 E, almost opposite on
    the globe; and a station at the very place of the report. *)
Definition far : Station := mkStation "far" (-2.5) 180 true.
Definition here : Station := mkStation "here" 2.5 0 true.



(** A platform given by a table: it answers at the arguments above. *)
Definition table : Math :=
  mkMath
    (fun x => if x =? 0x1.921fb54442d18p+0 then 1
              else if x =? -0x1.657184ae74487p-5 then -0x1.65547c4694e11p-5
              else if x =? 0 then 0 else nan)
    (fun x => if abs x =? 0x1.657184ae74487p-5 then 0x1.ff833f9da45f7p-1
              else nan)
    (fun y x => if (y =? 0) && (0 <? x) then 0 else nan).






End Binary64Proofs.

(** ** The daily submission quota *)

Module PostLimitProofs.
Import Prisma PostLimit IncidentRoutes.

Local Open Scope list_scope.

(** The count [checkPostLimit] compares with the ceiling. *)
Definition currentCount (userId : string) (today : Z) (db : Db) : Z :=
  match findTracker userId today db with
  | Some t => DailyPostTracker.postCount t
  | None => 0
  end.

Lemma checkPostLimit_passes config u today db :
  currentCount (Auth.id u) today db < limitFor config (Auth.role u) ->
  checkPostLimit config (Some u) today db = None.
Proof.
  unfold checkPostLimit, currentCount. intros H.
  destruct (Z.geb_spec
    match findTracker (Auth.id u) today db with
    | Some t => DailyPostTracker.postCount t | None => 0 end
    (limitFor config (Auth.role u))); [lia | reflexivity].
Qed.

Lemma checkPostLimit_refuses config u today db :
  currentCount (Auth.id u) today db >= limitFor config (Auth.role u) ->
  checkPostLimit config (Some u) today db
  = Some (429, limitMessage (Auth.role u) (limitFor config (Auth.role u))).
Proof.
  unfold checkPostLimit, currentCount. intros H.
  destruct (Z.geb_spec
    match findTracker (Auth.id u) today db with
    | Some t => DailyPostTracker.postCount t | None => 0 end
    (limitFor config (Auth.role u))); [reflexivity | lia].
Qed.

Section Tracker.

Variable userId : string.
Variable today : Z.

(** Rows of other users, or of earlier days, before the row of today. *)
Definition noTrackerBefore (rows : list DailyPostTracker.t) : Prop :=
  Forall (fun t => String.eqb (DailyPostTracker.userId t) userId
                   && (today <=? DailyPostTracker.date t) = false) rows.

Lemma find_none_noTrackerBefore db :
  findTracker userId today db = None ->
  noTrackerBefore (dailyPostTracker db).
Proof.
  unfold findTracker, noTrackerBefore. intros H.
  apply List.Forall_forall. intros t Ht.
  exact (List.find_none _ _ H t Ht).
Qed.

Lemma find_after_prefix rows c tail :
  noTrackerBefore rows ->
  List.find (fun t => String.eqb (DailyPostTracker.userId t) userId
                      && (today <=? DailyPostTracker.date t))
    (rows ++ DailyPostTracker.mk userId today c :: tail)
  = Some (DailyPostTracker.mk userId today c).
Proof.
  induction 1 as [| t rows Ht _ IH]; cbn.
  - rewrite String.eqb_refl, Z.leb_refl. reflexivity.
  - rewrite Ht. exact IH.
Qed.

Lemma bump_none rows :
  noTrackerBefore rows -> bumpTracker userId today rows = None.
Proof.
  induction 1 as [| t rows Ht _ IH]; cbn; [reflexivity |].
  destruct (String.eqb (DailyPostTracker.userId t) userId) eqn:E1; cbn in *.
  - destruct (Z.eqb_spec (DailyPostTracker.date t) today) as [E | _].
    + rewrite E, Z.leb_refl in Ht. discriminate.
    + now rewrite IH.
  - now rewrite IH.
Qed.

Lemma bump_after_prefix rows c tail :
  noTrackerBefore rows ->
  bumpTracker userId today (rows ++ DailyPostTracker.mk userId today c :: tail)
  = Some (rows ++ DailyPostTracker.mk userId today (c + 1) :: tail).
Proof.
  induction 1 as [| t rows Ht _ IH]; cbn.
  - rewrite String.eqb_refl, Z.eqb_refl. reflexivity.
  - destruct (String.eqb (DailyPostTracker.userId t) userId) eqn:E1; cbn in *.
    + destruct (Z.eqb_spec (DailyPostTracker.date t) today) as [E | _].
      * rewrite E, Z.leb_refl in Ht. discriminate.
      * now rewrite IH.
    + now rewrite IH.
Qed.

End Tracker.

(** An accepted submission: the request of an active user under the ceiling,
    with a body the validators pass. *)
Lemma createIncident_accepted config userId user body today newId now db :
  users db !! userId = Some user -> User.isActive user = true ->
  body_valid body = true ->
  currentCount userId today db < limitFor config (User.role user) ->
  exists incident,
    createIncident config (Auth.Token userId) body today newId now today db
    = (Ok 201
         "Incident reported successfully. It will be visible after verification."
         incident,
       incrementPostCount userId today
         (setIncidents (<[newId := incident]> (incidents db)) db)) /\
    Incident.id incident = newId /\
    Incident.status incident = "SUBMITTED" /\
    Incident.publisherId incident = userId.
Proof.
  intros Hu Ha Hv Hc. unfold createIncident, Auth.authenticate.
  rewrite Hu, Ha.
  rewrite (checkPostLimit_passes config (Auth.mkReqUser userId (User.role user)));
    [| exact Hc].
  rewrite Hv. cbn [negb]. eexists. split; [reflexivity |]. now cbn.
Qed.

(** A submission at or over the ceiling is refused with 429 and the store
    is left as it was. *)
Lemma createIncident_limited config userId user body today newId now today' db :
  users db !! userId = Some user -> User.isActive user = true ->
  currentCount userId today db >= limitFor config (User.role user) ->
  createIncident config (Auth.Token userId) body today newId now today' db
  = (Error 429 (limitMessage (User.role user) (limitFor config (User.role user))),
     db).
Proof.
  intros Hu Ha Hc. unfold createIncident, Auth.authenticate.
  rewrite Hu, Ha.
  now rewrite (checkPostLimit_refuses config
                 (Auth.mkReqUser userId (User.role user)) today db Hc).
Qed.

Lemma currentCount_of_row userId today db rows c tail :
  dailyPostTracker db = rows ++ DailyPostTracker.mk userId today c :: tail ->
  noTrackerBefore userId today rows ->
  currentCount userId today db = c.
Proof.
  intros E H. unfold currentCount, findTracker. rewrite E.
  now rewrite (find_after_prefix userId today rows c tail H).
Qed.

Lemma incrementPostCount_first userId today db :
  noTrackerBefore userId today (dailyPostTracker db) ->
  incrementPostCount userId today db
  = setDailyPostTracker
      (dailyPostTracker db ++ [DailyPostTracker.mk userId today 1]) db.
Proof. intros H. unfold incrementPostCount. now rewrite (bump_none _ _ _ H). Qed.

Lemma incrementPostCount_next userId today db rows c tail :
  dailyPostTracker db = rows ++ DailyPostTracker.mk userId today c :: tail ->
  noTrackerBefore userId today rows ->
  incrementPostCount userId today db
  = setDailyPostTracker
      (rows ++ DailyPostTracker.mk userId today (c + 1) :: tail) db.
Proof.
  intros E H. unfold incrementPostCount.
  now rewrite E, (bump_after_prefix _ _ _ c tail H).
Qed.

(** C9.  With the default configuration (citizen ceiling 2, verified-reporter
    ceiling 5): an active publisher of role CITIZEN who has not yet posted
    today submits two valid reports on one day and both are created (201,
    stored as SUBMITTED); a third submission that day is answered 429 and
    the store is left exactly as the second submission left it, whatever its
    body.  A VERIFIED_REPORTER passes the gate exactly while the count of
    the day is below 5. *)
Theorem citizen_third_submission_limited :
  forall userId user b1 b2 b3 today id1 id2 id3 n1 n2 n3 today3 db,
  users db !! userId = Some user ->
  User.isActive user = true ->
  User.role user = "CITIZEN" ->
  findTracker userId today db = None ->
  body_valid b1 = true ->
  body_valid b2 = true ->
  (exists i1 i2 db1 db2,
     createIncident defaultConfig (Auth.Token userId) b1 today id1 n1 today db
     = (Ok 201
          "Incident reported successfully. It will be visible after verification."
          i1, db1) /\
     incidents db1 !! id1 = Some i1 /\ Incident.status i1 = "SUBMITTED" /\
     createIncident defaultConfig (Auth.Token userId) b2 today id2 n2 today db1
     = (Ok 201
          "Incident reported successfully. It will be visible after verification."
          i2, db2) /\
     incidents db2 !! id2 = Some i2 /\ Incident.status i2 = "SUBMITTED" /\
     createIncident defaultConfig (Auth.Token userId) b3 today id3 n3 today3 db2
     = (Error 429
          "Daily posting limit reached. Citizens can post 2 incidents per day.",
        db2)) /\
  limitFor defaultConfig "CITIZEN" = 2 /\
  limitFor defaultConfig "VERIFIED_REPORTER" = 5 /\
  (forall u day db',
     Auth.role u = "VERIFIED_REPORTER" ->
     (checkPostLimit defaultConfig (Some u) day db' = None <->
      currentCount (Auth.id u) day db' < 5)).
Proof.
  intros userId user b1 b2 b3 today id1 id2 id3 n1 n2 n3 today3 db
    Hu Ha Hr Hfresh Hv1 Hv2.
  pose proof (find_none_noTrackerBefore _ _ _ Hfresh) as Hrows.
  assert (Hlim : limitFor defaultConfig (User.role user) = 2)
    by (rewrite Hr; reflexivity).
  split; [| split; [reflexivity | split; [reflexivity |]]].
  - (* first submission *)
    destruct (createIncident_accepted defaultConfig userId user b1 today id1 n1 db
                Hu Ha Hv1) as (i1 & E1 & Hid1 & Hs1 & _).
    { unfold currentCount. rewrite Hfresh, Hlim. lia. }
    set (dbA := setIncidents (<[id1 := i1]> (incidents db)) db) in *.
    assert (Hrows1 : noTrackerBefore userId today (dailyPostTracker dbA)) by exact Hrows.
    rewrite (incrementPostCount_first _ _ _ Hrows1) in E1.
    set (db1 := setDailyPostTracker _ dbA) in *.
    assert (T1 : dailyPostTracker db1
                 = dailyPostTracker db ++ DailyPostTracker.mk userId today 1 :: [])
      by reflexivity.
    (* second submission *)
    destruct (createIncident_accepted defaultConfig userId user b2 today id2 n2 db1
                Hu Ha Hv2) as (i2 & E2 & Hid2 & Hs2 & _).
    { rewrite (currentCount_of_row _ _ _ _ _ _ T1 Hrows), Hlim. lia. }
    set (dbB := setIncidents (<[id2 := i2]> (incidents db1)) db1) in *.
    assert (T1' : dailyPostTracker dbB
                  = dailyPostTracker db ++ DailyPostTracker.mk userId today 1 :: [])
      by reflexivity.
    rewrite (incrementPostCount_next _ _ _ _ _ _ T1' Hrows) in E2.
    set (db2 := setDailyPostTracker _ dbB) in *.
    assert (T2 : dailyPostTracker db2
                 = dailyPostTracker db
                   ++ DailyPostTracker.mk userId today (1 + 1) :: [])
      by reflexivity.
    exists i1, i2, db1, db2.
    split; [exact E1 |]. split; [apply lookup_insert_eq |]. split; [exact Hs1 |].
    split; [exact E2 |]. split; [apply lookup_insert_eq |]. split; [exact Hs2 |].
    (* third submission *)
    rewrite (createIncident_limited defaultConfig userId user b3 today id3 n3
               today3 db2 Hu Ha).
    + rewrite Hr. reflexivity.
    + rewrite (currentCount_of_row _ _ _ _ _ _ T2 Hrows), Hlim. lia.
  - intros u day db' Hrole. split.
    + intros Hpass.
      destruct (Z_lt_ge_dec (currentCount (Auth.id u) day db') 5) as [H | H];
        [exact H |].
      rewrite checkPostLimit_refuses in Hpass; [discriminate |].
      rewrite Hrole. exact H.
    + intros H. apply checkPostLimit_passes. rewrite Hrole. exact H.
Qed.

(** The store of the scenario: one active citizen, nothing else. *)
Definition oneCitizen : Db :=
  mkDb {[ "u1" := User.mk "u1" "CITIZEN" true 50 None ]} ∅ [] [] [] ∅ [].

Definition someBody : CreateBody :=
  mkCreateBody "Road blocked" "A tree fell across the main road."
    "TRAFFIC" 12 77 None None true.

(** The theorem at that store: the third submission of the day is refused. *)
Lemma citizen_third_submission_witness :
  exists db2,
    createIncident defaultConfig (Auth.Token "u1") someBody 0 "i3" 30 0 db2
    = (Error 429
         "Daily posting limit reached. Citizens can post 2 incidents per day.",
       db2).
Proof.
  destruct (citizen_third_submission_limited "u1"
              (User.mk "u1" "CITIZEN" true 50 None) someBody someBody someBody
              0 "i1" "i2" "i3" 10 20 30 0 oneCitizen
              eq_refl eq_refl eq_refl eq_refl eq_refl eq_refl)
    as [(i1 & i2 & db1 & db2 & _ & _ & _ & _ & _ & _ & H) _].
  exists db2. exact H.
Defined.

End PostLimitProofs.

(** ** The public read routes *)

Module FeedProofs.
Import Prisma IncidentRoutes.

Local Open Scope list_scope.

(** A store with one report that is still waiting for moderation. *)
Definition pendingReport : Incident.t :=
  Incident.mk "i1" "Road blocked" "A tree fell across the main road."
    "TRAFFIC" 12 77 None (Some "Pune") None "SUBMITTED" None None None
    "u1" "CITIZEN" 0 100.

Definition onePending : Db :=
  mkDb {[ "u1" := User.mk "u1" "CITIZEN" true 50 None ]}
       {[ "i1" := pendingReport ]} [] [] [] ∅ [].

(** C2 fails on the feed.  A reader who sends no Authorization header and
    asks for [status=SUBMITTED] is handed the report that is still
    SUBMITTED. *)
Lemma feed_serves_unverified_to_anonymous :
  getIncidents Auth.NoHeader
    (mkFeedQuery None None None (Some "SUBMITTED") None) onePending
  = Ok 200 "" (mkFeedData [pendingReport] 1 10 1 1).
Proof. reflexivity. Qed.

Lemma insertByCreatedAtDesc_In x l y :
  In y (insertByCreatedAtDesc x l) -> y = x \/ In y l.
Proof.
  induction l as [| z l IH]; cbn.
  - intros [<- | []]. now left.
  - destruct (Incident.createdAt z <? Incident.createdAt x); cbn.
    + intros [<- | [<- | H]]; auto.
    + intros [<- | H]; [auto |]. destruct (IH H); auto.
Qed.

Lemma orderByCreatedAtDesc_In l y : In y (orderByCreatedAtDesc l) -> In y l.
Proof.
  induction l as [| x l IH]; cbn; [auto |].
  intros H. apply insertByCreatedAtDesc_In in H as [-> | H]; auto.
Qed.

(** Every row of a feed page is a stored report that satisfies the [where]
    clause. *)
Lemma getIncidents_rows h q db code m data i :
  getIncidents h q db = Ok code m data ->
  In i (feed_incidents data) ->
  feedWhere q i = true /\ exists id, incidents db !! id = Some i.
Proof.
  unfold getIncidents. intros E Hi. injection E as _ _ <-. cbn in Hi.
  apply list_elem_of_In in Hi.
  eapply elem_of_sublist in Hi; [| apply sublist_take].
  eapply elem_of_sublist in Hi; [| apply sublist_drop].
  apply list_elem_of_In, orderByCreatedAtDesc_In in Hi.
  apply List.filter_In in Hi as [Hin Hw]. split; [exact Hw |].
  apply List.in_map_iff in Hin as ([id i'] & <- & Hin).
  exists id. apply list_elem_of_In in Hin.
  now apply elem_of_map_to_list in Hin.
Qed.

(** The status of the rows served is the one the query asks for, whoever
    asks; only a query without one gets the VERIFIED default. *)
Lemma getIncidents_status h q db code m data i :
  getIncidents h q db = Ok code m data ->
  In i (feed_incidents data) ->
  Incident.status i
  = (if truthyText (status q) then default "VERIFIED" (status q)
     else "VERIFIED").
Proof.
  intros E Hi. destruct (getIncidents_rows _ _ _ _ _ _ _ E Hi) as [Hw _].
  unfold feedWhere in Hw.
  apply andb_prop in Hw as [Hw _]. apply andb_prop in Hw as [Hw _].
  now apply String.eqb_eq in Hw.
Qed.

(** The feed does not depend on who reads it. *)
Lemma getIncidents_ignores_reader h q db :
  getIncidents h q db = getIncidents Auth.NoHeader q db.
Proof. reflexivity. Qed.

(** The single-report route, in contrast, serves a report that is not
    VERIFIED only to its publisher or to an ADMIN or MODERATOR. *)
Lemma getIncident_hides_unverified h id db code m incident db' :
  getIncident h id db = (Ok code m incident, db') ->
  Incident.status incident <> "VERIFIED" ->
  exists u, Auth.optionalAuth h db = Some u /\
    (Auth.id u = Incident.publisherId incident \/
     Auth.role u = "ADMIN" \/ Auth.role u = "MODERATOR").
Proof.
  unfold getIncident. destruct (incidents db !! id) as [i |]; [| discriminate].
  destruct (String.eqb_spec (Incident.status i) "VERIFIED") as [E | _]; cbn.
  - intros H Hne. injection H as _ _ <- _. contradiction.
  - destruct (Auth.optionalAuth h db) as [u |]; [| discriminate].
    destruct (String.eqb_spec (Auth.id u) (Incident.publisherId i)) as [E | _]; cbn.
    + intros H _. injection H as _ _ <- _. exists u. auto.
    + unfold includes. cbn.
      destruct (String.eqb_spec (Auth.role u) "ADMIN") as [E | _]; cbn.
      { intros H _. injection H as _ _ <- _. exists u. auto. }
      destruct (String.eqb_spec (Auth.role u) "MODERATOR") as [E | _]; cbn.
      { intros H _. injection H as _ _ <- _. exists u. auto. }
      discriminate.
Qed.

End FeedProofs.

(** ** Moderation *)

Module AdminProofs.
Import Prisma AdminRoutes.

Local Open Scope list_scope.

Lemma includes_In l x : includes l x = true <-> In x l.
Proof.
  unfold includes. rewrite existsb_exists. split.
  - intros (y & Hy & E). apply String.eqb_eq in E. now subst.
  - intros H. exists x. split; [exact H | apply String.eqb_refl].
Qed.

(** The jurisdiction step only ever appends notifications for officers. *)
Lemma resolveStation_frame status incident db :
  let db1 := (resolveStation status incident db).2 in
  users db1 = users db /\ incidents db1 = incidents db /\
  policeStations db1 = policeStations db /\ auditLogs db1 = auditLogs db /\
  reports db1 = reports db /\ dailyPostTracker db1 = dailyPostTracker db /\
  exists extra, notifications db1 = notifications db ++ extra /\
    Forall (fun n => Notification.type n = "NEW_INCIDENT_NEARBY") extra.
Proof.
  assert (Hsame : users db = users db /\ incidents db = incidents db /\
    policeStations db = policeStations db /\ auditLogs db = auditLogs db /\
    reports db = reports db /\ dailyPostTracker db = dailyPostTracker db /\
    exists extra, notifications db = notifications db ++ extra /\
      Forall (fun n => Notification.type n = "NEW_INCIDENT_NEARBY") extra).
  { repeat split. exists []. now rewrite app_nil_r. }
  unfold resolveStation.
  destruct (_ && _); [| exact Hsame].
  destruct (Location.findNearestPoliceStation _ _ _) as [[station distance] |];
    [| exact Hsame].
  cbn [snd]. unfold Location.notifyPoliceStation.
  destruct (Location.officersOf _ db) as [| o os]; [exact Hsame |].
  unfold createNotifications, setNotifications.
  cbn [users incidents policeStations auditLogs reports dailyPostTracker
       notifications].
  repeat split. eexists. split; [reflexivity |].
  apply List.Forall_forall. intros n Hn.
  apply List.in_map_iff in Hn as (u & <- & _). reflexivity.
Qed.

Lemma resolveStation_no_station status incident db :
  policeStations db = [] ->
  resolveStation status incident db = (Incident.policeStationId incident, db).
Proof.
  intros H. unfold resolveStation, Location.findNearestPoliceStation.
  rewrite H. cbn. now destruct (_ && _).
Qed.

(** The store an accepted decision leaves, given what the jurisdiction step
    returned. *)
Definition decided (req : StatusRequest) (now : Z) (status : string)
    (incident : Incident.t) (policeStationId : option string) (db1 : Db) : Db :=
  createAuditLog
    (AuditLog.mk (user_id req) (auditAction status) "INCIDENT"
       (Incident.id incident) (createField (body_verificationNote req))
       (ip req) (userAgent req))
    (adjustCredibility status (Incident.publisherId incident)
       (createNotifications
          [publisherNotification status (body_verificationNote req) incident]
          (setIncidents
             (<[params_id req :=
                  moderate status (body_verificationNote req) now (user_id req)
                    policeStationId incident]> (incidents db1)) db1))).

(** A decision with one of the three statuses on a stored report is carried
    out; nothing in the handler looks at the status the report has. *)
Lemma putIncidentStatus_accepted req now db status incident :
  body_status req = Some status ->
  In status moderationStatuses ->
  incidents db !! params_id req = Some incident ->
  putIncidentStatus req now db
  = (Ok 200 ("Incident " +:+ toLowerCase status +:+ " successfully")
       (moderate status (body_verificationNote req) now (user_id req)
          (resolveStation status incident db).1 incident),
     decided req now status incident (resolveStation status incident db).1
       (resolveStation status incident db).2).
Proof.
  intros Hs Hin Hi. unfold putIncidentStatus. rewrite Hs.
  apply includes_In in Hin. rewrite Hin. cbn [negb]. rewrite Hi.
  now destruct (resolveStation status incident db).
Qed.

Lemma putIncidentStatus_invalid req now db :
  (forall s, body_status req = Some s -> ~ In s moderationStatuses) ->
  putIncidentStatus req now db = (Error 400 "Invalid status", db).
Proof.
  intros H. unfold putIncidentStatus.
  destruct (body_status req) as [s |]; [| reflexivity].
  destruct (includes moderationStatuses s) eqn:E; [| reflexivity].
  apply includes_In in E. now destruct (H s eq_refl).
Qed.

Lemma putIncidentStatus_not_found req now db status :
  body_status req = Some status ->
  In status moderationStatuses ->
  incidents db !! params_id req = None ->
  putIncidentStatus req now db = (Error 404 "Incident not found", db).
Proof.
  intros Hs Hin Hi. unfold putIncidentStatus. rewrite Hs.
  apply includes_In in Hin. now rewrite Hin, Hi.
Qed.

(** What [decided] does to each table. *)
Lemma decided_tables req now status incident policeStationId db1 :
  In status moderationStatuses ->
  let db' := decided req now status incident policeStationId db1 in
  incidents db'
    = <[params_id req :=
          moderate status (body_verificationNote req) now (user_id req)
            policeStationId incident]> (incidents db1) /\
  notifications db'
    = notifications db1
      ++ [publisherNotification status (body_verificationNote req) incident] /\
  auditLogs db'
    = auditLogs db1
      ++ [AuditLog.mk (user_id req) (auditAction status) "INCIDENT"
            (Incident.id incident) (createField (body_verificationNote req))
            (ip req) (userAgent req)] /\
  users db'
    = alter (User.addCredibility
               (if String.eqb status "VERIFIED" then 2
                else if String.eqb status "REJECTED" then -1 else 0))
        (Incident.publisherId incident) (users db1) /\
  reports db' = reports db1 /\
  policeStations db' = policeStations db1 /\
  dailyPostTracker db' = dailyPostTracker db1.
Proof.
  intros Hin. unfold decided, adjustCredibility.
  destruct Hin as [<- | [<- | [<- | []]]]; cbn; repeat split.
  apply map_eq. intros k. rewrite lookup_alter.
  case_decide; [subst k | reflexivity].
  destruct (users db1 !! Incident.publisherId incident) as [[] |]; cbn;
    [| reflexivity].
  unfold User.addCredibility. cbn. do 2 f_equal. lia.
Qed.

(** The three outcomes of the handler. *)
Lemma putIncidentStatus_cases req now db :
  putIncidentStatus req now db = (Error 400 "Invalid status", db) \/
  putIncidentStatus req now db = (Error 404 "Incident not found", db) \/
  exists status incident,
    body_status req = Some status /\ In status moderationStatuses /\
    incidents db !! params_id req = Some incident /\
    putIncidentStatus req now db
    = (Ok 200 ("Incident " +:+ toLowerCase status +:+ " successfully")
         (moderate status (body_verificationNote req) now (user_id req)
            (resolveStation status incident db).1 incident),
       decided req now status incident (resolveStation status incident db).1
         (resolveStation status incident db).2).
Proof.
  destruct (body_status req) as [status |] eqn:Hs.
  - destruct (includes moderationStatuses status) eqn:Hin.
    + apply includes_In in Hin.
      destruct (incidents db !! params_id req) as [incident |] eqn:Hi.
      * right. right. exists status, incident. repeat split; try assumption.
        now apply putIncidentStatus_accepted.
      * right. left. now apply (putIncidentStatus_not_found _ _ _ status).
    + left. apply putIncidentStatus_invalid. intros s Hs' Hin'.
      rewrite Hs in Hs'. injection Hs' as ->.
      apply includes_In in Hin'. congruence.
  - left. apply putIncidentStatus_invalid. intros s Hs'. congruence.
Qed.

(** *** C1 *)

Definition rejectedReport : Incident.t :=
  Incident.mk "i1" "Road blocked" "A tree fell across the main road."
    "TRAFFIC" 12 77 None (Some "Pune") None "REJECTED"
    (Some "Not newsworthy") (Some 500) (Some "m0") "u1" "CITIZEN" 0 100.

Definition oneRejected : Db :=
  mkDb {[ "u1" := User.mk "u1" "CITIZEN" true 50 None ]}
       {[ "i1" := rejectedReport ]} [] [] [] ∅ [].

Definition verifyRequest : StatusRequest :=
  mkStatusRequest "i1" (Some "VERIFIED") Absent "m1" None None.

(** C1 fails as stated: VERIFIED requested for a report that is REJECTED is
    not answered with a conflict; the report becomes VERIFIED and its
    moderator and moderation time are overwritten. *)
Lemma rejected_report_is_verified_on_request :
  exists updated db',
    putIncidentStatus verifyRequest 1000 oneRejected
    = (Ok 200 "Incident verified successfully" updated, db') /\
    incidents db' !! "i1" = Some updated /\
    Incident.status updated = "VERIFIED" /\
    Incident.verifiedBy updated = Some "m1" /\
    Incident.verifiedAt updated = Some 1000.
Proof.
  eexists. eexists. split.
  - rewrite (putIncidentStatus_accepted verifyRequest 1000 oneRejected
               "VERIFIED" rejectedReport eq_refl);
      [| cbn; auto | reflexivity].
    rewrite (resolveStation_no_station "VERIFIED" rejectedReport oneRejected
               eq_refl).
    reflexivity.
  - repeat split.
Qed.

(** C1 (amended).  The handler has no conflict outcome: it answers 200, 400
    or 404 and nothing else.  Given one of the three statuses and a stored
    report, it succeeds whatever status the report has at that moment, legal
    transition or not: the report is stored with the requested status, the
    acting moderator, the time of the decision, and the note as sent. *)
Theorem putIncidentStatus_never_conflicts :
  forall req now db,
  (statusCodeOf (putIncidentStatus req now db).1 = 200 \/
   statusCodeOf (putIncidentStatus req now db).1 = 400 \/
   statusCodeOf (putIncidentStatus req now db).1 = 404) /\
  (forall status incident,
     body_status req = Some status ->
     In status ["VERIFIED"; "REJECTED"; "TAKEN_DOWN"] ->
     incidents db !! params_id req = Some incident ->
     exists updated db',
       putIncidentStatus req now db
       = (Ok 200 ("Incident " +:+ toLowerCase status +:+ " successfully")
            updated, db') /\
       incidents db' !! params_id req = Some updated /\
       Incident.status updated = status /\
       Incident.verifiedBy updated = Some (user_id req) /\
       Incident.verifiedAt updated = Some now /\
       Incident.verificationNote updated
       = writeField (body_verificationNote req)
           (Incident.verificationNote incident)).
Proof.
  intros req now db. split.
  - destruct (putIncidentStatus_cases req now db)
      as [E | [E | (status & incident & _ & _ & _ & E)]]; rewrite E; cbn; auto.
  - intros status incident Hs Hin Hi.
    rewrite (putIncidentStatus_accepted _ _ _ _ _ Hs Hin Hi).
    eexists. eexists. split; [reflexivity |].
    destruct (decided_tables req now status incident
                (resolveStation status incident db).1
                (resolveStation status incident db).2 Hin) as (Ei & _).
    rewrite Ei. split; [apply lookup_insert_eq |]. repeat split.
Qed.

(** The theorem on a REJECTED report that a moderator takes down. *)
Lemma putIncidentStatus_never_conflicts_witness :
  exists updated db',
    putIncidentStatus (mkStatusRequest "i1" (Some "TAKEN_DOWN") IsNull "m1" None None)
      1000 oneRejected
    = (Ok 200 "Incident taken_down successfully" updated, db') /\
    Incident.status updated = "TAKEN_DOWN".
Proof.
  destruct (putIncidentStatus_never_conflicts
              (mkStatusRequest "i1" (Some "TAKEN_DOWN") IsNull "m1" None None)
              1000 oneRejected) as [_ H].
  destruct (H "TAKEN_DOWN" rejectedReport eq_refl
              ltac:(cbn; auto) eq_refl)
    as (updated & db' & E & _ & Hs & _).
  exists updated, db'. split; [exact E | exact Hs].
Defined.

(** *** C4 *)

(** C4.  A decision whose requested status is none of VERIFIED, REJECTED and
    TAKEN_DOWN (or is missing) is answered 400 with the message Invalid
    status, and the store, the targeted report included, is exactly what it
    was: no status change and no side effect. *)
Theorem putIncidentStatus_invalid_status :
  forall req now db,
  (forall s, body_status req = Some s ->
     s <> "VERIFIED" /\ s <> "REJECTED" /\ s <> "TAKEN_DOWN") ->
  putIncidentStatus req now db = (Error 400 "Invalid status", db).
Proof.
  intros req now db H. apply putIncidentStatus_invalid.
  intros s Hs [E | [E | [E | []]]]; destruct (H s Hs) as (A & B & C); congruence.
Qed.

(** The theorem on a request for the status PENDING. *)
Lemma putIncidentStatus_invalid_status_witness :
  putIncidentStatus (mkStatusRequest "i1" (Some "PENDING") Absent "m1" None None)
    1000 oneRejected
  = (Error 400 "Invalid status", oneRejected).
Proof.
  apply putIncidentStatus_invalid_status.
  intros s [= <-]. repeat split; discriminate.
Defined.

(** *** C5 *)

(** The change of the trust score that goes with a decision. *)
Definition credibilityDelta (status : string) : Z :=
  if String.eqb status "VERIFIED" then 2
  else if String.eqb status "REJECTED" then -1 else 0.

(** The same decision taken [n] times in a row. *)
Fixpoint decideRepeatedly (n : nat) (req : StatusRequest) (now : Z) (db : Db)
    : Db :=
  match n with
  | O => db
  | S k => decideRepeatedly k req now (putIncidentStatus req now db).2
  end.

(** After an accepted decision the report is still stored under its id with
    the same publisher, and the publisher's score has moved by the delta of
    the decision. *)
Lemma putIncidentStatus_publisher req now db status incident publisher :
  body_status req = Some status ->
  In status moderationStatuses ->
  incidents db !! params_id req = Some incident ->
  users db !! Incident.publisherId incident = Some publisher ->
  users (putIncidentStatus req now db).2 !! Incident.publisherId incident
    = Some (User.addCredibility (credibilityDelta status) publisher) /\
  exists updated,
    incidents (putIncidentStatus req now db).2 !! params_id req = Some updated /\
    Incident.publisherId updated = Incident.publisherId incident.
Proof.
  intros Hs Hin Hi Hu.
  rewrite (putIncidentStatus_accepted _ _ _ _ _ Hs Hin Hi). cbn [snd].
  destruct (decided_tables req now status incident
              (resolveStation status incident db).1
              (resolveStation status incident db).2 Hin)
    as (Ei & _ & _ & Eu & _).
  destruct (resolveStation_frame status incident db) as (Fu & _).
  rewrite Eu, Ei, Fu. split.
  - rewrite lookup_alter. rewrite decide_True by reflexivity.
    now rewrite Hu.
  - eexists. split; [apply lookup_insert_eq | reflexivity].
Qed.

Lemma decideRepeatedly_rejections n :
  forall req now db incident publisher,
  body_status req = Some "REJECTED" ->
  incidents db !! params_id req = Some incident ->
  users db !! Incident.publisherId incident = Some publisher ->
  exists publisher',
    users (decideRepeatedly n req now db) !! Incident.publisherId incident
      = Some publisher' /\
    User.credibilityScore publisher'
      = User.credibilityScore publisher - Z.of_nat n.
Proof.
  induction n as [| n IH]; intros req now db incident publisher Hs Hi Hu.
  - exists publisher. split; [exact Hu | cbn; lia].
  - cbn [decideRepeatedly].
    destruct (putIncidentStatus_publisher req now db "REJECTED" incident
                publisher Hs ltac:(cbn; auto) Hi Hu)
      as (Hu' & updated & Hi' & Hp).
    rewrite <- Hp in Hu'.
    destruct (IH req now _ updated _ Hs Hi' Hu') as (p' & E & Hscore).
    exists p'. rewrite <- Hp. split; [exact E |].
    rewrite Hscore. cbn. lia.
Qed.

(** C5.  An accepted decision moves the publisher's trust score by exactly
    +2 when it is VERIFIED, by exactly -1 when it is REJECTED, and not at all
    when it is TAKEN_DOWN.  The decrement has no floor: [n] rejections in a
    row lower the score by [n], so once [n] exceeds the score the score is
    negative. *)
Theorem decision_adjusts_credibility :
  forall req now db status incident publisher,
  body_status req = Some status ->
  In status ["VERIFIED"; "REJECTED"; "TAKEN_DOWN"] ->
  incidents db !! params_id req = Some incident ->
  users db !! Incident.publisherId incident = Some publisher ->
  statusCodeOf (putIncidentStatus req now db).1 = 200 /\
  (exists publisher',
     users (putIncidentStatus req now db).2 !! Incident.publisherId incident
       = Some publisher' /\
     User.credibilityScore publisher'
       = User.credibilityScore publisher
         + (if String.eqb status "VERIFIED" then 2
            else if String.eqb status "REJECTED" then -1 else 0)) /\
  (status = "REJECTED" ->
   forall n, exists publisher',
     users (decideRepeatedly n req now db) !! Incident.publisherId incident
       = Some publisher' /\
     User.credibilityScore publisher'
       = User.credibilityScore publisher - Z.of_nat n /\
     (User.credibilityScore publisher < Z.of_nat n ->
      User.credibilityScore publisher' < 0)).
Proof.
  intros req now db status incident publisher Hs Hin Hi Hu.
  split; [| split].
  - now rewrite (putIncidentStatus_accepted _ _ _ _ _ Hs Hin Hi).
  - destruct (putIncidentStatus_publisher req now db status incident publisher
                Hs Hin Hi Hu) as (Hu' & _).
    eexists. split; [exact Hu' | reflexivity].
  - intros -> n.
    destruct (decideRepeatedly_rejections n req now db incident publisher
                Hs Hi Hu) as (p' & E & Hscore).
    exists p'. split; [exact E |]. split; [exact Hscore | lia].
Qed.

Definition submittedReport : Incident.t :=
  Incident.mk "i1" "Road blocked" "A tree fell across the main road."
    "TRAFFIC" 12 77 None (Some "Pune") None "SUBMITTED" None None None
    "u1" "CITIZEN" 0 100.

Definition oneSubmitted : Db :=
  mkDb {[ "u1" := User.mk "u1" "CITIZEN" true 50 None ]}
       {[ "i1" := submittedReport ]} [] [] [] ∅ [].

Definition rejectRequest : StatusRequest :=
  mkStatusRequest "i1" (Some "REJECTED") (Text "Duplicate") "m1" None None.

(** The theorem on a publisher who starts at the default score of 50:
    after 51 rejections the score is -1. *)
Lemma decision_adjusts_credibility_witness :
  exists publisher',
    users (decideRepeatedly 51 rejectRequest 1000 oneSubmitted) !! "u1"
      = Some publisher' /\
    User.credibilityScore publisher' = -1.
Proof.
  destruct (decision_adjusts_credibility rejectRequest 1000 oneSubmitted
              "REJECTED" submittedReport (User.mk "u1" "CITIZEN" true 50 None)
              eq_refl ltac:(cbn; auto) eq_refl eq_refl) as (_ & _ & H).
  destruct (H eq_refl 51%nat) as (p' & E & Hscore & _).
  exists p'. split; [exact E | exact Hscore].
Defined.

(** *** C3 *)

(** On the decision route the side effects go with the outcome: an accepted
    decision appends the publisher's notification (after any notifications
    to officers) and exactly one audit entry; a refused one changes
    nothing. *)
Lemma putIncidentStatus_side_effects req now db :
  (statusCodeOf (putIncidentStatus req now db).1 <> 200 ->
   (putIncidentStatus req now db).2 = db) /\
  (statusCodeOf (putIncidentStatus req now db).1 = 200 ->
   exists status incident officers,
     body_status req = Some status /\
     incidents db !! params_id req = Some incident /\
     notifications (putIncidentStatus req now db).2
     = notifications db ++ officers
       ++ [publisherNotification status (body_verificationNote req) incident] /\
     Forall (fun n => Notification.type n = "NEW_INCIDENT_NEARBY") officers /\
     auditLogs (putIncidentStatus req now db).2
     = auditLogs db
       ++ [AuditLog.mk (user_id req) (auditAction status) "INCIDENT"
             (Incident.id incident) (createField (body_verificationNote req))
             (ip req) (userAgent req)]).
Proof.
  destruct (putIncidentStatus_cases req now db)
    as [E | [E | (status & incident & Hs & Hin & Hi & E)]]; rewrite E; cbn [fst snd statusCodeOf].
  - split; [reflexivity | discriminate].
  - split; [reflexivity | discriminate].
  - split; [congruence |]. intros _.
    destruct (decided_tables req now status incident
                (resolveStation status incident db).1
                (resolveStation status incident db).2 Hin)
      as (_ & En & Ea & _).
    destruct (resolveStation_frame status incident db)
      as (_ & _ & _ & Fa & _ & _ & extra & Fn & Fx).
    exists status, incident, extra. rewrite En, Ea, Fn, Fa, <- app_assoc.
    repeat split; assumption.
Qed.

(** The review route never writes an audit entry and never touches a
    trust score. *)
Lemma putReport_writes_no_audit_entry req now now' db :
  auditLogs (putReport req now now' db).2 = auditLogs db /\
  users (putReport req now now' db).2 = users db.
Proof.
  unfold putReport.
  destruct (review_status req) as [status |]; [| now split].
  destruct (includes reviewStatuses status); [| now split]. cbn [negb].
  destruct (reports db !! review_params_id req) as [report |]; [| now split].
  destruct (incidents db !! Report.incidentId report) as [incident |];
    [| now split].
  destruct (review_takeDownIncident req); now split.
Qed.

Definition verifiedReport : Incident.t :=
  Incident.mk "i1" "Road blocked" "A tree fell across the main road."
    "TRAFFIC" 12 77 None (Some "Pune") None "VERIFIED" None (Some 500)
    (Some "m0") "u1" "CITIZEN" 0 100.

Definition oneComplaint : Db :=
  mkDb {[ "u1" := User.mk "u1" "CITIZEN" true 52 None ]}
       {[ "i1" := verifiedReport ]} [] [] []
       {[ "r1" := Report.mk "r1" "i1" "u2" "PENDING" None None None ]} [].

Definition actOnComplaint : ReviewRequest :=
  mkReviewRequest "r1" (Some "ACTION_TAKEN") (Text "Graphic content") true "m1".

(** C3 fails on the cascade.  A moderator acts on a complaint and asks for
    the report to be taken down: the report becomes TAKEN_DOWN and its
    publisher is notified, yet no audit entry is written. *)
Lemma cascaded_takedown_writes_no_audit_entry :
  (putReport actOnComplaint 1000 1001 oneComplaint).1
    = Ok 200 "Report reviewed successfully" () /\
  Incident.status
    <$> incidents (putReport actOnComplaint 1000 1001 oneComplaint).2 !! "i1"
    = Some "TAKEN_DOWN" /\
  notifications (putReport actOnComplaint 1000 1001 oneComplaint).2
    = [takenDownNotification verifiedReport] /\
  auditLogs (putReport actOnComplaint 1000 1001 oneComplaint).2 = [].
Proof. repeat split. Qed.

End AdminProofs.

(** * Further properties *)

(** ** The one-time-code store *)

Module OtpStoreExtras.
Import OtpStore OtpStoreProofs.

Lemma verifyOTP_success_spec :
  forall email candidate now (st : gmap string OtpEntry),
  (success (verifyOTP email candidate now st).1 = true <->
   exists e, st !! email = Some e /\ now <= expiresAt e /\
             attempts e < 3 /\ otp e = candidate) /\
  (success (verifyOTP email candidate now st).1 = true ->
   (verifyOTP email candidate now st).2 = delete email st).
Proof.
  intros email candidate now st.
  destruct (st !! email) as [e |] eqn:He.
  - destruct (Z_gt_le_dec now (expiresAt e)) as [Hx | Hx].
    { rewrite (verifyOTP_expired _ _ _ _ _ He Hx). cbn. split; [| discriminate].
      split; [discriminate |]. intros (e' & [= <-] & ? & _). lia. }
    destruct (Z_ge_lt_dec (attempts e) MAX_ATTEMPTS) as [Ha | Ha].
    { rewrite (verifyOTP_exhausted _ _ _ _ _ He Hx Ha). cbn.
      split; [| discriminate]. split; [discriminate |].
      intros (e' & [= <-] & _ & ? & _). unfold MAX_ATTEMPTS in Ha. lia. }
    destruct (String.eqb_spec (otp e) candidate) as [Heq | Hne].
    + subst candidate. rewrite (verifyOTP_match _ _ _ _ He Hx Ha). cbn.
      split; [| reflexivity]. split; [| reflexivity]. intros _.
      exists e. unfold MAX_ATTEMPTS in Ha. auto.
    + rewrite (verifyOTP_mismatch _ _ _ _ _ He Hx Ha Hne). cbn.
      split; [| discriminate]. split; [discriminate |].
      intros (e' & [= <-] & _ & _ & ?). contradiction.
  - rewrite (verifyOTP_missing _ _ _ _ He). cbn. split; [| discriminate].
    split; [discriminate |]. intros (e' & [=] & _).
Qed.

(** X1.  A verification succeeds exactly when the address holds a record
    that has not expired, has fewer than 3 attempts charged, and carries the
    candidate as its code; a successful verification removes the record. *)
Theorem verifyOTP_success_iff :
  forall email candidate now (st : gmap string OtpEntry),
  (success (verifyOTP email candidate now st).1 = true <->
   exists e, st !! email = Some e /\ now <= expiresAt e /\
             attempts e < 3 /\ otp e = candidate) /\
  (success (verifyOTP email candidate now st).1 = true ->
   (verifyOTP email candidate now st).2 = delete email st).
Proof. exact verifyOTP_success_spec. Qed.

(** X2.  Verifying the same candidate twice in a row: the second call never
    succeeds, whether the first succeeded or failed and whatever the two
    clock readings are. *)
Theorem verifyOTP_twice_fails :
  forall email candidate n1 n2 (st : gmap string OtpEntry),
  success (verifyOTP email candidate n2 (verifyOTP email candidate n1 st).2).1
  = false.
Proof.
  intros email candidate n1 n2 st.
  destruct (st !! email) as [e |] eqn:He.
  - destruct (String.eqb_spec (otp e) candidate) as [Heq | Hne].
    + (* the code is right: the first call deletes the record or charges it
         away *)
      destruct (Z_gt_le_dec n1 (expiresAt e)) as [Hx | Hx].
      { rewrite (verifyOTP_expired _ _ _ _ _ He Hx). cbn [snd].
        apply verifyOTP_absent_stays, lookup_delete_eq. }
      destruct (Z_ge_lt_dec (attempts e) MAX_ATTEMPTS) as [Ha | Ha].
      { rewrite (verifyOTP_exhausted _ _ _ _ _ He Hx Ha). cbn [snd].
        apply verifyOTP_absent_stays, lookup_delete_eq. }
      subst candidate. rewrite (verifyOTP_match _ _ _ _ He Hx Ha). cbn [snd].
      apply verifyOTP_absent_stays, lookup_delete_eq.
    + destruct (verifyOTP_wrong_guess email candidate n1 st e He Hne)
        as [_ [E | E]].
      * now apply verifyOTP_absent_stays.
      * apply (verifyOTP_wrong_guess _ _ _ _ _ E). exact Hne.
  - rewrite (verifyOTP_missing _ _ _ _ He). cbn [snd].
    now apply verifyOTP_absent_stays.
Qed.

(** Every stored record has between 0 and 3 attempts charged. *)
Definition attemptsBounded (st : gmap string OtpEntry) : Prop :=
  forall k e, st !! k = Some e -> 0 <= attempts e <= MAX_ATTEMPTS.

(** X3.  The attempt counter stays within 0..3: issuing a code, verifying a
    candidate and sweeping expired records each keep every stored record
    within that range. *)
Theorem attempts_stay_bounded :
  forall (st : gmap string OtpEntry),
  attemptsBounded st ->
  (forall email code t1 t2, attemptsBounded (storeOTP email code t1 t2 st)) /\
  (forall email candidate now,
     attemptsBounded (verifyOTP email candidate now st).2) /\
  (forall now, attemptsBounded (cleanupExpiredOTPs now st)).
Proof.
  intros st Hst. split; [| split].
  - intros email code t1 t2 k e. unfold storeOTP. rewrite lookup_insert.
    case_decide.
    + intros [= <-]. cbn. unfold MAX_ATTEMPTS. lia.
    + apply Hst.
  - intros email candidate now k e. unfold verifyOTP.
    destruct (st !! email) as [stored |] eqn:He; [| apply Hst].
    destruct (now >? expiresAt stored).
    { cbn. rewrite lookup_delete. case_decide; [discriminate | apply Hst]. }
    destruct (Z.geb_spec (attempts stored) MAX_ATTEMPTS) as [Ha | Ha].
    { cbn. rewrite lookup_delete. case_decide; [discriminate | apply Hst]. }
    cbn. destruct (negb _); cbn.
    + rewrite lookup_insert. case_decide; [| apply Hst].
      intros [= <-]. cbn. specialize (Hst _ _ He). lia.
    + rewrite lookup_delete. case_decide; [discriminate |].
      rewrite lookup_insert_ne by congruence. apply Hst.
  - intros now k e. unfold cleanupExpiredOTPs.
    intros H. apply map_lookup_filter_Some in H as [H _]. exact (Hst _ _ H).
Qed.

Lemma attempts_stay_bounded_witness :
  attemptsBounded (verifyOTP "a@x.com" "000000" 1
                     (storeOTP "a@x.com" "123456" 0 0 ∅)).2.
Proof.
  apply (attempts_stay_bounded (storeOTP "a@x.com" "123456" 0 0 ∅)).
  intros k e. unfold storeOTP. rewrite lookup_insert. case_decide.
  - intros [= <-]. cbn. unfold MAX_ATTEMPTS. lia.
  - rewrite lookup_empty. discriminate.
Defined.

(** X4.  The store is keyed by address: issuing or verifying a code for one
    address, and a limiter check for one address, leave what is stored for
    every other address untouched. *)
Theorem other_addresses_untouched :
  forall email other,
  other <> email ->
  (forall candidate now (st : gmap string OtpEntry),
     (verifyOTP email candidate now st).2 !! other = st !! other) /\
  (forall code t1 t2 (st : gmap string OtpEntry),
     storeOTP email code t1 t2 st !! other = st !! other) /\
  (forall now (limits : gmap string RateData),
     (checkRateLimit email now limits).2 !! other = limits !! other).
Proof.
  intros email other Hne. split; [| split].
  - intros candidate now st. unfold verifyOTP.
    destruct (st !! email) as [stored |]; [| reflexivity].
    destruct (now >? expiresAt stored);
      [cbn; now rewrite lookup_delete_ne by congruence |].
    destruct (attempts stored >=? MAX_ATTEMPTS);
      [cbn; now rewrite lookup_delete_ne by congruence |].
    cbn. destruct (negb _); cbn.
    + now rewrite lookup_insert_ne by congruence.
    + rewrite lookup_delete_ne by congruence.
      now rewrite lookup_insert_ne by congruence.
  - intros code t1 t2 st. unfold storeOTP.
    now rewrite lookup_insert_ne by congruence.
  - intros now limits. unfold checkRateLimit.
    destruct (limits !! email) as [rd |];
      [| cbn; now rewrite lookup_insert_ne by congruence].
    destruct (now >? resetAt rd);
      [cbn; now rewrite lookup_insert_ne by congruence |].
    destruct (count rd >=? MAX_REQUESTS_PER_HOUR); cbn; [reflexivity |].
    now rewrite lookup_insert_ne by congruence.
Qed.

Lemma other_addresses_untouched_witness :
  (verifyOTP "a@x.com" "000000" 1
     (storeOTP "b@x.com" "654321" 0 0 (storeOTP "a@x.com" "123456" 0 0 ∅))).2
    !! "b@x.com"
  = Some (mkOtpEntry "654321" 0 0 300000).
Proof.
  destruct (other_addresses_untouched "a@x.com" "b@x.com" ltac:(discriminate))
    as [H _].
  rewrite H. reflexivity.
Defined.

(** X5.  The sweep removes exactly the records whose expiry has passed and
    keeps the others as they are.  It never changes the outcome of a later
    verification: a record it removed could no longer verify anyway. *)
Theorem cleanupExpiredOTPs_sweeps :
  forall now (st : gmap string OtpEntry),
  (forall k e, cleanupExpiredOTPs now st !! k = Some e <->
               st !! k = Some e /\ now <= expiresAt e) /\
  (forall email candidate later, now <= later ->
     success (verifyOTP email candidate later (cleanupExpiredOTPs now st)).1
     = success (verifyOTP email candidate later st).1).
Proof.
  intros now st.
  assert (Hk : forall k e, cleanupExpiredOTPs now st !! k = Some e <->
                           st !! k = Some e /\ now <= expiresAt e).
  { intros k e. unfold cleanupExpiredOTPs. rewrite map_lookup_filter_Some.
    cbn. split; intros [H1 H2]; (split; [exact H1 | lia]). }
  split; [exact Hk |].
  intros email candidate later Hle.
  apply Bool.eq_iff_eq_true.
  destruct (verifyOTP_success_spec email candidate later
              (cleanupExpiredOTPs now st)) as [-> _].
  destruct (verifyOTP_success_spec email candidate later st) as [-> _].
  split; intros (e & He & Hx & Ha & Ho); exists e.
  - apply Hk in He as [He _]. auto.
  - split; [apply Hk; split; [exact He | lia] | auto].
Qed.

(** Every stored counter is between 1 and the ceiling of 5. *)
Definition countsBounded (limits : gmap string RateData) : Prop :=
  forall k rd, limits !! k = Some rd -> 1 <= count rd <= MAX_REQUESTS_PER_HOUR.

(** X6.  The limiter's counter stays between 1 and 5: a check never pushes
    a counter over the ceiling, and after an allowed check the address has
    a counter whose window has not yet closed. *)
Theorem counter_stays_bounded :
  forall email now (limits : gmap string RateData),
  countsBounded limits ->
  countsBounded (checkRateLimit email now limits).2 /\
  (allowed (checkRateLimit email now limits).1 = true ->
   exists rd, (checkRateLimit email now limits).2 !! email = Some rd /\
              now <= resetAt rd).
Proof.
  intros email now limits Hb. unfold checkRateLimit.
  destruct (limits !! email) as [rd |] eqn:He.
  - destruct (Z.gtb_spec now (resetAt rd)) as [Hx | Hx].
    { cbn. split.
      - intros k rd'. rewrite lookup_insert. case_decide; [| apply Hb].
        intros [= <-]. cbn. unfold MAX_REQUESTS_PER_HOUR. lia.
      - intros _. eexists. split; [apply lookup_insert_eq |]. cbn.
        unfold RATE_LIMIT_WINDOW. lia. }
    destruct (Z.geb_spec (count rd) MAX_REQUESTS_PER_HOUR) as [Hc | Hc]; cbn.
    + split; [exact Hb | discriminate].
    + split.
      * intros k rd'. rewrite lookup_insert. case_decide; [| apply Hb].
        intros [= <-]. cbn. specialize (Hb _ _ He). lia.
      * intros _. eexists. split; [apply lookup_insert_eq |]. cbn. lia.
  - cbn. split.
    + intros k rd'. rewrite lookup_insert. case_decide; [| apply Hb].
      intros [= <-]. cbn. unfold MAX_REQUESTS_PER_HOUR. lia.
    + intros _. eexists. split; [apply lookup_insert_eq |]. cbn.
      unfold RATE_LIMIT_WINDOW. lia.
Qed.

Lemma counter_stays_bounded_witness :
  countsBounded (checkRateLimit "a@x.com" 7 ∅).2.
Proof.
  apply (counter_stays_bounded "a@x.com" 7 ∅).
  intros k rd. rewrite lookup_empty. discriminate.
Defined.

(** X7.  A code request answers 200, 400 or 429.  Unless it answers 200 the
    code store is left as it was, so a code issued earlier stays usable; a
    request refused for its e-mail field (400) does not touch the limiter
    either; and the request is refused with 429 exactly when the limiter
    refuses the address. *)
Theorem sendOtp_refusals :
  forall email wellFormed now code t1 t2 st,
  let out := AuthRoutes.sendOtp email wellFormed now code t1 t2 st in
  (statusCodeOf out.1 = 200 \/ statusCodeOf out.1 = 400 \/
   statusCodeOf out.1 = 429) /\
  (statusCodeOf out.1 <> 200 ->
   AuthRoutes.otpStore out.2 = AuthRoutes.otpStore st) /\
  (statusCodeOf out.1 = 400 -> out.2 = st) /\
  (statusCodeOf out.1 = 429 <->
   exists address, email = Some address /\ wellFormed = true /\
     allowed (checkRateLimit address now (AuthRoutes.rateLimitStore st)).1
     = false).
Proof.
  intros email wellFormed now code t1 t2 st. cbv zeta.
  unfold AuthRoutes.sendOtp.
  destruct email as [address |]; cbn.
  2:{ repeat split; try (intros; discriminate); auto.
      intros (a & [=] & _). }
  destruct wellFormed; cbn.
  2:{ repeat split; try (intros; discriminate); auto.
      intros (a & _ & [=] & _). }
  destruct (checkRateLimit address now (AuthRoutes.rateLimitStore st))
    as [rateCheck limits] eqn:E.
  destruct (allowed rateCheck) eqn:Ha; cbn.
  - repeat split; try (intros; discriminate); auto; try congruence.
    intros (a & [= <-] & _ & H). rewrite E in H. cbn in H. congruence.
  - repeat split; try (intros; discriminate); auto.
    intros _. exists address. rewrite E. auto.
Qed.

End OtpStoreExtras.

(** ** The access guards *)

Module AuthExtras.
Import Prisma Auth.

Lemma includes_iff l x : includes l x = true <-> In x l.
Proof.
  unfold includes. rewrite existsb_exists. split.
  - intros (y & Hy & E). apply String.eqb_eq in E. now subst.
  - intros H. exists x. split; [exact H | apply String.eqb_refl].
Qed.

(** X8.  A guarded route admits a request exactly when its token names a
    stored, active user whose stored role is one of the roles the route
    asks for, and the request then carries that stored role.  It answers 403
    exactly when the user is stored and active but has another role; every
    other refusal is 401.  The optional guard sets a user exactly when the
    mandatory one would admit the request, and sets the same user. *)
Theorem guard_admits_iff :
  forall roles h db,
  (forall u,
     guard roles h db = Ok 200 "" u <->
     exists id user,
       h = Token id /\ users db !! id = Some user /\
       User.isActive user = true /\ In (User.role user) roles /\
       u = mkReqUser id (User.role user)) /\
  (statusCodeOf (guard roles h db) = 403 <->
   exists id user,
     h = Token id /\ users db !! id = Some user /\
     User.isActive user = true /\ ~ In (User.role user) roles) /\
  (statusCodeOf (guard roles h db) = 200 \/
   statusCodeOf (guard roles h db) = 401 \/
   statusCodeOf (guard roles h db) = 403) /\
  (forall u, optionalAuth h db = Some u <-> authenticate h db = Ok 200 "" u).
Proof.
  intros roles h db. unfold guard, authenticate, optionalAuth, authorize.
  destruct h as [| | id]; cbn.
  1,2: repeat split; try (intros; discriminate); auto;
       try (intros (? & ? & [=] & _)).
  destruct (users db !! id) as [user |] eqn:Hu; cbn.
  2:{ repeat split; try (intros; discriminate); auto;
      try (intros (? & ? & [= <-] & ? & _); congruence). }
  destruct (User.isActive user) eqn:Ha; cbn.
  2:{ repeat split; try (intros; discriminate); auto;
      try (intros (? & ? & [= <-] & ? & ? & _); congruence). }
  destruct (includes roles (User.role user)) eqn:Hr; cbn.
  - apply includes_iff in Hr. repeat split; auto; try (intros; discriminate).
    + intros [= <-]. exists id, user. auto.
    + intros (? & ? & [= <-] & ? & _ & _ & ->). congruence.
    + intros (? & ? & [= <-] & ? & _ & Hn). exfalso. apply Hn. congruence.
    + congruence.
    + congruence.
  - assert (Hn : ~ In (User.role user) roles).
    { intros Hin. apply includes_iff in Hin. congruence. }
    repeat split; auto; try (intros; discriminate).
    + intros (? & ? & [= <-] & ? & _ & Hin & _). exfalso. apply Hn. congruence.
    + intros _. exists id, user. auto.
    + congruence.
    + congruence.
Qed.

End AuthExtras.

(** ** Distances and the station scan *)

Module LocationExtras.
Import Prisma Location LocationProofs.

Local Open Scope R_scope.
Local Open Scope list_scope.

(** The quantity [a] of [calculateDistance]. *)
Definition haversineArg (lat1 lon1 lat2 lon2 : R) : R :=
  sin (toRad (lat2 - lat1) / 2) * sin (toRad (lat2 - lat1) / 2) +
  cos (toRad lat1) * cos (toRad lat2) *
  sin (toRad (lon2 - lon1) / 2) * sin (toRad (lon2 - lon1) / 2).

Lemma calculateDistance_haversineArg lat1 lon1 lat2 lon2 :
  calculateDistance lat1 lon1 lat2 lon2
  = 6371 * (2 * atan2 (sqrt (haversineArg lat1 lon1 lat2 lon2))
                      (sqrt (1 - haversineArg lat1 lon1 lat2 lon2))).
Proof. reflexivity. Qed.

Lemma sin_sq_neg x : sin (- x) * sin (- x) = sin x * sin x.
Proof. rewrite sin_neg. lra. Qed.

Lemma haversineArg_sym lat1 lon1 lat2 lon2 :
  haversineArg lat1 lon1 lat2 lon2 = haversineArg lat2 lon2 lat1 lon1.
Proof.
  unfold haversineArg, toRad.
  replace ((lat1 - lat2) * (PI / 180) / 2)
    with (- ((lat2 - lat1) * (PI / 180) / 2)) by lra.
  replace ((lon1 - lon2) * (PI / 180) / 2)
    with (- ((lon2 - lon1) * (PI / 180) / 2)) by lra.
  rewrite sin_neg, sin_neg. lra.
Qed.

(** X9.  The distance is symmetric: from A to B it is what it is from B to
    A. *)
Theorem calculateDistance_symmetric :
  forall lat1 lon1 lat2 lon2,
  calculateDistance lat1 lon1 lat2 lon2 = calculateDistance lat2 lon2 lat1 lon1.
Proof.
  intros. rewrite !calculateDistance_haversineArg.
  now rewrite (haversineArg_sym lat1 lon1 lat2 lon2).
Qed.

(** *** The scan *)

Section FirstNearest.

Variables latitude longitude : R.

Local Abbreviation dist := (distanceTo latitude longitude).

(** [s] is the first station of [l] at the least distance. *)
Definition firstNearest (l : list PoliceStation.t) (s : PoliceStation.t)
    : Prop :=
  exists before after,
    l = before ++ s :: after /\
    Forall (fun t => dist s < dist t) before /\
    Forall (fun t => dist s <= dist t) after.

Lemma nearestOf_firstNearest l s d :
  nearestOf latitude longitude l = Some (s, d) ->
  d = dist s /\ firstNearest l s.
Proof.
  unfold nearestOf. destruct l as [| first rest]; [discriminate |].
  destruct (nearerOf_scan latitude longitude rest [] first [])
    as (b & b' & a' & E & L & F1 & F2); [constructor | constructor |].
  rewrite E. intros [= <- <-]. split; [reflexivity |].
  exists b', a'. auto.
Qed.

End FirstNearest.

Lemma StronglySorted_take {A} (R : A -> A -> Prop) (l : list A) :
  StronglySorted R l -> forall n, StronglySorted R (take n l).
Proof.
  induction 1 as [| a l Hs IH Ha]; intros [| n]; cbn; try constructor.
  - apply IH.
  - now apply Forall_take.
Qed.

Lemma officersOf_iff policeStationId db u :
  In u (officersOf policeStationId db) <->
  (exists k, users db !! k = Some u) /\
  User.policeStationId u = Some policeStationId /\
  User.role u = "POLICE" /\ User.isActive u = true.
Proof.
  unfold officersOf. rewrite List.filter_In, List.in_map_iff.
  unfold isOfficerOf. rewrite !andb_true_iff, String.eqb_eq.
  split.
  - intros [([k u'] & <- & Hin) [[Hs Hr] Ha]].
    apply list_elem_of_In, elem_of_map_to_list in Hin.
    split; [now exists k |]. cbn in *.
    destruct (User.policeStationId u') as [s |]; [| discriminate].
    apply String.eqb_eq in Hs. subst s. auto.
  - intros [[k Hk] (Hs & Hr & Ha)]. split.
    + exists (k, u). split; [reflexivity |].
      now apply list_elem_of_In, elem_of_map_to_list.
    + rewrite Hs, String.eqb_refl. auto.
Qed.

(** X13.  Notifying a station creates one notification for each stored user
    who is linked to that station, has the role POLICE and is active, and
    for nobody else; each carries the incident's id, the distance and an
    urgency that is HIGH for the categories FIRE and ACCIDENT and MEDIUM
    otherwise.  Users, incidents and the audit log are not touched. *)
Theorem notifyPoliceStation_recipients :
  forall policeStationId incident distance db,
  users (notifyPoliceStation policeStationId incident distance db) = users db /\
  incidents (notifyPoliceStation policeStationId incident distance db)
    = incidents db /\
  auditLogs (notifyPoliceStation policeStationId incident distance db)
    = auditLogs db /\
  (exists sent,
     notifications (notifyPoliceStation policeStationId incident distance db)
       = notifications db ++ sent /\
     map Notification.userId sent
       = map User.id (officersOf policeStationId db) /\
     Forall (fun n =>
               Notification.type n = "NEW_INCIDENT_NEARBY" /\
               Notification.data n
               = Some (NearbyIncident (Incident.id incident) distance
                         (if String.eqb (Incident.category incident) "FIRE"
                             || String.eqb (Incident.category incident) "ACCIDENT"
                          then "HIGH" else "MEDIUM"))) sent) /\
  (forall u,
     In u (officersOf policeStationId db) <->
     (exists k, users db !! k = Some u) /\
     User.policeStationId u = Some policeStationId /\
     User.role u = "POLICE" /\ User.isActive u = true).
Proof.
  intros policeStationId incident distance db.
  split; [| split; [| split; [| split; [| apply officersOf_iff]]]];
    unfold notifyPoliceStation.
  1-3: now destruct (officersOf policeStationId db).
  destruct (officersOf policeStationId db) as [| o os] eqn:Eo.
  - exists []. rewrite app_nil_r. repeat split. constructor.
  - eexists. split; [reflexivity |]. split.
    + rewrite List.map_map. reflexivity.
    + apply List.Forall_forall. intros n Hn.
      apply List.in_map_iff in Hn as (u & <- & _). split; reflexivity.
Qed.

End LocationExtras.

(** ** The resolver and the submission loop in double precision *)

Module Binary64Extras.
Import PrimFloat SpecFloat FloatOps FloatAxioms.
Import Binary64 Binary64Proofs.
Local Open Scope float_scope.
Local Open Scope list_scope.

(** X29.  In double precision, on any platform, the resolver returns none
    exactly when no station is active.  Otherwise it returns an active row
    with the distance computed for it.  When that distance is a number, it
    is strictly below the distance of every active row before the returned
    one and at most the distance of every active row after it, rows whose
    distance is NaN apart.  A row whose distance is NaN is returned only
    when it is the first active row, and then it is returned whatever the
    distances of the others are. *)
Theorem findNearestPoliceStation_least_number :
  forall M latitude longitude policeStations,
  (findNearestPoliceStation M latitude longitude policeStations = None <->
   forall s, In s policeStations -> isActive s = false) /\
  (forall station distance,
   findNearestPoliceStation M latitude longitude policeStations
   = Some (station, distance) ->
   distance = distanceTo M latitude longitude station /\
   exists before after,
     List.filter isActive policeStations = before ++ station :: after /\
     (is_nan distance = true -> before = []) /\
     Forall (fun t =>
               is_nan (distanceTo M latitude longitude t) = true \/
               (distance <? distanceTo M latitude longitude t) = true) before /\
     (is_nan distance = false ->
      Forall (fun t =>
                is_nan (distanceTo M latitude longitude t) = true \/
                (distance <=? distanceTo M latitude longitude t) = true) after)) /\
  (forall first rest,
   List.filter isActive policeStations = first :: rest ->
   is_nan (distanceTo M latitude longitude first) = true ->
   findNearestPoliceStation M latitude longitude policeStations
   = Some (first, distanceTo M latitude longitude first)).
Proof.
  intros M latitude longitude policeStations.
  unfold findNearestPoliceStation.
  destruct (List.filter isActive policeStations) as [| first rest] eqn:El.
  - split; [| split; [discriminate | discriminate]].
    split; [| reflexivity]. intros _ s Hin.
    destruct (isActive s) eqn:Hs; [| reflexivity].
    assert (Hf : In s (List.filter isActive policeStations))
      by (apply List.filter_In; auto).
    rewrite El in Hf. destruct Hf.
  - destruct (nearerOf_scan_numbers M latitude longitude rest [] first [])
      as (b & s & a & E & L & Hn & Hb & Ha).
    { split; [reflexivity |]. split; [constructor |]. intros _. constructor. }
    cbn [app] in L. rewrite E.
    split; [| split].
    + split; [discriminate |]. intros Hall.
      assert (Hf : In first (List.filter isActive policeStations))
        by (rewrite El; now left).
      apply List.filter_In in Hf. destruct Hf as [Hin Hact].
      rewrite (Hall first Hin) in Hact. discriminate.
    + intros station distance [= <- <-]. split; [reflexivity |].
      exists b, a. now repeat split.
    + intros first' rest' [= <- <-] Hnan. f_equal.
      rewrite <- E. now apply nearerOf_keeps_nan.
Qed.


Lemma nearerOrNull_nearerOf M latitude longitude rest :
  forall s d,
  fold_left (nearerOrNull M latitude longitude) rest (Some s, d)
  = (Some (fold_left (nearerOf M latitude longitude) rest (s, d)).1,
     (fold_left (nearerOf M latitude longitude) rest (s, d)).2).
Proof.
  induction rest as [| t rest IH]; intros s d; [reflexivity |].
  cbn [fold_left]. unfold nearerOrNull at 2, nearerOf at 2 4. cbn [snd].
  destruct (distanceTo M latitude longitude t <? d); apply IH.
Qed.

(** X11.  The submission handler has a nearest-station loop of its own,
    which starts from no station and Infinity where the resolver starts from
    the first active row.  When the distance computed for the first active
    row is below Infinity, the two return the same station with the same
    distance.  When it is NaN, the resolver returns that first row, whereas
    the handler's loop passes it over and returns what it returns for the
    rows after it. *)
Theorem nearestOnSubmit_and_resolver :
  forall M latitude longitude policeStations first rest,
  List.filter isActive policeStations = first :: rest ->
  ((distanceTo M latitude longitude first <? infinity) = true ->
   exists station distance,
     findNearestPoliceStation M latitude longitude policeStations
     = Some (station, distance) /\
     nearestOnSubmit M latitude longitude policeStations
     = (Some station, distance)) /\
  (is_nan (distanceTo M latitude longitude first) = true ->
   findNearestPoliceStation M latitude longitude policeStations
   = Some (first, distanceTo M latitude longitude first) /\
   nearestOnSubmit M latitude longitude policeStations
   = fold_left (nearerOrNull M latitude longitude) rest (None, infinity)).
Proof.
  intros M latitude longitude policeStations first rest El.
  unfold findNearestPoliceStation, nearestOnSubmit. rewrite El.
  cbn [fold_left]. unfold nearerOrNull at 2 4. cbn [snd].
  split.
  - intros Hlt. rewrite Hlt, nearerOrNull_nearerOf.
    destruct (fold_left _ rest _) as [station distance].
    now exists station, distance.
  - intros Hnan. rewrite nearerOf_keeps_nan by exact Hnan.
    split; [reflexivity |].
    replace (distanceTo M latitude longitude first <? infinity) with false;
      [reflexivity |].
    symmetry. rewrite ltb_spec. apply is_nan_Prim2SF in Hnan. now rewrite Hnan.
Qed.

Lemma nearestOnSubmit_and_resolver_witness :
  findNearestPoliceStation table 2.5 0 [far; here] = Some (far, nan) /\
  nearestOnSubmit table 2.5 0 [far; here] = (Some here, 0).
Proof.
  destruct (nearestOnSubmit_and_resolver table 2.5 0 [far; here] far [here]
              eq_refl) as [_ H].
  destruct (H eq_refl) as [H1 H2]. split; [exact H1 |].
  rewrite H2. vm_compute. reflexivity.
Defined.

End Binary64Extras.

(** ** Reading, editing, deleting and reporting incidents *)

Module IncidentExtras.
Import Prisma IncidentRoutes.

Local Open Scope list_scope.

(** Who may read a report: anyone when it is VERIFIED, otherwise its
    publisher and the moderator tier. *)
Definition maySee (h : Auth.Header) (db : Db) (i : Incident.t) : Prop :=
  Incident.status i = "VERIFIED" \/
  exists u, Auth.optionalAuth h db = Some u /\
    (Auth.id u = Incident.publisherId i \/
     Auth.role u = "ADMIN" \/ Auth.role u = "MODERATOR").

Lemma getIncident_cases h id db :
  (getIncident h id db = (Error 404 "Incident not found", db) /\
   forall i, incidents db !! id = Some i -> ~ maySee h db i) \/
  (exists i, incidents db !! id = Some i /\ maySee h db i /\
     getIncident h id db
     = (Ok 200 "" i, setIncidents (<[id := addView i]> (incidents db)) db)).
Proof.
  unfold getIncident, maySee.
  destruct (incidents db !! id) as [i |]; [| left; split; [reflexivity | discriminate]].
  destruct (String.eqb_spec (Incident.status i) "VERIFIED") as [E | Hs]; cbn.
  { right. exists i. auto. }
  destruct (Auth.optionalAuth h db) as [u |].
  2:{ left. split; [reflexivity |]. intros i' [= <-] [? | (u & [=] & _)].
      contradiction. }
  destruct (String.eqb_spec (Auth.id u) (Incident.publisherId i)) as [E | Hp]; cbn.
  { right. exists i. split; [reflexivity |]. split; [| reflexivity].
    right. exists u. auto. }
  unfold includes. cbn.
  destruct (String.eqb_spec (Auth.role u) "ADMIN") as [E | Ha]; cbn.
  { right. exists i. split; [reflexivity |]. split; [| reflexivity].
    right. exists u. auto. }
  destruct (String.eqb_spec (Auth.role u) "MODERATOR") as [E | Hm]; cbn.
  { right. exists i. split; [reflexivity |]. split; [| reflexivity].
    right. exists u. auto. }
  left. split; [reflexivity |].
  intros i' [= <-] [? | (u' & [= <-] & [? | [? | ?]])]; contradiction.
Qed.

(** X14.  The handler of the single-report route (it runs once the id has
    passed the route's validator) answers 200 exactly when the report
    exists and is VERIFIED, or the reader is its publisher, an ADMIN or a
    MODERATOR.  Every other request gets the same 404 with the same message,
    whether the report is hidden from the reader or does not exist, and
    leaves the store as it was. *)
Theorem getIncident_visible_iff :
  forall h id db,
  (statusCodeOf (getIncident h id db).1 = 200 <->
   exists i, incidents db !! id = Some i /\
     (Incident.status i = "VERIFIED" \/
      exists u, Auth.optionalAuth h db = Some u /\
        (Auth.id u = Incident.publisherId i \/
         Auth.role u = "ADMIN" \/ Auth.role u = "MODERATOR"))) /\
  (statusCodeOf (getIncident h id db).1 <> 200 ->
   getIncident h id db = (Error 404 "Incident not found", db)).
Proof.
  intros h id db.
  destruct (getIncident_cases h id db) as [[E Hno] | (i & Hi & Hsee & E)];
    rewrite E; cbn.
  - split; [| reflexivity]. split; [discriminate |].
    intros (i & Hi & Hsee). destruct (Hno i Hi Hsee).
  - split; [| congruence]. split; [| reflexivity]. intros _. now exists i.
Qed.

(** X15.  A served read is counted: the response carries the report as it
    was stored before the read, and afterwards the stored report differs
    from it in its view count alone, which is one higher.  No other report
    and no other table changes. *)
Theorem getIncident_counts_view :
  forall h id db code m i db',
  getIncident h id db = (Ok code m i, db') ->
  incidents db !! id = Some i /\
  incidents db' !! id = Some (addView i) /\
  Incident.viewCount (addView i) = Incident.viewCount i + 1 /\
  Incident.status (addView i) = Incident.status i /\
  Incident.publisherId (addView i) = Incident.publisherId i /\
  Incident.policeStationId (addView i) = Incident.policeStationId i /\
  (forall other, other <> id -> incidents db' !! other = incidents db !! other) /\
  users db' = users db /\ notifications db' = notifications db /\
  auditLogs db' = auditLogs db /\ reports db' = reports db.
Proof.
  intros h id db code m i db' H.
  destruct (getIncident_cases h id db) as [[E _] | (i0 & Hi & _ & E)];
    rewrite E in H; [discriminate |].
  injection H as _ _ <- <-. cbn.
  split; [exact Hi |]. split; [apply lookup_insert_eq |].
  repeat split. intros other Hne. apply lookup_insert_ne. congruence.
Qed.

Lemma getIncident_counts_view_witness :
  incidents (getIncident Auth.NoHeader "i1" AdminProofs.oneComplaint).2 !! "i1"
  = Some (addView AdminProofs.verifiedReport).
Proof.
  assert (E : getIncident Auth.NoHeader "i1" AdminProofs.oneComplaint
              = (Ok 200 "" AdminProofs.verifiedReport,
                 (getIncident Auth.NoHeader "i1" AdminProofs.oneComplaint).2))
    by reflexivity.
  exact (proj1 (proj2 (getIncident_counts_view _ _ _ _ _ _ _ E))).
Defined.

(** *** The feed *)

Definition newestFirst (a b : Incident.t) : Prop :=
  Incident.createdAt b <= Incident.createdAt a.

Lemma StronglySorted_drop {A} (R : A -> A -> Prop) (l : list A) :
  StronglySorted R l -> forall n, StronglySorted R (drop n l).
Proof.
  induction 1 as [| a l Hs IH Ha]; intros [| n]; cbn; try constructor;
    try assumption.
  apply IH.
Qed.

Lemma insertByCreatedAtDesc_sorted x l :
  StronglySorted newestFirst l ->
  StronglySorted newestFirst (insertByCreatedAtDesc x l).
Proof.
  unfold newestFirst.
  induction 1 as [| z l Hs IH Hz]; cbn.
  - constructor; constructor.
  - destruct (Z.ltb_spec (Incident.createdAt z) (Incident.createdAt x)).
    + constructor; [now constructor |].
      constructor; [lia |].
      eapply Forall_impl; [exact Hz |]. cbn. intros; lia.
    + constructor; [exact IH |].
      apply List.Forall_forall. intros y Hy.
      apply FeedProofs.insertByCreatedAtDesc_In in Hy as [-> | Hy]; [lia |].
      rewrite List.Forall_forall in Hz. now apply Hz.
Qed.

Lemma orderByCreatedAtDesc_sorted l :
  StronglySorted newestFirst (orderByCreatedAtDesc l).
Proof.
  induction l as [| x l IH]; cbn; [constructor |].
  now apply insertByCreatedAtDesc_sorted.
Qed.

Lemma insertByCreatedAtDesc_length x l :
  length (insertByCreatedAtDesc x l) = S (length l).
Proof.
  induction l as [| y l IH]; cbn; [reflexivity |].
  destruct (_ <? _); cbn; [reflexivity | now rewrite IH].
Qed.

Lemma orderByCreatedAtDesc_length l :
  length (orderByCreatedAtDesc l) = length l.
Proof.
  induction l as [| x l IH]; [reflexivity |].
  cbn [orderByCreatedAtDesc fold_right].
  change (fold_right insertByCreatedAtDesc [] l) with (orderByCreatedAtDesc l).
  rewrite insertByCreatedAtDesc_length, IH. reflexivity.
Qed.

(** X16.  The feed always answers 200.  A page lists stored reports that
    satisfy the filter, newest first; it holds at most [limit] of them (10
    when the query gives none) and never more than the total it reports.
    When the query names no status, every report listed is VERIFIED. *)
Theorem getIncidents_page :
  forall h q db,
  exists data,
    getIncidents h q db = Ok 200 "" data /\
    feed_limit data = intOr (limit q) 10 /\
    StronglySorted (fun a b => Incident.createdAt b <= Incident.createdAt a)
      (feed_incidents data) /\
    (forall i, In i (feed_incidents data) ->
       feedWhere q i = true /\ exists id, incidents db !! id = Some i) /\
    (0 <= feed_limit data ->
     (length (feed_incidents data) <= Z.to_nat (feed_limit data))%nat) /\
    Z.of_nat (length (feed_incidents data)) <= feed_total data /\
    (truthyText (status q) = false ->
     forall i, In i (feed_incidents data) -> Incident.status i = "VERIFIED").
Proof.
  intros h q db. eexists. split; [reflexivity |]. cbn.
  split; [reflexivity |].
  set (matching := List.filter (feedWhere q) (map snd (map_to_list (incidents db)))).
  assert (Hrows : forall i,
            In i (take (Z.to_nat (intOr (limit q) 10))
                    (drop (Z.to_nat ((intOr (page q) 1 - 1) * intOr (limit q) 10))
                       (orderByCreatedAtDesc matching))) ->
            feedWhere q i = true /\ exists id, incidents db !! id = Some i).
  { intros i Hi.
    exact (FeedProofs.getIncidents_rows h q db 200 "" _ i eq_refl Hi). }
  split; [| split; [exact Hrows | split; [| split]]].
  - apply LocationExtras.StronglySorted_take, StronglySorted_drop.
    apply orderByCreatedAtDesc_sorted.
  - intros _. rewrite length_take. lia.
  - rewrite length_take, length_drop.
    rewrite orderByCreatedAtDesc_length. lia.
  - intros Hs i Hi.
    rewrite (FeedProofs.getIncidents_status h q db 200 "" _ i eq_refl Hi).
    now rewrite Hs.
Qed.

(** *** Editing *)

(** X17.  An edit whose id has passed the route's validator succeeds
    exactly when the request is authenticated, the report exists, the
    requester is its publisher and its status is DRAFT, SUBMITTED or
    REJECTED; nobody can edit a VERIFIED or TAKEN_DOWN report
    through this route.  A successful edit stores the report as SUBMITTED
    again and keeps its publisher, coordinates, jurisdiction and whatever
    moderation note, moderator and moderation time it carried.  A refused
    edit changes nothing. *)
Theorem putIncident_resubmits :
  forall h id body db,
  (statusCodeOf (putIncident h id body db).1 = 200 <->
   exists u i,
     Auth.authenticate h db = Ok 200 "" u /\
     incidents db !! id = Some i /\
     Incident.publisherId i = Auth.id u /\
     In (Incident.status i) ["DRAFT"; "SUBMITTED"; "REJECTED"]) /\
  (statusCodeOf (putIncident h id body db).1 <> 200 ->
   (putIncident h id body db).2 = db) /\
  (forall i,
     incidents db !! id = Some i ->
     statusCodeOf (putIncident h id body db).1 = 200 ->
     exists updated,
       (putIncident h id body db).1
       = Ok 200 "Incident updated successfully" updated /\
       incidents (putIncident h id body db).2 !! id = Some updated /\
       Incident.status updated = "SUBMITTED" /\
       Incident.publisherId updated = Incident.publisherId i /\
       Incident.latitude updated = Incident.latitude i /\
       Incident.longitude updated = Incident.longitude i /\
       Incident.policeStationId updated = Incident.policeStationId i /\
       Incident.verificationNote updated = Incident.verificationNote i /\
       Incident.verifiedBy updated = Incident.verifiedBy i /\
       Incident.verifiedAt updated = Incident.verifiedAt i).
Proof.
  intros h id body db. unfold putIncident.
  destruct (Auth.authenticate h db) as [c0 m0 u | c0 m0] eqn:Ea.
  2:{ cbn. assert (c0 <> 200).
      { unfold Auth.authenticate in Ea. destruct h; try (injection Ea as <- _; lia).
        destruct (users db !! userId) as [x |]; [destruct (User.isActive x) |];
          try discriminate; injection Ea as <- _; lia. }
      repeat split; try congruence. intros (? & ? & [=] & _). }
  assert (Hok : c0 = 200 /\ m0 = "").
  { unfold Auth.authenticate in Ea. destruct h; try discriminate.
    destruct (users db !! userId) as [x |]; [destruct (User.isActive x) |];
      try discriminate. now injection Ea as <- <- _. }
  destruct Hok as [-> ->].
  destruct (incidents db !! id) as [i |] eqn:Hi; cbn -[includes].
  2:{ repeat split; try congruence; try discriminate.
      intros (? & ? & _ & [=] & _). }
  destruct (String.eqb_spec (Incident.publisherId i) (Auth.id u)) as [Ep | Hp];
    cbn -[includes].
  2:{ repeat split; try congruence; try discriminate.
      intros (u' & i' & [= <-] & [= <-] & ? & _). contradiction. }
  destruct (includes editableStatuses (Incident.status i)) eqn:He;
    cbn -[includes].
  - apply AuthExtras.includes_iff in He. split; [| split].
    + split; [intros _; exists u, i; auto | reflexivity].
    + congruence.
    + intros i' [= <-] _. eexists. split; [reflexivity |].
      split; [apply lookup_insert_eq |]. repeat split.
  - split; [| split].
    + split; [discriminate |].
      intros (u' & i' & _ & [= <-] & _ & Hin).
      apply (AuthExtras.includes_iff editableStatuses) in Hin. congruence.
    + reflexivity.
    + intros i' _ [=].
Qed.

(** *** Deleting *)

Lemma authenticate_cases h db :
  (exists u, Auth.authenticate h db = Ok 200 "" u) \/
  (exists m, Auth.authenticate h db = Error 401 m).
Proof.
  unfold Auth.authenticate. destruct h; eauto.
  destruct (users db !! userId) as [x |]; [destruct (User.isActive x) |]; eauto.
Qed.

(** Every stored complaint is about a stored report. *)
Definition reportsResolve (db : Db) : Prop :=
  forall k r, reports db !! k = Some r ->
    is_Some (incidents db !! Report.incidentId r).

Lemma deleteIncidentRow_spec id db :
  incidents (deleteIncidentRow id db) !! id = None /\
  (forall other, other <> id ->
     incidents (deleteIncidentRow id db) !! other = incidents db !! other) /\
  (forall k r, reports (deleteIncidentRow id db) !! k = Some r <->
               reports db !! k = Some r /\ Report.incidentId r <> id) /\
  users (deleteIncidentRow id db) = users db /\
  (reportsResolve db -> reportsResolve (deleteIncidentRow id db)).
Proof.
  unfold deleteIncidentRow. cbn.
  split; [apply lookup_delete_eq |].
  split; [intros other Hne; apply lookup_delete_ne; congruence |].
  assert (Hr : forall k r,
            filter (fun kv => Report.incidentId kv.2 <> id) (reports db) !! k
              = Some r <->
            reports db !! k = Some r /\ Report.incidentId r <> id)
    by (intros k r; apply map_lookup_filter_Some).
  split; [exact Hr |]. split; [reflexivity |].
  intros Hres k r Hk. cbn in *. apply Hr in Hk as [Hk Hne].
  rewrite lookup_delete_ne by congruence. exact (Hres k r Hk).
Qed.

(** X18.  A delete whose id has passed the route's validator succeeds
    exactly when the request is authenticated, the report exists, and the
    requester is an ADMIN or MODERATOR, or is its publisher and the report
    is not VERIFIED.  After a successful delete the
    report is gone together with every complaint about it, other reports
    and the remaining complaints are as before, and if every complaint was
    about a stored report this is still so.  A refused delete changes
    nothing. *)
Theorem deleteIncident_removes :
  forall h id db,
  (statusCodeOf (deleteIncident h id db).1 = 200 <->
   exists u i,
     Auth.authenticate h db = Ok 200 "" u /\
     incidents db !! id = Some i /\
     (In (Auth.role u) ["ADMIN"; "MODERATOR"] \/
      (Incident.publisherId i = Auth.id u /\
       Incident.status i <> "VERIFIED"))) /\
  (statusCodeOf (deleteIncident h id db).1 <> 200 ->
   (deleteIncident h id db).2 = db) /\
  (statusCodeOf (deleteIncident h id db).1 = 200 ->
   incidents (deleteIncident h id db).2 !! id = None /\
   (forall other, other <> id ->
      incidents (deleteIncident h id db).2 !! other = incidents db !! other) /\
   (forall k r, reports (deleteIncident h id db).2 !! k = Some r <->
                reports db !! k = Some r /\ Report.incidentId r <> id) /\
   users (deleteIncident h id db).2 = users db /\
   (reportsResolve db -> reportsResolve (deleteIncident h id db).2)).
Proof.
  intros h id db. unfold deleteIncident.
  destruct (authenticate_cases h db) as [[u Ea] | [m Ea]]; rewrite Ea.
  2:{ cbn. split; [| split]; try discriminate; try reflexivity.
      split; [discriminate |]. intros (? & ? & [=] & _). }
  destruct (incidents db !! id) as [i |] eqn:Hi; cbn -[includes].
  2:{ split; [| split]; try discriminate; try reflexivity.
      split; [discriminate |]. intros (? & ? & _ & [=] & _). }
  destruct (includes ["ADMIN"; "MODERATOR"] (Auth.role u)) eqn:Hr.
  - (* the moderator tier *)
    rewrite !andb_false_r. cbn [fst snd statusCodeOf].
    apply AuthExtras.includes_iff in Hr.
    split; [| split; [congruence | intros _; apply deleteIncidentRow_spec]].
    split; [| reflexivity]. intros _. exists u, i. auto.
  - assert (Hn : ~ In (Auth.role u) ["ADMIN"; "MODERATOR"]).
    { intros Hin. apply AuthExtras.includes_iff in Hin. congruence. }
    rewrite !andb_true_r.
    destruct (String.eqb_spec (Incident.publisherId i) (Auth.id u)) as [Ep | Hp];
      cbn [negb fst snd statusCodeOf].
    2:{ split; [| split]; try discriminate; try reflexivity.
        split; [discriminate |].
        intros (u' & i' & [= <-] & [= <-] & [? | [? _]]); contradiction. }
    destruct (String.eqb_spec (Incident.status i) "VERIFIED") as [Es | Hs];
      cbn [fst snd statusCodeOf].
    + split; [| split]; try discriminate; try reflexivity.
      split; [discriminate |].
      intros (u' & i' & [= <-] & [= <-] & [? | [_ ?]]); contradiction.
    + split; [| split; [congruence | intros _; apply deleteIncidentRow_spec]].
      split; [| reflexivity]. intros _. exists u, i. auto.
Qed.

(** *** Reporting *)

Lemma alreadyReported_iff incidentId reporterId db :
  alreadyReported incidentId reporterId db = true <->
  exists k r, reports db !! k = Some r /\
              Report.incidentId r = incidentId /\
              Report.reporterId r = reporterId.
Proof.
  unfold alreadyReported. rewrite existsb_exists. split.
  - intros ([k r] & Hin & Hb). cbn in Hb.
    apply andb_prop in Hb as [H1 H2].
    apply String.eqb_eq in H1, H2.
    apply list_elem_of_In, elem_of_map_to_list in Hin. eauto.
  - intros (k & r & Hk & <- & <-). exists (k, r). split.
    + now apply list_elem_of_In, elem_of_map_to_list.
    + cbn. now rewrite !String.eqb_refl.
Qed.

(** X19.  A complaint is accepted only from an authenticated user, with a
    reason, about a stored report that this user has not complained about
    before; it is stored as PENDING under that user's name.  Once it is
    stored, every further complaint by the same user about the same report
    is refused with 400 and changes nothing. *)
Theorem reportIncident_once :
  forall h id reason newId db m db1,
  reportIncident h id reason newId db = (Ok 201 m (), db1) ->
  (exists u, Auth.authenticate h db = Ok 200 "" u /\
     is_Some (incidents db !! id) /\
     alreadyReported id (Auth.id u) db = false /\
     reports db1 !! newId
     = Some (Report.mk newId id (Auth.id u) "PENDING" None None None)) /\
  (forall reason' newId',
     statusCodeOf (reportIncident h id reason' newId' db1).1 = 400 /\
     (reportIncident h id reason' newId' db1).2 = db1).
Proof.
  intros h id reason newId db m db1. unfold reportIncident.
  destruct (authenticate_cases h db) as [[u Ea] | [m0 Ea]]; rewrite Ea;
    [| discriminate].
  destruct (truthyText reason); cbn [negb]; [| discriminate].
  destruct (incidents db !! id) as [i |] eqn:Hi; [| discriminate].
  destruct (alreadyReported id (Auth.id u) db) eqn:Hdup; [discriminate |].
  intros [= <- <-]. split.
  - exists u. repeat split; eauto. apply lookup_insert_eq.
  - intros reason' newId'.
    assert (Ea' : Auth.authenticate h
                    (setReports
                       (<[newId := Report.mk newId id (Auth.id u) "PENDING"
                                     None None None]> (reports db)) db)
                  = Ok 200 "" u) by exact Ea.
    rewrite Ea'. cbn [incidents setReports]. rewrite Hi.
    destruct (truthyText reason'); cbn [negb]; [| now split].
    assert (Hnow : alreadyReported id (Auth.id u)
                     (setReports
                        (<[newId := Report.mk newId id (Auth.id u) "PENDING"
                                      None None None]> (reports db)) db)
                   = true).
    { apply alreadyReported_iff. eexists newId, _.
      split; [apply lookup_insert_eq | split; reflexivity]. }
    rewrite Hnow. now split.
Qed.

Lemma reportIncident_once_witness :
  statusCodeOf
    (reportIncident (Auth.Token "u1") "i1" (Some "Spam again") "r2"
       (reportIncident (Auth.Token "u1") "i1" (Some "Spam") "r1"
          FeedProofs.onePending).2).1 = 400.
Proof.
  assert (E : reportIncident (Auth.Token "u1") "i1" (Some "Spam") "r1"
                FeedProofs.onePending
              = (Ok 201 "Incident reported successfully. Our team will review it." (),
                 (reportIncident (Auth.Token "u1") "i1" (Some "Spam") "r1"
                    FeedProofs.onePending).2))
    by reflexivity.
  destruct (reportIncident_once _ _ _ _ _ _ _ E) as [_ H].
  exact (proj1 (H (Some "Spam again") "r2")).
Defined.

End IncidentExtras.

(** ** The daily quota, in general *)

Module QuotaExtras.
Import Prisma PostLimit IncidentRoutes PostLimitProofs.

Local Open Scope list_scope.

(** The tracker rows of a user on a day on which the user has posted [c]
    times: no row of the day yet, or one row holding [c], with no row of the
    user for that day or a later one before it. *)
Definition postedToday (userId : string) (today : Z) (c : Z) (db : Db) : Prop :=
  (c = 0 /\ noTrackerBefore userId today (dailyPostTracker db)) \/
  (exists rows tail,
     dailyPostTracker db = rows ++ DailyPostTracker.mk userId today c :: tail /\
     noTrackerBefore userId today rows).

Lemma postedToday_count userId today c db :
  postedToday userId today c db -> currentCount userId today db = c.
Proof.
  intros [[-> Hn] | (rows & tail & E & Hn)].
  - unfold currentCount, findTracker.
    destruct (List.find _ (dailyPostTracker db)) as [t |] eqn:Ef; [| reflexivity].
    apply List.find_some in Ef as [Hin Ht].
    unfold noTrackerBefore in Hn. rewrite List.Forall_forall in Hn.
    rewrite (Hn t Hin) in Ht. discriminate.
  - exact (currentCount_of_row _ _ _ _ _ _ E Hn).
Qed.

Lemma postedToday_increment userId today c db :
  postedToday userId today c db ->
  postedToday userId today (c + 1) (incrementPostCount userId today db).
Proof.
  intros [[-> Hn] | (rows & tail & E & Hn)]; right.
  - rewrite (incrementPostCount_first _ _ _ Hn).
    exists (dailyPostTracker db), []. split; [reflexivity | exact Hn].
  - rewrite (incrementPostCount_next _ _ _ _ _ _ E Hn).
    exists rows, tail. split; [reflexivity | exact Hn].
Qed.

(** X20.  The daily quota is exact for every configured ceiling.  When an
    active user who has no tracker row for the day submits any number of
    valid reports that day, submission number [i] (from 0) is created when
    [i] is below the ceiling of the user's role and refused with 429
    otherwise: as many reports as the ceiling allows are accepted, all
    later ones refused. *)
Theorem daily_quota_exact :
  forall config userId user today submissions db,
  users db !! userId = Some user ->
  User.isActive user = true ->
  findTracker userId today db = None ->
  Forall (fun s => body_valid s.1.1 = true) submissions ->
  forall i r,
    (createIncidents config (Auth.Token userId) today submissions db).1 !! i
      = Some r ->
    statusCodeOf r
    = if Z.of_nat i <? limitFor config (User.role user) then 201 else 429.
Proof.
  intros config userId user today submissions db Hu Ha Hfresh Hvalid.
  assert (Hshape : postedToday userId today 0 db).
  { left. split; [reflexivity | now apply find_none_noTrackerBefore]. }
  clear Hfresh. revert Hshape.
  change (Z.of_nat) with (fun i => 0 + Z.of_nat i) at 1.
  generalize 0 at 1 2 as c. cbn beta.
  revert db Hu.
  induction Hvalid as [| [[body newId] now] rest Hv _ IH];
    intros db Hu c Hshape i r Hr; [destruct i; discriminate |].
  cbn [createIncidents] in Hr. cbn in Hv.
  pose proof (postedToday_count _ _ _ _ Hshape) as Hc.
  destruct (Z_lt_ge_dec c (limitFor config (User.role user))) as [Hlt | Hge].
  - destruct (createIncident_accepted config userId user body today newId now db
                Hu Ha Hv) as (incident & E & _); [lia |].
    rewrite E in Hr.
    set (db1 := incrementPostCount userId today _) in *.
    assert (Hu1 : users db1 !! userId = Some user).
    { subst db1. unfold incrementPostCount.
      destruct (bumpTracker _ _ _); exact Hu. }
    assert (Hshape1 : postedToday userId today (c + 1) db1).
    { subst db1. apply postedToday_increment.
      destruct Hshape as [H | H]; [left | right]; exact H. }
    specialize (IH db1 Hu1 (c + 1) Hshape1).
    destruct (createIncidents config (Auth.Token userId) today rest db1)
      as [rs db2].
    destruct i as [| i]; cbn in Hr.
    + injection Hr as <-. cbn [statusCodeOf].
      destruct (Z.ltb_spec (c + Z.of_nat 0) (limitFor config (User.role user)));
        [reflexivity | lia].
    + rewrite (IH i r Hr).
      replace (c + 1 + Z.of_nat i) with (c + Z.of_nat (S i)) by lia.
      reflexivity.
  - rewrite (createIncident_limited config userId user body today newId now
               today db Hu Ha) in Hr by lia.
    specialize (IH db Hu c Hshape).
    destruct (createIncidents config (Auth.Token userId) today rest db)
      as [rs db2].
    destruct i as [| i]; cbn in Hr.
    + injection Hr as <-. cbn [statusCodeOf].
      destruct (Z.ltb_spec (c + Z.of_nat 0) (limitFor config (User.role user)));
        [lia | reflexivity].
    + rewrite (IH i r Hr).
      destruct (Z.ltb_spec (c + Z.of_nat i) (limitFor config (User.role user)));
        destruct (Z.ltb_spec (c + Z.of_nat (S i))
                    (limitFor config (User.role user)));
        try reflexivity; lia.
Qed.

(** A store with one active verified reporter. *)
Definition oneReporter : Db :=
  mkDb {[ "u7" := User.mk "u7" "VERIFIED_REPORTER" true 60 None ]}
       ∅ [] [] [] ∅ [].

Definition sixSubmissions : list (CreateBody * string * Z) :=
  [(someBody, "i1", 1); (someBody, "i2", 2); (someBody, "i3", 3);
   (someBody, "i4", 4); (someBody, "i5", 5); (someBody, "i6", 6)].

(** The theorem on a verified reporter under the default ceiling of 5: the
    sixth submission of the day is the first to be refused. *)
Lemma daily_quota_exact_witness :
  exists r,
    (createIncidents defaultConfig (Auth.Token "u7") 0 sixSubmissions
       oneReporter).1 !! 5%nat = Some r /\
    statusCodeOf r = 429.
Proof.
  exists (Error 429
    "Daily posting limit reached. Verified reporters can post 5 incidents per day.").
  assert (E : (createIncidents defaultConfig (Auth.Token "u7") 0 sixSubmissions
                 oneReporter).1 !! 5%nat
              = Some (Error 429
    "Daily posting limit reached. Verified reporters can post 5 incidents per day."))
    by reflexivity.
  split; [exact E |].
  exact (daily_quota_exact defaultConfig "u7"
           (User.mk "u7" "VERIFIED_REPORTER" true 60 None) 0 sixSubmissions
           oneReporter eq_refl eq_refl eq_refl
           ltac:(repeat constructor) 5%nat _ E).
Defined.

Lemma find_app_right {A} (f : A -> bool) (l : list A) x :
  List.find f (l ++ [x])
  = match List.find f l with
    | Some y => Some y
    | None => if f x then Some x else None
    end.
Proof.
  induction l as [| y l IH]; cbn; [reflexivity |].
  destruct (f y); [reflexivity | exact IH].
Qed.

Lemma find_other_after_bump userId today other day rows rows' :
  other <> userId ->
  bumpTracker userId today rows = Some rows' ->
  List.find (fun t => String.eqb (DailyPostTracker.userId t) other
                      && (day <=? DailyPostTracker.date t)) rows'
  = List.find (fun t => String.eqb (DailyPostTracker.userId t) other
                        && (day <=? DailyPostTracker.date t)) rows.
Proof.
  intros Hne. revert rows'.
  induction rows as [| t rows IH]; intros rows'; cbn; [discriminate |].
  destruct (String.eqb_spec (DailyPostTracker.userId t) userId) as [Eu | Hu]; cbn.
  - destruct (DailyPostTracker.date t =? today).
    + intros [= <-]. cbn. rewrite Eu.
      destruct (String.eqb_spec userId other); [congruence | reflexivity].
    + destruct (bumpTracker userId today rows) as [r |]; [| discriminate].
      intros [= <-]. cbn. rewrite (IH r eq_refl). reflexivity.
  - destruct (bumpTracker userId today rows) as [r |]; [| discriminate].
    intros [= <-]. cbn. rewrite (IH r eq_refl). reflexivity.
Qed.

Lemma currentCount_other userId today other day db :
  other <> userId ->
  currentCount other day (incrementPostCount userId today db)
  = currentCount other day db.
Proof.
  intros Hne. unfold currentCount, findTracker, incrementPostCount.
  destruct (bumpTracker userId today (dailyPostTracker db)) as [rows' |] eqn:Eb;
    cbn.
  - now rewrite (find_other_after_bump _ _ _ _ _ _ Hne Eb).
  - rewrite find_app_right.
    destruct (List.find _ (dailyPostTracker db)); [reflexivity |].
    cbn. destruct (String.eqb_spec userId other); [congruence | reflexivity].
Qed.

(** X21.  The gates of a submission run before its body is looked at.  A
    submission that [authenticate] refuses is answered 401, and a submission
    of an authenticated user whose count for the day has reached the ceiling
    of the user's role is answered 429 with the message of the limit,
    whatever the body is.  In both cases nothing changes: no report is
    stored and no quota is used.  No submission changes the day count of
    another user. *)
Theorem createIncident_gates :
  forall config h body today newId now today' db,
  ((forall u, Auth.authenticate h db <> Ok 200 "" u) ->
   exists m,
     createIncident config h body today newId now today' db
     = (Error 401 m, db)) /\
  (forall u,
     Auth.authenticate h db = Ok 200 "" u ->
     limitFor config (Auth.role u) <= currentCount (Auth.id u) today db ->
     createIncident config h body today newId now today' db
     = (Error 429
          (limitMessage (Auth.role u) (limitFor config (Auth.role u))), db)) /\
  (forall u other day,
     Auth.authenticate h db = Ok 200 "" u -> other <> Auth.id u ->
     currentCount other day
       (createIncident config h body today newId now today' db).2
     = currentCount other day db).
Proof.
  intros config h body today newId now today' db.
  unfold createIncident.
  destruct (IncidentExtras.authenticate_cases h db) as [[u Ea] | [m Ea]];
    rewrite Ea.
  2:{ split; [intros _; now exists m |].
      split; [intros u [=] | intros u other day [=]]. }
  split; [intros H; destruct (H u eq_refl) |].
  split.
  - intros u' [= <-] Hfull.
    now rewrite (checkPostLimit_refuses config u today db) by lia.
  - intros u' other day [= <-] Hne.
    destruct (checkPostLimit config (Some u) today db) as [[code m] |];
      [reflexivity |].
    destruct (body_valid body); cbn [negb snd]; [| reflexivity].
    now rewrite currentCount_other.
Qed.

(** X22.  Counts do not carry over: when each of a user's tracker rows is
    dated before the midnight of today, the gate lets the user through,
    whatever those rows count, as long as the ceiling of the role is
    positive. *)
Theorem checkPostLimit_new_day :
  forall config u today db,
  (forall t, In t (dailyPostTracker db) ->
     DailyPostTracker.userId t = Auth.id u ->
     DailyPostTracker.date t < today) ->
  0 < limitFor config (Auth.role u) ->
  checkPostLimit config (Some u) today db = None.
Proof.
  intros config u today db Hrows Hlim.
  apply checkPostLimit_passes. unfold currentCount, findTracker.
  destruct (List.find _ (dailyPostTracker db)) as [t |] eqn:Ef; [| exact Hlim].
  apply List.find_some in Ef as [Hin Ht].
  apply andb_prop in Ht as [Hu Hd].
  apply String.eqb_eq in Hu. apply Z.leb_le in Hd.
  specialize (Hrows t Hin Hu). lia.
Qed.

Lemma checkPostLimit_new_day_witness :
  checkPostLimit defaultConfig (Some (Auth.mkReqUser "u1" "CITIZEN")) 86400000
    (setDailyPostTracker [DailyPostTracker.mk "u1" 0 2] oneCitizen)
  = None.
Proof.
  apply checkPostLimit_new_day.
  - intros t [<- | []] _. cbn. lia.
  - cbn. lia.
Defined.

End QuotaExtras.

(** ** Moderation, in general *)

Module AdminExtras.
Import Prisma AdminRoutes AdminProofs.

Local Open Scope list_scope.

(** X23.  On the decision route the side effects go with the outcome.  A
    decision that is answered 400 or 404 changes nothing at all.  A decision
    answered 200 appends exactly one audit entry, which names the acting
    moderator, the report and the action of the decision (VERIFY_INCIDENT,
    REJECT_INCIDENT or TAKEDOWN_INCIDENT), and appends one notification for
    the publisher, after the notifications for officers if there are any. *)
Theorem decision_side_effects :
  forall req now db,
  (statusCodeOf (putIncidentStatus req now db).1 = 400 \/
   statusCodeOf (putIncidentStatus req now db).1 = 404 ->
   (putIncidentStatus req now db).2 = db) /\
  (statusCodeOf (putIncidentStatus req now db).1 = 200 ->
   exists status incident officers,
     body_status req = Some status /\
     incidents db !! params_id req = Some incident /\
     notifications (putIncidentStatus req now db).2
     = notifications db ++ officers
       ++ [publisherNotification status (body_verificationNote req) incident] /\
     Forall (fun n => Notification.type n = "NEW_INCIDENT_NEARBY") officers /\
     Notification.userId
       (publisherNotification status (body_verificationNote req) incident)
     = Incident.publisherId incident /\
     auditLogs (putIncidentStatus req now db).2
     = auditLogs db
       ++ [AuditLog.mk (user_id req)
             (if String.eqb status "VERIFIED" then "VERIFY_INCIDENT"
              else if String.eqb status "REJECTED" then "REJECT_INCIDENT"
              else "TAKEDOWN_INCIDENT")
             "INCIDENT" (Incident.id incident)
             (createField (body_verificationNote req)) (ip req)
             (userAgent req)]).
Proof.
  intros req now db.
  destruct (putIncidentStatus_side_effects req now db) as [Hno Hyes].
  split; [intros [H | H]; apply Hno; rewrite H; discriminate |]. intros H200.
  destruct (Hyes H200) as (status & incident & officers & Hs & Hi & Hn & Hf & Ha).
  exists status, incident, officers. repeat split; assumption.
Qed.






(** *** Reviewing a complaint *)

(** X25.  What reviewing a complaint leaves alone.  A review that is not
    answered 200 changes nothing.  No review writes an audit entry, changes
    a user, a station or a posting counter, or touches a complaint other
    than the reviewed one; a review answered 200 stamps the reviewed
    complaint with the new status and the reviewer.  A review that does not
    ask for a take-down changes no report and notifies nobody. *)
Theorem putReport_frame :
  forall req now now' db,
  (statusCodeOf (putReport req now now' db).1 <> 200 ->
   (putReport req now now' db).2 = db) /\
  auditLogs (putReport req now now' db).2 = auditLogs db /\
  users (putReport req now now' db).2 = users db /\
  policeStations (putReport req now now' db).2 = policeStations db /\
  dailyPostTracker (putReport req now now' db).2 = dailyPostTracker db /\
  (forall other, other <> review_params_id req ->
   reports (putReport req now now' db).2 !! other = reports db !! other) /\
  (statusCodeOf (putReport req now now' db).1 = 200 ->
   exists status reviewed,
     review_status req = Some status /\
     reports (putReport req now now' db).2 !! review_params_id req
       = Some reviewed /\
     Report.status reviewed = status /\
     Report.reviewedById reviewed = Some (review_user_id req) /\
     Report.reviewedAt reviewed = Some now) /\
  (review_takeDownIncident req = false ->
   incidents (putReport req now now' db).2 = incidents db /\
   notifications (putReport req now now' db).2 = notifications db).
Proof.
  intros req now now' db. unfold putReport.
  destruct (review_status req) as [status |];
    [| cbn; repeat split; auto; discriminate].
  destruct (includes reviewStatuses status);
    [| cbn; repeat split; auto; discriminate].
  cbn [negb].
  destruct (reports db !! review_params_id req) as [report |];
    [| cbn; repeat split; auto; discriminate].
  assert (Hother : forall other, other <> review_params_id req ->
            <[review_params_id req :=
                review status (review_reviewNote req) (review_user_id req)
                  now report]> (reports db) !! other = reports db !! other).
  { intros other Hne. apply lookup_insert_ne. congruence. }
  destruct (incidents db !! Report.incidentId report) as [incident |];
    [destruct (review_takeDownIncident req) |]; cbn;
    (split; [congruence |]);
    repeat (split; [first [reflexivity | exact Hother] |]);
    (split; [| first [discriminate | intros _; split; reflexivity]]);
    intros _; exists status; eexists;
    (split; [reflexivity |]); (split; [apply lookup_insert_eq |]);
    repeat split.
Qed.

(** X26.  A take-down decided while reviewing a complaint hides the report.
    When the complaint's report is stored under its own id and the review
    asks for the take-down, the review is answered 200, the report becomes
    TAKEN_DOWN with the reviewer as its verifier and keeps its station, its
    publisher gets one notification, and from then on the single-report
    route answers 404 to every reader who is neither the publisher nor an
    ADMIN or MODERATOR, anonymous readers included. *)
Theorem report_takedown_hides :
  forall req now now' db status report incident,
  review_status req = Some status ->
  In status ["REVIEWED"; "ACTION_TAKEN"; "DISMISSED"] ->
  reports db !! review_params_id req = Some report ->
  incidents db !! Report.incidentId report = Some incident ->
  Incident.id incident = Report.incidentId report ->
  review_takeDownIncident req = true ->
  statusCodeOf (putReport req now now' db).1 = 200 /\
  (exists hidden,
     incidents (putReport req now now' db).2 !! Report.incidentId report
       = Some hidden /\
     Incident.status hidden = "TAKEN_DOWN" /\
     Incident.verifiedBy hidden = Some (review_user_id req) /\
     Incident.publisherId hidden = Incident.publisherId incident /\
     Incident.policeStationId hidden = Incident.policeStationId incident) /\
  notifications (putReport req now now' db).2
  = notifications db ++ [takenDownNotification incident] /\
  Notification.userId (takenDownNotification incident)
  = Incident.publisherId incident /\
  (forall h,
   (forall u, Auth.optionalAuth h db = Some u ->
      Auth.id u <> Incident.publisherId incident /\
      Auth.role u <> "ADMIN" /\ Auth.role u <> "MODERATOR") ->
   IncidentRoutes.getIncident h (Report.incidentId report)
     (putReport req now now' db).2
   = (Error 404 "Incident not found", (putReport req now now' db).2)).
Proof.
  intros req now now' db status report incident Hs Hin Hr Hi Hid Htd.
  unfold putReport. rewrite Hs.
  apply includes_In in Hin.
  change (includes reviewStatuses status = true) in Hin.
  rewrite Hin. cbn [negb].
  rewrite Hr, Hi, Htd, Hid. cbn [fst snd statusCodeOf].
  split; [reflexivity |].
  unfold createNotifications, setNotifications, setIncidents, setReports.
  cbn [users incidents policeStations auditLogs reports dailyPostTracker
       notifications].
  split.
  { eexists. split; [apply lookup_insert_eq |]. repeat split. }
  split; [reflexivity |]. split; [reflexivity |].
  intros h Hh.
  match goal with |- IncidentRoutes.getIncident h ?k ?d = _ =>
    destruct (IncidentExtras.getIncident_cases h k d)
      as [[E _] | (i & Hlook & Hsee & _)]
  end; [exact E | exfalso].
  cbn [incidents] in Hlook. rewrite lookup_insert_eq in Hlook.
  injection Hlook as <-.
  destruct Hsee as [Hv | (u & Hu & Hrole)]; [discriminate Hv |].
  assert (Hu' : Auth.optionalAuth h db = Some u).
  { destruct h; exact Hu. }
  destruct (Hh u Hu') as (H1 & H2 & H3).
  cbn [Incident.publisherId takeDown] in Hrole. tauto.
Qed.

Lemma report_takedown_hides_witness :
  IncidentRoutes.getIncident Auth.NoHeader "i1"
    (putReport actOnComplaint 1000 1001 oneComplaint).2
  = (Error 404 "Incident not found",
     (putReport actOnComplaint 1000 1001 oneComplaint).2).
Proof.
  destruct (report_takedown_hides actOnComplaint 1000 1001 oneComplaint
              "ACTION_TAKEN"
              (Report.mk "r1" "i1" "u2" "PENDING" None None None)
              verifiedReport eq_refl ltac:(cbn; auto) eq_refl eq_refl eq_refl
              eq_refl) as (_ & _ & _ & _ & H).
  apply (H Auth.NoHeader). intros u [=].
Defined.

(** *** Accounts *)

(** X27.  The account route.  A request that is not answered 200 changes
    nothing.  An actor who is not an ADMIN never changes anyone's role.  No
    request creates or removes an account or changes a credibility score or
    a station assignment.  An account deactivated by a request answered 200
    is locked out at once: its token is refused with 401 by every guarded
    route and counts as anonymous on the optional ones. *)
Theorem putUser_roles_and_lockout :
  forall req db,
  (statusCodeOf (putUser req db).1 <> 200 -> (putUser req db).2 = db) /\
  (Auth.role (update_actor req) <> "ADMIN" ->
   forall k u u',
     users db !! k = Some u -> users (putUser req db).2 !! k = Some u' ->
     User.role u' = User.role u) /\
  (forall k,
     match users db !! k, users (putUser req db).2 !! k with
     | Some u, Some u' =>
         User.credibilityScore u' = User.credibilityScore u /\
         User.policeStationId u' = User.policeStationId u /\
         (k <> update_params_id req -> u' = u)
     | None, None => True
     | _, _ => False
     end) /\
  (statusCodeOf (putUser req db).1 = 200 ->
   update_isActive req = Some false ->
   Auth.optionalAuth (Auth.Token (update_params_id req)) (putUser req db).2
     = None /\
   forall roles,
     Auth.guard roles (Auth.Token (update_params_id req)) (putUser req db).2
     = Error 401 "User not found or inactive").
Proof.
  intros req db. unfold putUser.
  destruct (users db !! update_params_id req) as [user |] eqn:Hu.
  2:{ cbn. split; [reflexivity |]. split; [congruence |].
      split; [| discriminate].
      intros k. now destruct (users db !! k). }
  destruct (truthyText (update_role req)) eqn:Hrole; cbn [andb].
  - destruct (String.eqb_spec (Auth.role (update_actor req)) "ADMIN")
      as [Ha | Ha]; cbn [negb fst snd statusCodeOf].
    + split; [congruence |]. split; [contradiction |]. split.
      * intros k. cbn [users setUsers].
        destruct (decide (k = update_params_id req)) as [-> | Hne].
        -- rewrite Hu, lookup_insert_eq. cbn. repeat split. congruence.
        -- rewrite lookup_insert_ne by congruence.
           now destruct (users db !! k).
      * intros _ Hoff. unfold Auth.guard, Auth.authenticate, Auth.optionalAuth.
        cbn [users setUsers]. rewrite lookup_insert_eq.
        unfold updateUser. cbn [User.isActive]. rewrite Hoff. cbn. auto.
    + split; [reflexivity |]. split; [congruence |].
      split; [| discriminate].
      intros k. now destruct (users db !! k).
  - cbn [fst snd statusCodeOf]. split; [congruence |]. split; [| split].
    + intros _ k u u' Hk Hk'. cbn [users setUsers] in Hk'.
      destruct (decide (k = update_params_id req)) as [-> | Hne].
      * rewrite lookup_insert_eq in Hk'. injection Hk' as <-.
        rewrite Hu in Hk. injection Hk as <-.
        unfold updateUser. cbn [User.role]. now rewrite Hrole.
      * rewrite lookup_insert_ne in Hk' by congruence. congruence.
    + intros k. cbn [users setUsers].
      destruct (decide (k = update_params_id req)) as [-> | Hne].
      * rewrite Hu, lookup_insert_eq. cbn. repeat split. congruence.
      * rewrite lookup_insert_ne by congruence.
        now destruct (users db !! k).
    + intros _ Hoff. unfold Auth.guard, Auth.authenticate, Auth.optionalAuth.
      cbn [users setUsers]. rewrite lookup_insert_eq.
      unfold updateUser. cbn [User.isActive]. rewrite Hoff. cbn. auto.
Qed.

(** *** Stations *)

Lemma findNearestPoliceStation_active lat lon stations station distance :
  Location.findNearestPoliceStation lat lon stations = Some (station, distance) ->
  In station stations /\ PoliceStation.isActive station = true.
Proof.
  intros H. apply List.filter_In.
  unfold Location.findNearestPoliceStation in H.
  destruct (LocationExtras.nearestOf_firstNearest _ _ _ _ _ H)
    as (_ & before & after & E & _).
  rewrite E. apply in_or_app. right. now left.
Qed.

(** X28.  Deleting a station.  Only an ADMIN gets past the route's guard;
    anyone else is answered 403 and nothing changes, as nothing changes on
    any answer other than 200.  After a 200 the resolver never returns a
    station with the deleted id again.  When a report is linked to the
    station the rows are kept, the station is only deactivated, and no
    report or account changes; when none is linked, no row with that id is
    left and no account refers to the station any more. *)
Theorem deletePoliceStation_effects :
  forall actor id db,
  (Auth.role actor <> "ADMIN" ->
   deletePoliceStation actor id db
   = (Error 403 "Insufficient permissions", db)) /\
  (statusCodeOf (deletePoliceStation actor id db).1 <> 200 ->
   (deletePoliceStation actor id db).2 = db) /\
  (statusCodeOf (deletePoliceStation actor id db).1 = 200 ->
   (forall lat lon station distance,
      Location.findNearestPoliceStation lat lon
        (policeStations (deletePoliceStation actor id db).2)
      = Some (station, distance) ->
      PoliceStation.id station <> id) /\
   ((0 < linkedIncidents id db)%nat ->
    incidents (deletePoliceStation actor id db).2 = incidents db /\
    users (deletePoliceStation actor id db).2 = users db /\
    map PoliceStation.id (policeStations (deletePoliceStation actor id db).2)
    = map PoliceStation.id (policeStations db) /\
    forall station,
      In station (policeStations (deletePoliceStation actor id db).2) ->
      PoliceStation.id station = id -> PoliceStation.isActive station = false) /\
   (linkedIncidents id db = 0%nat ->
    (forall station,
       In station (policeStations (deletePoliceStation actor id db).2) ->
       PoliceStation.id station <> id) /\
    forall k u,
      users (deletePoliceStation actor id db).2 !! k = Some u ->
      User.policeStationId u <> Some id)).
Proof.
  intros actor id db. unfold deletePoliceStation, Auth.authorize, includes.
  cbn [existsb orb].
  destruct (String.eqb_spec (Auth.role actor) "ADMIN") as [Ha | Ha];
    cbn [orb].
  2:{ cbn [fst snd statusCodeOf].
      split; [reflexivity |]. split; [reflexivity | congruence]. }
  split; [congruence |].
  destruct (List.find _ (policeStations db)) as [found |];
    [| cbn; split; [reflexivity | discriminate]].
  destruct (Nat.ltb_spec 0 (linkedIncidents id db)) as [Hl | Hl];
    cbn [fst snd statusCodeOf]; (split; [congruence |]); intros _.
  - cbn [setPoliceStations policeStations incidents users].
    assert (Hoff : forall station,
              In station (map (fun s => if String.eqb (PoliceStation.id s) id
                                        then deactivate s else s)
                            (policeStations db)) ->
              PoliceStation.id station = id ->
              PoliceStation.isActive station = false).
    { intros station Hin Hid. apply List.in_map_iff in Hin.
      destruct Hin as (s0 & E & _).
      destruct (String.eqb_spec (PoliceStation.id s0) id) as [E0 | E0];
        subst station; [reflexivity | contradiction]. }
    split; [| split].
    + intros lat lon station distance H.
      apply findNearestPoliceStation_active in H. destruct H as [Hin Hact].
      intros Hid. rewrite (Hoff station Hin Hid) in Hact. discriminate.
    + intros _. split; [reflexivity |]. split; [reflexivity |].
      split; [| exact Hoff].
      rewrite List.map_map. apply List.map_ext. intros s.
      now destruct (String.eqb (PoliceStation.id s) id).
    + lia.
  - assert (Hgone : forall station,
              In station (policeStations (deletePoliceStationRow id db)) ->
              PoliceStation.id station <> id).
    { intros station Hin. cbn in Hin. apply List.filter_In in Hin.
      destruct Hin as [_ Hne]. apply negb_true_iff in Hne.
      now apply String.eqb_neq. }
    split; [| split].
    + intros lat lon station distance H.
      apply findNearestPoliceStation_active in H. destruct H as [Hin _].
      now apply Hgone.
    + lia.
    + intros _. split; [exact Hgone |].
      intros k u Hk. cbn in Hk. rewrite lookup_fmap in Hk.
      destruct (users db !! k) as [u0 |]; [| discriminate].
      injection Hk as <-. unfold clearUserStation. cbn.
      destruct (User.policeStationId u0) as [s |]; [| discriminate].
      destruct (String.eqb_spec s id) as [E | E]; congruence.
Qed.

End AdminExtras.
